(** * Document server over a vector index: the glue code, embedded and verified

    A shallow embedding of [server/config.py], [server/models/vector_store.py],
    [server/routes/documents.py] and [server/routes/search.py].

    - Python values that arrive untyped (JSON bodies, metadata, arguments that
      the routes pass on unchecked) are values of [pyval].
    - A Python [str] is carried as its UTF-8 encoding: a [string] here is a
      sequence of bytes.  Splitting at ['.'], searching a substring, comparing
      and concatenating are the same on the encoding as on the code points;
      [str.strip()] is written out on the encoding, for all of Unicode's white
      space; [str.lower()], whose table is the Unicode database's, is a
      parameter.
    - A handler is a computation in [M]: it threads the [World] (external
      services, file system, log, trace of external calls) and either returns
      or raises an [Exn].
    - The vector index, the embedding provider, the clock and the uuid source
      are not code of this program: every call to them goes through
      [perform], a parameter of the development, and is recorded in the trace.
      What a theorem needs from them is a hypothesis of that theorem. *)

From Stdlib Require Import ZArith QArith Ascii String List Bool Lia Sorted.
From stdpp Require Import base option list strings pretty gmap.

Local Open Scope string_scope.
Local Open Scope Z_scope.

(** ** Python strings *)

Module PyStr.

(** [sub in s] for two strings. *)
Fixpoint contains (sub s : string) : bool :=
  String.prefix sub s ||
  match s with
  | EmptyString => false
  | String _ s' => contains sub s'
  end.

(** The split of [s] at its last [sep], when there is one. *)
Fixpoint rsplit_at (sep : ascii) (s : string) : option (string * string) :=
  match s with
  | EmptyString => None
  | String c s' =>
      match rsplit_at sep s' with
      | Some (a, b) => Some (String c a, b)
      | None => if Ascii.eqb c sep then Some (EmptyString, s') else None
      end
  end.

(** [s.rsplit(sep, 1)]: one element when [sep] does not occur, else two. *)
Definition rsplit1 (sep : ascii) (s : string) : list string :=
  match rsplit_at sep s with
  | Some (a, b) => [a; b]
  | None => [s]
  end.

(** The characters that [str.strip()] removes are those of [str.isspace()]:
    U+0009 to U+000D, U+001C to U+0020, U+0085, U+00A0, U+1680, U+2000 to
    U+200A, U+2028, U+2029, U+202F, U+205F and U+3000.  The first two ranges
    are single bytes; the others are encoded in two or three. *)
Definition is_space (c : ascii) : bool :=
  let n := nat_of_ascii c in
  ((Nat.leb 9 n && Nat.leb n 13) || (Nat.leb 28 n && Nat.leb n 32))%bool.

(** U+0085 and U+00A0, after the lead byte [C2]. *)
Definition is_space2 (c2 : ascii) : bool :=
  let n := nat_of_ascii c2 in (Nat.eqb n 133 || Nat.eqb n 160)%bool.

(** The white space encoded in three bytes. *)
Definition is_space3 (c1 c2 c3 : ascii) : bool :=
  let n1 := nat_of_ascii c1 in
  let n2 := nat_of_ascii c2 in
  let n3 := nat_of_ascii c3 in
  ((Nat.eqb n1 225 && Nat.eqb n2 154 && Nat.eqb n3 128)
   || (Nat.eqb n1 226 && Nat.eqb n2 128
       && ((Nat.leb 128 n3 && Nat.leb n3 138)
           || Nat.eqb n3 168 || Nat.eqb n3 169 || Nat.eqb n3 175))
   || (Nat.eqb n1 226 && Nat.eqb n2 129 && Nat.eqb n3 159)
   || (Nat.eqb n1 227 && Nat.eqb n2 128 && Nat.eqb n3 128))%bool.

(** Every character of [s] is white space. *)
Fixpoint blank (s : string) : bool :=
  match s with
  | EmptyString => true
  | String c1 s1 =>
      if is_space c1 then blank s1
      else
        match s1 with
        | EmptyString => false
        | String c2 s2 =>
            if Nat.eqb (nat_of_ascii c1) 194 then is_space2 c2 && blank s2
            else
              match s2 with
              | EmptyString => false
              | String c3 s3 => is_space3 c1 c2 c3 && blank s3
              end
        end
  end.

(** [bool(s.strip())]: some character of [s] is not white space. *)
Definition strip_nonempty (s : string) : bool := negb (blank s).

(** [sep.join(parts)] *)
Definition join (sep : string) (parts : list string) : string :=
  String.concat sep parts.

Definition dot : ascii := "."%char.
Definition nl : string := String (ascii_of_nat 10) EmptyString.
Definition tab : string := String (ascii_of_nat 9) EmptyString.

End PyStr.

(** ** Exceptions *)

Inductive ExnClass :=
| ValueError
| TypeError
| IndexError
| KeyError
| AttributeError
| ImportError
| ModuleNotFoundError
| FileNotFoundError
| OtherError (name : string).

(** An exception: its class and [str(e)]. *)
Record Exn := mkExn { exn_class : ExnClass; exn_str : string }.

(** [isinstance(e, ImportError)]: [ModuleNotFoundError] is a subclass. *)
Definition is_ImportError (e : Exn) : bool :=
  match exn_class e with
  | ImportError | ModuleNotFoundError => true
  | _ => false
  end.

(** ** Configuration ([server/config.py]) *)

Record Config := {
  PINECONE_API_KEY : option string;
  PINECONE_INDEX_NAME : string;
  OPENAI_API_KEY : option string;
  MAX_CONTENT_LENGTH : Z;
  ALLOWED_EXTENSIONS : gset string;
  CHUNK_SIZE : Z;
  CHUNK_OVERLAP : Z
}.

(** The values [Config] takes when the optional environment overrides are
    unset; the two secrets have no default. *)
Definition default_config (pinecone_key openai_key : option string) : Config := {|
  PINECONE_API_KEY := pinecone_key;
  PINECONE_INDEX_NAME := "langchain-documents";
  OPENAI_API_KEY := openai_key;
  MAX_CONTENT_LENGTH := 16 * 1024 * 1024;
  ALLOWED_EXTENSIONS := {[ "pdf"; "txt"; "docx"; "xlsx" ]};
  CHUNK_SIZE := 1000;
  CHUNK_OVERLAP := 200
|}.

(** ** [allowed_file] ([server/routes/documents.py]) *)

Section AllowedFile.

(** [str.lower()].  It follows the case mappings of the Unicode database
    (U+212A, the Kelvin sign, lowers to [k]), which are not written out
    here: the definitions take it as a parameter and the theorems hold for
    whatever it is. *)
Variable str_lower : string -> string.

(** [filename.rsplit('.', 1)[1].lower()], [None] standing for the IndexError
    of the subscript. *)
Definition file_ext (filename : string) : option string :=
  str_lower <$> (PyStr.rsplit1 PyStr.dot filename !! 1%nat).

Definition allowed_file (cfg : Config) (filename : string) : bool :=
  PyStr.contains "." filename &&
  match file_ext filename with
  | Some ext => bool_decide (ext ∈ ALLOWED_EXTENSIONS cfg)
  | None => false
  end.

End AllowedFile.

(** ** Python values *)

(** A value of a JSON body, of chunk metadata or of an argument that the code
    passes on without checking its type.  A [float] is carried as a rational:
    the code never computes with one except in [k + 1]. *)
#[warnings="-register-all"]
Inductive pyval :=
| PNone
| PBool (b : bool)
| PInt (n : Z)
| PFloat (x : Q)
| PStr (s : string)
| PList (l : list pyval)
| PDict (d : list (string * pyval)).

(** A [dict] with string keys, in insertion order. *)
Abbreviation pydict := (list (string * pyval)).

Module Py.

Definition dq : string := String (ascii_of_nat 34) EmptyString.

Definition type_name (v : pyval) : string :=
  match v with
  | PNone => "NoneType" | PBool _ => "bool" | PInt _ => "int"
  | PFloat _ => "float" | PStr _ => "str" | PList _ => "list"
  | PDict _ => "dict"
  end.

(** [bool(v)] *)
Definition truthy (v : pyval) : bool :=
  match v with
  | PNone => false
  | PBool b => b
  | PInt n => negb (n =? 0)
  | PFloat x => negb (Qnum x =? 0)
  | PStr s => negb (String.eqb s EmptyString)
  | PList l => match l with [] => false | _ => true end
  | PDict d => match d with [] => false | _ => true end
  end.

(** [d.get(k)] on a dict, [None] when the key is absent. *)
Fixpoint dict_get (k : string) (d : pydict) : option pyval :=
  match d with
  | [] => None
  | (k', v) :: d' => if String.eqb k k' then Some v else dict_get k d'
  end.

Definition dict_has (k : string) (d : pydict) : bool :=
  match dict_get k d with Some _ => true | None => false end.

(** [d[k] = v]: the value is replaced in place, a new key goes last. *)
Fixpoint dict_set (k : string) (v : pyval) (d : pydict) : pydict :=
  match d with
  | [] => [(k, v)]
  | (k', v') :: d' =>
      if String.eqb k k' then (k, v) :: d' else (k', v') :: dict_set k v d'
  end.

(** [d.update(u)] *)
Definition dict_update (u d : pydict) : pydict :=
  fold_left (fun acc kv => dict_set (fst kv) (snd kv) acc) u d.

Definition is_str (s : string) (v : pyval) : bool :=
  match v with PStr s' => String.eqb s s' | _ => false end.

(** [s in v] for a string [s]: key of a dict, element of a list, substring
    of a string; a TypeError on anything else. *)
Definition contains (s : string) (v : pyval) : Exn + bool :=
  match v with
  | PDict d => inr (dict_has s d)
  | PList l => inr (existsb (is_str s) l)
  | PStr t => inr (PyStr.contains s t)
  | _ => inl (mkExn TypeError
           ("argument of type '" +:+ type_name v +:+ "' is not iterable"))
  end.

(** [v[s]] for a string [s]. *)
Definition getitem (v : pyval) (s : string) : Exn + pyval :=
  match v with
  | PDict d =>
      match dict_get s d with
      | Some x => inr x
      | None => inl (mkExn KeyError ("'" +:+ s +:+ "'"))
      end
  | PList _ =>
      inl (mkExn TypeError "list indices must be integers or slices, not str")
  | PStr _ =>
      inl (mkExn TypeError "string indices must be integers, not 'str'")
  | _ => inl (mkExn TypeError
           ("'" +:+ type_name v +:+ "' object is not subscriptable"))
  end.

(** [v.get(s, default)] *)
Definition get (v : pyval) (s : string) (default : pyval) : Exn + pyval :=
  match v with
  | PDict d => inr (from_option id default (dict_get s d))
  | _ => inl (mkExn AttributeError
           ("'" +:+ type_name v +:+ "' object has no attribute 'get'"))
  end.

(** [v + n] for an int [n]. *)
Definition add_int (v : pyval) (n : Z) : Exn + pyval :=
  match v with
  | PInt m => inr (PInt (m + n))
  | PBool b => inr (PInt ((if b then 1 else 0) + n))
  | PFloat x => inr (PFloat (x + inject_Z n)%Q)
  | PStr _ | PList _ =>
      inl (mkExn TypeError
             ("can only concatenate " +:+ type_name v +:+ " (not " +:+ dq
              +:+ "int" +:+ dq +:+ ") to " +:+ type_name v))
  | _ => inl (mkExn TypeError
           ("unsupported operand type(s) for +: '" +:+ type_name v
            +:+ "' and 'int'"))
  end.

(** The int that [v] stands for where Python wants an index: an [int], or
    a [bool] (a subclass of [int]). *)
Definition index_of (v : pyval) : option Z :=
  match v with
  | PInt n => Some n
  | PBool b => Some (if b then 1 else 0)
  | _ => None
  end.

(** [l[:n]] for an int [n]: a negative [n] counts from the end. *)
Definition take_to {A} (n : Z) (l : list A) : list A :=
  if 0 <=? n then take (Z.to_nat n) l
  else take (Z.to_nat (Z.of_nat (length l) + n)) l.

(** [l[:v]] *)
Definition slice_to {A} (v : pyval) (l : list A) : Exn + list A :=
  match v with
  | PNone => inr l
  | _ =>
      match index_of v with
      | Some n => inr (take_to n l)
      | None => inl (mkExn TypeError
          "slice indices must be integers or None or have an __index__ method")
      end
  end.

(** [==] between two values that can key a dict: numbers compare by value
    across [bool], [int] and [float]. *)
Definition num_of (v : pyval) : option Q :=
  match v with
  | PBool b => Some (inject_Z (if b then 1 else 0))
  | PInt n => Some (inject_Z n)
  | PFloat x => Some x
  | _ => None
  end.

Definition key_eqb (a b : pyval) : bool :=
  match num_of a, num_of b with
  | Some x, Some y => Qeq_bool x y
  | _, _ =>
      match a, b with
      | PNone, PNone => true
      | PStr s, PStr t => String.eqb s t
      | _, _ => false
      end
  end.

Definition hashable (v : pyval) : bool :=
  match v with PList _ | PDict _ => false | _ => true end.

End Py.

(** ** Documents, matches, responses *)

(** A langchain [Document]. *)
Record Document := mkDocument { page_content : string; metadata : pydict }.

(** One match of [index.query]. *)
Record Match := mkMatch {
  match_id : string;
  match_score : Q;
  match_metadata : option pydict
}.

(** What [index.describe_index_stats()] reports. *)
Record IndexStats := {
  total_vector_count : pyval;
  dimension : pyval;
  index_fullness : pyval;
  namespaces : option pydict
}.

(** [jsonify(body), status] *)
Record Response := mkResponse { body : pyval; status : Z }.

(** An uploaded file of [request.files]. *)
Record FileStorage := { filename : string; stream : string }.

(** What a handler reads from the request: the length of its body as
    declared, what parsing the form gives for [request.files] and what
    [request.get_json()] gives; the last two may raise. *)
Record Request := {
  content_length : Z;
  files : Exn + list (string * FileStorage);
  get_json : Exn + pyval
}.

(** werkzeug's [RequestEntityTooLarge], with its [str]. *)
Definition request_entity_too_large : Exn :=
  mkExn (OtherError "RequestEntityTooLarge")
    "413 Request Entity Too Large: The data value transmitted exceeds the capacity limit.".

(** [request.files]: the form is parsed at the first access, and a body
    longer than [MAX_CONTENT_LENGTH] is refused there. *)
Definition request_files (cfg : Config) (request : Request)
  : Exn + list (string * FileStorage) :=
  if MAX_CONTENT_LENGTH cfg <? content_length request
  then inl request_entity_too_large
  else files request.

(** [request.files[key]], the first file under [key]. *)
Fixpoint files_get (key : string) (fl : list (string * FileStorage))
  : option FileStorage :=
  match fl with
  | [] => None
  | (k, f) :: fl' => if String.eqb key k then Some f else files_get key fl'
  end.

Inductive Logger := RootLogger | AppLogger.
Inductive Level := INFO | WARNING | ERROR.
Record LogRecord := mkLog { logger : Logger; level : Level; message : string }.

(** ** The world, external calls and the monad of handlers *)

Section Interface.

(** The objects the SDKs hand out (a Pinecone client, an embeddings object,
    an index handle, a langchain vector store) and the state of the
    services behind them. *)
Context {Client Embeddings Index VectorStore : Type}.
Context {Service : Type}.

(** The calls that leave the program, each with the type of its result. *)
Inductive call : Type -> Type :=
| NewPinecone (api_key : option string) : call Client
| NewOpenAIEmbeddings (openai_api_key : option string) : call Embeddings
| ListIndexes (pc : Client) : call (list string)
| CreateIndex (pc : Client) (name : string) (dimension : Z) (metric : string)
    : call unit
| PcIndex (pc : Client) (name : string) : call Index
| NewVectorStore (index : Index) (emb : Embeddings) (text_key : string)
    : call VectorStore
| VsAddDocuments (vs : VectorStore) (documents : list Document)
    : call (list string)
| VsSimilaritySearchWithScore (vs : VectorStore) (query k filter : pyval)
    : call (list (Document * Q))
| VsSimilaritySearch (vs : VectorStore) (query : string) (k : Z)
    (filter : pyval) : call (list Document)
| IndexQuery (index : Index) (vector : option (list Q))
    (filter : option pyval) (top_k : Z) (include_metadata : bool)
    : call (list Match)
| IndexDelete (index : Index) (ids : list string) : call unit
| DescribeIndexStats (index : Index) : call IndexStats
| Uuid4 : call string
| UtcNowIsoformat : call string.

Inductive ecall :=
| ECall : forall A : Type, call A -> ecall.
Arguments ECall {A} c.

Record World := mkWorld {
  service : Service;
  fs : gmap string string;
  log : list LogRecord;
  trace : list ecall
}.

Definition M (A : Type) : Type := World -> (Exn + A) * World.

Definition ret {A} (a : A) : M A := fun w => (inr a, w).
Definition raise {A} (e : Exn) : M A := fun w => (inl e, w).
Definition bind {A B} (c : M A) (k : A -> M B) : M B :=
  fun w => match c w with
           | (inr a, w') => k a w'
           | (inl e, w') => (inl e, w')
           end.

(** A pure step that may raise. *)
Definition lift {A} (r : Exn + A) : M A := fun w => (r, w).

(** [try: body  except Exception as e: handler e] *)
Definition try_except {A} (body : M A) (handler : Exn -> M A) : M A :=
  fun w => match body w with
           | (inr a, w') => (inr a, w')
           | (inl e, w') => handler e w'
           end.

(** [try: body  finally: cleanup] *)
Definition try_finally {A} (body : M A) (cleanup : M unit) : M A :=
  fun w => match body w with
           | (r, w') =>
               match cleanup w' with
               | (inr _, w'') => (r, w'')
               | (inl e, w'') => (inl e, w'')
               end
           end.

(** An external call: the services answer, the call joins the trace. *)
Definition ext_call_with
    (perform : forall A, call A -> Service -> (Exn + A) * Service)
    {A} (c : call A) : M A :=
  fun w => let (r, s') := perform A c (service w) in
           (r, {| service := s'; fs := fs w; log := log w;
                  trace := trace w ++ [ECall c] |}).

Definition emit (lg : Logger) (lv : Level) (msg : string) : M unit :=
  fun w => (inr tt, {| service := service w; fs := fs w;
                       log := log w ++ [mkLog lg lv msg];
                       trace := trace w |}).

Definition logging_error := emit RootLogger ERROR.
Definition logging_warning := emit RootLogger WARNING.
Definition logging_info := emit RootLogger INFO.
Definition app_logger_error := emit AppLogger ERROR.

(** [file.save(path)], [open(path).read()], [os.path.exists], [os.remove] *)
Definition file_save (f : FileStorage) (path : string) : M unit :=
  fun w => (inr tt, {| service := service w; fs := <[path := stream f]> (fs w);
                       log := log w; trace := trace w |}).

Definition read_file (path : string) : M string :=
  fun w => match fs w !! path with
           | Some data => (inr data, w)
           | None => (inl (mkExn FileNotFoundError
                        ("[Errno 2] No such file or directory: '" +:+ path
                         +:+ "'")), w)
           end.

Definition os_path_exists (path : string) : M bool :=
  fun w => (inr (bool_decide (is_Some (fs w !! path))), w).

Definition os_remove (path : string) : M unit :=
  fun w => match fs w !! path with
           | Some _ => (inr tt, {| service := service w;
                                   fs := delete path (fs w);
                                   log := log w; trace := trace w |})
           | None => (inl (mkExn FileNotFoundError
                        ("[Errno 2] No such file or directory: '" +:+ path
                         +:+ "'")), w)
           end.

(** The fields of a [VectorStoreManager]; [None] is Python's [None]. *)
Record VectorStoreManager := mkManager {
  embeddings : option Embeddings;
  vector_store : option VectorStore;
  pc : option Client
}.

End Interface.

Arguments call : clear implicits.
Arguments ecall : clear implicits.
Arguments World : clear implicits.
Arguments M : clear implicits.
Arguments VectorStoreManager : clear implicits.
Arguments ECall {Client Embeddings Index VectorStore A} c.

Declare Scope py_scope.
Delimit Scope py_scope with py.
Notation "x <- c ;; k" := (bind c (fun x => k))
  (at level 100, c at next level, right associativity) : py_scope.
Notation "c ;;; k" := (bind c (fun _ => k))
  (at level 100, right associativity) : py_scope.
Local Open Scope py_scope.

(** ** A reference service

    An in-memory stand-in for the services, used to run the program on
    concrete inputs: handles are index names, an index is a list of stored
    vectors, a metadata filter is a conjunction of equalities and [$ne]
    conditions, and [top_k] must lie between 1 and 10000. *)

Module Mem.

(** Structural equality of Python values. *)
Fixpoint pyval_eqb (a b : pyval) {struct a} : bool :=
  match a, b with
  | PNone, PNone => true
  | PBool x, PBool y => Bool.eqb x y
  | PInt x, PInt y => Z.eqb x y
  | PFloat x, PFloat y => Z.eqb (Qnum x) (Qnum y) && Pos.eqb (Qden x) (Qden y)
  | PStr x, PStr y => String.eqb x y
  | PList l1, PList l2 =>
      (fix go (l1 l2 : list pyval) : bool :=
         match l1, l2 with
         | [], [] => true
         | x :: xs, y :: ys => pyval_eqb x y && go xs ys
         | _, _ => false
         end) l1 l2
  | PDict d1, PDict d2 =>
      (fix go (d1 d2 : pydict) : bool :=
         match d1, d2 with
         | [], [] => true
         | (k1, x) :: xs, (k2, y) :: ys =>
             String.eqb k1 k2 && pyval_eqb x y && go xs ys
         | _, _ => false
         end) d1 d2
  | _, _ => false
  end.

Record Vector := mkVector {
  vec_id : string;
  vec_text : string;
  vec_metadata : pydict
}.

Record State := mkState {
  index_names : list string;
  vectors : list Vector;
  next_uuid : nat
}.

(** One condition [field: cond] of a filter. *)
Definition holds (md : pydict) (field : string) (cond : pyval) : bool :=
  match cond with
  | PDict [("$ne", v)] =>
      match Py.dict_get field md with
      | Some x => negb (pyval_eqb x v)
      | None => true
      end
  | v =>
      match Py.dict_get field md with
      | Some x => pyval_eqb x v
      | None => false
      end
  end.

Definition matches_filter (filter : pyval) (md : pydict) : bool :=
  match filter with
  | PDict conds => forallb (fun fc => holds md (fst fc) (snd fc)) conds
  | _ => true
  end.

Definition valid_top_k (n : Z) : bool := (1 <=? n) && (n <=? 10000).

Definition bad_request (msg : string) : Exn :=
  mkExn (OtherError "PineconeApiException") msg.

Definition document_of (v : Vector) : Document :=
  mkDocument (vec_text v) (vec_metadata v).

Definition search (s : State) (k : Z) (filter : pyval) : list Vector :=
  take (Z.to_nat k)
    (List.filter (fun v => matches_filter filter (vec_metadata v)) (vectors s)).

Fixpoint store (next : nat) (docs : list Document) : list Vector :=
  match docs with
  | [] => []
  | d :: rest =>
      mkVector ("vec-" +:+ pretty next) (page_content d) (metadata d)
        :: store (S next) rest
  end.

Definition perform (A : Type) (c : call string string string string A)
  : State -> (Exn + A) * State :=
  match c in call _ _ _ _ T return State -> (Exn + T) * State with
  | NewPinecone key => fun s =>
      match key with
      | Some k => (inr k, s)
      | None => (inl (mkExn (OtherError "PineconeConfigurationError")
                        "You haven't specified an Api-Key."), s)
      end
  | NewOpenAIEmbeddings key => fun s =>
      match key with
      | Some k => (inr k, s)
      | None => (inl (mkExn (OtherError "ValidationError")
                        "Did not find openai_api_key"), s)
      end
  | ListIndexes _ => fun s => (inr (index_names s), s)
  | CreateIndex _ name _ _ => fun s =>
      if bool_decide (name ∈ index_names s) then
        (inl (bad_request "Resource already exists"), s)
      else (inr tt, mkState (index_names s ++ [name]) (vectors s)
                      (next_uuid s))
  | PcIndex _ name => fun s => (inr name, s)
  | NewVectorStore index _ _ => fun s => (inr index, s)
  | VsAddDocuments _ docs => fun s =>
      let new := store (length (vectors s)) docs in
      (inr (map vec_id new),
       mkState (index_names s) (vectors s ++ new) (next_uuid s))
  | VsSimilaritySearchWithScore _ _ k filter => fun s =>
      match k with
      | PInt n =>
          if valid_top_k n then
            (inr (map (fun v => (document_of v, 1%Q)) (search s n filter)), s)
          else (inl (bad_request "top_k must be between 1 and 10000"), s)
      | _ => (inl (bad_request "top_k must be an integer"), s)
      end
  | VsSimilaritySearch _ _ k filter => fun s =>
      if valid_top_k k then (inr (map document_of (search s k filter)), s)
      else (inl (bad_request "top_k must be between 1 and 10000"), s)
  | IndexQuery _ _ filter top_k _ => fun s =>
      if valid_top_k top_k then
        (inr (map (fun v => mkMatch (vec_id v) 1%Q (Some (vec_metadata v)))
                (search s top_k (from_option id PNone filter))), s)
      else (inl (bad_request "top_k must be between 1 and 10000"), s)
  | IndexDelete _ ids => fun s =>
      (inr tt,
       mkState (index_names s)
         (List.filter (fun v => negb (bool_decide (vec_id v ∈ ids)))
            (vectors s))
         (next_uuid s))
  | DescribeIndexStats _ => fun s =>
      (inr {| total_vector_count := PInt (Z.of_nat (length (vectors s)));
              dimension := PInt 1536;
              index_fullness := PFloat 0%Q;
              namespaces := None |}, s)
  | Uuid4 => fun s =>
      (inr ("uuid-" +:+ pretty (next_uuid s)),
       mkState (index_names s) (vectors s) (S (next_uuid s)))
  | UtcNowIsoformat => fun s => (inr "2024-01-01T00:00:00", s)
  end.

Definition cfg : Config := default_config (Some "pc-key") (Some "sk-key").

(** Two documents are stored, [a] in two chunks and [b] in one. *)
Definition sample : State :=
  mkState ["langchain-documents"]
    [mkVector "vec-0" "alpha one" [("doc_id", PStr "a"); ("filename", PStr "a.txt")];
     mkVector "vec-1" "alpha two" [("doc_id", PStr "a"); ("filename", PStr "a.txt")];
     mkVector "vec-2" "beta" [("doc_id", PStr "b"); ("filename", PStr "b.txt")]]
    0.

(** No index has been created yet. *)
Definition blank : State := mkState [] [] 0.

Definition world (s : State) (files_ : gmap string string)
  : World string string string string State :=
  mkWorld s files_ [] [].

(** Readers that take the file's bytes for its text. *)
Definition py_repr (v : pyval) : string := "<" +:+ Py.type_name v +:+ ">".
Definition decode_utf8 (data : string) : Exn + string := inr data.
Definition import_module (name : string) : Exn + unit := inr tt.

(** An installation without PyPDF2. *)
Definition no_module_named_PyPDF2 : Exn :=
  mkExn ModuleNotFoundError "No module named 'PyPDF2'".
Definition import_without_PyPDF2 (name : string) : Exn + unit :=
  if String.eqb name "PyPDF2" then inl no_module_named_PyPDF2 else inr tt.
Definition pdf_reader_pages (data : string) : Exn + list (Exn + string) :=
  inr [inr data].
Definition no_such_file : Exn :=
  mkExn FileNotFoundError "[Errno 2] No such file or directory".
Definition docx_paragraphs (data : option string) : Exn + list string :=
  match data with Some d => inr [d] | None => inl no_such_file end.
Definition xlsx_sheets (data : option string)
  : Exn + list (string * list (list (option string))) :=
  match data with
  | Some d => inr [("Sheet1", [[Some d]])]
  | None => inl no_such_file
  end.
Definition secure_filename (name : string) : string := name.
Definition split_documents (size overlap : Z) (docs : list Document)
  : Exn + list Document := inr docs.

(** A manager connected to the default index of the reference service, and
    one that found no index. *)
Definition connected : VectorStoreManager string string string :=
  mkManager (Some "sk-key") (Some "langchain-documents") (Some "pc-key").

Definition unconnected : VectorStoreManager string string string :=
  mkManager (Some "sk-key") None (Some "pc-key").

(** [str.lower()] on ASCII strings; every name lower-cased below is one. *)
Definition lower_ascii (c : ascii) : ascii :=
  let n := nat_of_ascii c in
  if (Nat.leb 65 n && Nat.leb n 90)%bool then ascii_of_nat (n + 32) else c.

Fixpoint lower (s : string) : string :=
  match s with
  | EmptyString => EmptyString
  | String c s' => String (lower_ascii c) (lower s')
  end.

(** Requests: an upload of one file in a body of [len] bytes (what the
    body holds beyond the file is other fields of the form), and a JSON
    body. *)
Definition upload_sized (len : Z) (name data : string) : Request :=
  {| content_length := len;
     files := inr [("file", {| filename := name; stream := data |})];
     get_json := inr PNone |}.

Definition upload_of (name data : string) : Request :=
  upload_sized 300 name data.

Definition json (v : pyval) : Request :=
  {| content_length := 64; files := inr []; get_json := inr v |}.

(** U+3000, the ideographic space, and U+200B, the zero-width space, which
    is not white space. *)
Definition ideographic_space : string :=
  String (ascii_of_nat 227) (String (ascii_of_nat 128)
    (String (ascii_of_nat 128) EmptyString)).

Definition zero_width_space : string :=
  String (ascii_of_nat 226) (String (ascii_of_nat 128)
    (String (ascii_of_nat 139) EmptyString)).

(** A string from the values of its bytes. *)
Definition bytes (l : list nat) : string :=
  fold_right (fun n s => String (ascii_of_nat n) s) EmptyString l.

(** The 29 white-space characters of [str.isspace()], one after the other
    in their encodings. *)
Definition all_white_space : string :=
  bytes [9; 10; 11; 12; 13; 28; 29; 30; 31; 32;
         194; 133; 194; 160; 225; 154; 128;
         226; 128; 128; 226; 128; 129; 226; 128; 130; 226; 128; 131;
         226; 128; 132; 226; 128; 133; 226; 128; 134; 226; 128; 135;
         226; 128; 136; 226; 128; 137; 226; 128; 138;
         226; 128; 168; 226; 128; 169; 226; 128; 175;
         226; 129; 159; 227; 128; 128]%nat.

(** Characters next to them that are not white space: U+001B, U+0084,
    U+00A1, U+1681, U+200B, U+202A, U+3001, U+FEFF. *)
Definition not_white_space : list string :=
  [bytes [27]; bytes [194; 132]; bytes [194; 161]; bytes [225; 154; 129];
   bytes [226; 128; 139]; bytes [226; 128; 170]; bytes [227; 128; 129];
   bytes [239; 187; 191]]%nat.

(** A PDF of three pages, the second one blank: a space, an ideographic
    space and a line feed. *)
Definition blank_page : string :=
  String " " (ideographic_space +:+ String (ascii_of_nat 10) EmptyString).

Definition three_pages (data : string) : Exn + list (Exn + string) :=
  inr [inr "first page"; inr blank_page; inr "third page"].

(** A [secure_filename] that, like werkzeug's, drops a leading dot. *)
Definition drop_leading_dot (name : string) : string :=
  match name with
  | String "." rest => rest
  | _ => name
  end.

(** A configuration that also allows Markdown files. *)
Definition with_markdown : Config := {|
  PINECONE_API_KEY := Some "pc-key";
  PINECONE_INDEX_NAME := "langchain-documents";
  OPENAI_API_KEY := Some "sk-key";
  MAX_CONTENT_LENGTH := 16 * 1024 * 1024;
  ALLOWED_EXTENSIONS := {[ "pdf"; "txt"; "docx"; "xlsx"; "md" ]};
  CHUNK_SIZE := 1000;
  CHUNK_OVERLAP := 200
|}.

(** A configuration whose only allowed extension is written in upper
    case. *)
Definition upper_case_entry : Config := {|
  PINECONE_API_KEY := Some "pc-key";
  PINECONE_INDEX_NAME := "langchain-documents";
  OPENAI_API_KEY := Some "sk-key";
  MAX_CONTENT_LENGTH := 16 * 1024 * 1024;
  ALLOWED_EXTENSIONS := {[ "PDF" ]};
  CHUNK_SIZE := 1000;
  CHUNK_OVERLAP := 200
|}.

Definition seventeen_MiB : Z := 17 * 1024 * 1024.

(** A configuration without the Pinecone key. *)
Definition no_pinecone_key : Config := default_config None (Some "sk-key").

End Mem.

(** ** The program *)

Section Glue.

Context {Client Embeddings Index VectorStore : Type}.
Context {Service : Type}.

Local Abbreviation call := (call Client Embeddings Index VectorStore).
Local Abbreviation ecall := (ecall Client Embeddings Index VectorStore).
Local Abbreviation World := (World Client Embeddings Index VectorStore Service).
Local Abbreviation M := (M Client Embeddings Index VectorStore Service).
Local Abbreviation VectorStoreManager :=
  (VectorStoreManager Client Embeddings VectorStore).

(** How the services answer a call in a given state. *)
Variable perform : forall A, call A -> Service -> (Exn + A) * Service.

Definition ext_call {A} (c : call A) : M A := ext_call_with perform c.

(** *** [server/models/vector_store.py] *)

(** [str(v)] inside an f-string; the rendering of floats, lists and dicts
    is left to [py_repr]. *)
Variable py_repr : pyval -> string.

Definition py_str (v : pyval) : string :=
  match v with
  | PStr s => s
  | PNone => "None"
  | PBool true => "True"
  | PBool false => "False"
  | PInt n => pretty n
  | _ => py_repr v
  end.

Variable cfg : Config.

Definition not_initialized : Exn :=
  mkExn ValueError "Vector store not initialized".

(** [if not self.vector_store: raise ValueError(...)] *)
Definition require_vector_store (self : VectorStoreManager) : M VectorStore :=
  match vector_store self with
  | Some vs => ret vs
  | None => raise not_initialized
  end.

(** [self.pc.<method>] and [self.embeddings.embed_query]: an AttributeError
    on [None]. *)
Definition self_pc (self : VectorStoreManager) (attr : string) : M Client :=
  match pc self with
  | Some c => ret c
  | None => raise (mkExn AttributeError
              ("'NoneType' object has no attribute '" +:+ attr +:+ "'"))
  end.

Definition self_embeddings (self : VectorStoreManager) : M Embeddings :=
  match embeddings self with
  | Some e => ret e
  | None => raise (mkExn AttributeError
              "'NoneType' object has no attribute 'embed_query'")
  end.

(** [except Exception as e: logging.error(f"{what}: {str(e)}"); raise] *)
Definition log_and_reraise {A} (what : string) (e : Exn) : M A :=
  logging_error (what +:+ ": " +:+ exn_str e) ;;; raise e.

(** [__init__] followed by [_initialize]: the manager it builds. *)
Definition VectorStoreManager_init : M VectorStoreManager :=
  try_except
    (pc_ <- ext_call (NewPinecone (PINECONE_API_KEY cfg)) ;;
     emb <- ext_call (NewOpenAIEmbeddings (OPENAI_API_KEY cfg)) ;;
     let index_name := PINECONE_INDEX_NAME cfg in
     names <- ext_call (ListIndexes pc_) ;;
     if bool_decide (index_name ∈ names) then
       index <- ext_call (PcIndex pc_ index_name) ;;
       vs <- ext_call (NewVectorStore index emb "text") ;;
       ret (mkManager (Some emb) (Some vs) (Some pc_))
     else
       logging_warning ("Index " +:+ index_name
                        +:+ " not found. Call init_index() to create it.") ;;;
       ret (mkManager (Some emb) None (Some pc_)))
    (log_and_reraise "Failed to initialize vector store").

(** [init_index]: returns the manager with [vector_store] set. *)
Definition init_index (self : VectorStoreManager) (dimension : Z)
  : M VectorStoreManager :=
  try_except
    (let index_name := PINECONE_INDEX_NAME cfg in
     pc_ <- self_pc self "list_indexes" ;;
     existing_indexes <- ext_call (ListIndexes pc_) ;;
     (if negb (bool_decide (index_name ∈ existing_indexes)) then
        ext_call (CreateIndex pc_ index_name dimension "cosine") ;;;
        logging_info ("Created Pinecone index: " +:+ index_name)
      else ret tt) ;;;
     index <- ext_call (PcIndex pc_ index_name) ;;
     emb <- self_embeddings self ;;
     vs <- ext_call (NewVectorStore index emb "text") ;;
     ret (mkManager (embeddings self) (Some vs) (pc self)))
    (log_and_reraise "Failed to initialize index").

Definition add_documents (self : VectorStoreManager)
    (documents : list Document) : M (list string) :=
  try_except
    (vs <- require_vector_store self ;;
     ids <- ext_call (VsAddDocuments vs documents) ;;
     logging_info ("Added " +:+ pretty (length documents)
                   +:+ " documents to vector store") ;;;
     ret ids)
    (log_and_reraise "Failed to add documents").

Definition similarity_search (self : VectorStoreManager)
    (query k filter : pyval) : M (list (Document * Q)) :=
  try_except
    (vs <- require_vector_store self ;;
     results <- ext_call (VsSimilaritySearchWithScore vs query k filter) ;;
     ret results)
    (log_and_reraise "Failed to perform similarity search").

Definition find_similar_documents (self : VectorStoreManager)
    (doc_id k : pyval) : M (list (Document * Q)) :=
  try_except
    (vs <- require_vector_store self ;;
     let filter_dict := PDict [("doc_id", doc_id)] in
     reference_docs <- ext_call (VsSimilaritySearch vs EmptyString 1 filter_dict) ;;
     match reference_docs with
     | [] => raise (mkExn ValueError
               ("Document with ID " +:+ py_str doc_id +:+ " not found"))
     | reference :: _ =>
         let reference_content := page_content reference in
         k1 <- lift (Py.add_int k 1) ;;
         results <- similarity_search self (PStr reference_content) k1
                      (PDict [("doc_id", PDict [("$ne", doc_id)])]) ;;
         lift (Py.slice_to k results)
     end)
    (log_and_reraise "Failed to find similar documents").

Definition delete_document (self : VectorStoreManager) (doc_id : pyval)
  : M bool :=
  try_except
    (_ <- require_vector_store self ;;
     pc_ <- self_pc self "Index" ;;
     index <- ext_call (PcIndex pc_ (PINECONE_INDEX_NAME cfg)) ;;
     matches <- ext_call (IndexQuery index None
                            (Some (PDict [("doc_id", doc_id)])) 10000 true) ;;
     match matches with
     | [] => ret false
     | _ =>
         let ids_to_delete := map match_id matches in
         ext_call (IndexDelete index ids_to_delete) ;;;
         logging_info ("Deleted " +:+ pretty (length ids_to_delete)
                       +:+ " vectors for document " +:+ py_str doc_id) ;;;
         ret true
     end)
    (log_and_reraise "Failed to delete document").

(** The grouping loop of [list_documents]: [documents] maps a doc_id to its
    entry, in insertion order. *)
Fixpoint documents_has (doc_id : pyval) (documents : list (pyval * pydict))
  : bool :=
  match documents with
  | [] => false
  | (key, _) :: rest => Py.key_eqb doc_id key || documents_has doc_id rest
  end.

Definition incr_chunk_count (entry : pydict) : pydict :=
  match Py.dict_get "chunk_count" entry with
  | Some (PInt n) => Py.dict_set "chunk_count" (PInt (n + 1)) entry
  | _ => entry
  end.

Fixpoint documents_incr (doc_id : pyval) (documents : list (pyval * pydict))
  : list (pyval * pydict) :=
  match documents with
  | [] => []
  | (key, entry) :: rest =>
      if Py.key_eqb doc_id key then (key, incr_chunk_count entry) :: rest
      else (key, entry) :: documents_incr doc_id rest
  end.

Definition group_match (documents : list (pyval * pydict)) (m : Match)
  : Exn + list (pyval * pydict) :=
  match match_metadata m with
  | None => inl (mkExn TypeError
              "argument of type 'NoneType' is not iterable")
  | Some md =>
      match Py.dict_get "doc_id" md with
      | None => inr documents
      | Some doc_id =>
          if negb (Py.hashable doc_id) then
            inl (mkExn TypeError
                   ("unhashable type: '" +:+ Py.type_name doc_id +:+ "'"))
          else
            let documents' :=
              if documents_has doc_id documents then documents
              else app documents
                [(doc_id,
                  [("doc_id", doc_id);
                   ("filename",
                    from_option id (PStr "Unknown") (Py.dict_get "filename" md));
                   ("upload_time",
                    from_option id (PStr "Unknown")
                      (Py.dict_get "upload_time" md));
                   ("chunk_count", PInt 0)])] in
            inr (documents_incr doc_id documents')
      end
  end.

Fixpoint group_matches (documents : list (pyval * pydict))
    (matches : list Match) : Exn + list (pyval * pydict) :=
  match matches with
  | [] => inr documents
  | m :: rest =>
      match group_match documents m with
      | inr documents' => group_matches documents' rest
      | inl e => inl e
      end
  end.

Definition list_documents (self : VectorStoreManager) : M (list pydict) :=
  try_except
    (_ <- require_vector_store self ;;
     pc_ <- self_pc self "Index" ;;
     index <- ext_call (PcIndex pc_ (PINECONE_INDEX_NAME cfg)) ;;
     _ <- ext_call (DescribeIndexStats index) ;;
     matches <- ext_call (IndexQuery index (Some (repeat 0%Q 1536)) None
                            100 true) ;;
     documents <- lift (group_matches [] matches) ;;
     ret (map snd documents))
    (log_and_reraise "Failed to list documents").

Definition get_stats (self : VectorStoreManager) : M pydict :=
  try_except
    (_ <- require_vector_store self ;;
     pc_ <- self_pc self "Index" ;;
     index <- ext_call (PcIndex pc_ (PINECONE_INDEX_NAME cfg)) ;;
     stats <- ext_call (DescribeIndexStats index) ;;
     ret [("total_vectors", total_vector_count stats);
          ("dimension", dimension stats);
          ("index_fullness", index_fullness stats);
          ("namespaces", PDict (from_option id [] (namespaces stats)))])
    (log_and_reraise "Failed to get stats").

(** *** [server/routes/documents.py] *)

(** [str.lower()], then the file readers and helpers of other libraries, as
    functions of the file's bytes ([None]: no file at the path): utf-8
    decoding, the import
    of a module, PyPDF2 (the reader, then [extract_text] page by page),
    python-docx (paragraph texts), openpyxl (per sheet, the rows of cells
    already passed through [str], [None] for an empty cell), werkzeug's
    [secure_filename] and langchain's recursive splitter. *)
Variable str_lower : string -> string.
Variable decode_utf8 : string -> Exn + string.
Variable import_module : string -> Exn + unit.
Variable pdf_reader_pages : string -> Exn + list (Exn + string).
Variable docx_paragraphs : option string -> Exn + list string.
Variable xlsx_sheets :
  option string -> Exn + list (string * list (list (option string))).
Variable secure_filename : string -> string.
Variable split_documents : Z -> Z -> list Document -> Exn + list Document.

(** A library that opens the file at [path] by itself. *)
Definition open_with {A} (reader : option string -> Exn + A) (path : string)
  : M A :=
  fun w => (reader (fs w !! path), w).

(** [try: body  except ImportError: raise ValueError(msg)] *)
Definition except_ImportError {A} (body : M A) (msg : string) : M A :=
  try_except body
    (fun e => if is_ImportError e then raise (mkExn ValueError msg)
              else raise e).

(** The loop over [pdf_reader.pages]. *)
Fixpoint pdf_documents (file_path : string) (page_num : Z)
    (pages : list (Exn + string)) : Exn + list Document :=
  match pages with
  | [] => inr []
  | inl e :: _ => inl e
  | inr text :: rest =>
      match pdf_documents file_path (page_num + 1) rest with
      | inl e => inl e
      | inr documents =>
          if PyStr.strip_nonempty text then
            inr (mkDocument text [("source", PStr file_path);
                                  ("page", PInt page_num)] :: documents)
          else inr documents
      end
  end.

Definition xlsx_row_text (row : list (option string)) : string :=
  PyStr.join PyStr.tab (map (from_option id EmptyString) row).

Definition xlsx_sheet_text (sheet : string * list (list (option string)))
  : string :=
  "Sheet: " +:+ fst sheet +:+ PyStr.nl
  +:+ String.concat EmptyString
        (map (fun row => xlsx_row_text row +:+ PyStr.nl) (snd sheet))
  +:+ PyStr.nl.

Definition unsupported_file_type (ext : string) : Exn :=
  mkExn ValueError ("Unsupported file type: " +:+ ext).

Definition load_error (ext : string) (e : Exn) : Exn :=
  mkExn ValueError ("Error loading " +:+ ext +:+ " file: " +:+ exn_str e).

(** The reading done in each branch of [load_document], before any
    exception handler applies. *)
Definition read_txt (file_path : string) : M (list Document) :=
  data <- read_file file_path ;;
  content <- lift (decode_utf8 data) ;;
  ret [mkDocument content [("source", PStr file_path)]].

Definition read_pdf (file_path : string) : M (list Document) :=
  lift (import_module "PyPDF2") ;;;
  data <- read_file file_path ;;
  pages <- lift (pdf_reader_pages data) ;;
  lift (pdf_documents file_path 0 pages).

Definition read_docx (file_path : string) : M (list Document) :=
  lift (import_module "docx") ;;;
  paragraphs <- open_with docx_paragraphs file_path ;;
  let content := PyStr.join PyStr.nl paragraphs in
  ret [mkDocument content [("source", PStr file_path)]].

Definition read_xlsx (file_path : string) : M (list Document) :=
  lift (import_module "openpyxl") ;;;
  sheets <- open_with xlsx_sheets file_path ;;
  let content := String.concat EmptyString (map xlsx_sheet_text sheets) in
  ret [mkDocument content [("source", PStr file_path)]].

Definition load_document (file_path filename : string) : M (list Document) :=
  match file_ext str_lower filename with
  | None => raise (mkExn IndexError "list index out of range")
  | Some ext =>
      try_except
        (if String.eqb ext "txt" then read_txt file_path
         else if String.eqb ext "pdf" then
           except_ImportError (read_pdf file_path)
             "PyPDF2 is required for PDF processing"
         else if String.eqb ext "docx" then
           except_ImportError (read_docx file_path)
             "python-docx is required for DOCX processing"
         else if String.eqb ext "xlsx" then
           except_ImportError (read_xlsx file_path)
             "openpyxl is required for XLSX processing"
         else raise (unsupported_file_type ext))
        (fun e => raise (load_error ext e))
  end.

Definition error_response (msg : string) (code : Z) : Response :=
  mkResponse (PDict [("error", PStr msg)]) code.

(** [except Exception as e: current_app.logger.error(f"{what}: {str(e)}");
    return jsonify({'error': f'{shown}: {str(e)}'}), 500] *)
Definition respond_500 (what shown : string) (e : Exn) : M Response :=
  app_logger_error (what +:+ ": " +:+ exn_str e) ;;;
  ret (error_response (shown +:+ ": " +:+ exn_str e) 500).

(** The loop that tags every chunk with the document's identity. *)
Fixpoint add_metadata (doc_id filename_ : string) (texts : list Document)
  : M (list Document) :=
  match texts with
  | [] => ret []
  | text :: rest =>
      now <- ext_call UtcNowIsoformat ;;
      let text' :=
        mkDocument (page_content text)
          (Py.dict_update [("doc_id", PStr doc_id);
                           ("filename", PStr filename_);
                           ("upload_time", PStr now)] (metadata text)) in
      rest' <- add_metadata doc_id filename_ rest ;;
      ret (text' :: rest')
  end.

(** The [finally] block of [upload_document]. *)
Definition cleanup (temp_path : string) : M unit :=
  present <- os_path_exists temp_path ;;
  if present then os_remove temp_path else ret tt.

(** The processing phase of [upload_document]: the inner
    [try: ... finally: ...] that runs once the upload is saved. *)
Definition upload_processing (temp_path filename_ doc_id : string)
  : M Response :=
  try_finally
    (documents <- load_document temp_path filename_ ;;
     texts <- lift (split_documents (CHUNK_SIZE cfg) (CHUNK_OVERLAP cfg)
                      documents) ;;
     texts <- add_metadata doc_id filename_ texts ;;
     vector_store_ <- VectorStoreManager_init ;;
     _ <- add_documents vector_store_ texts ;;
     ret (mkResponse
            (PDict [("success", PBool true);
                    ("doc_id", PStr doc_id);
                    ("filename", PStr filename_);
                    ("chunks_created", PInt (Z.of_nat (length texts)));
                    ("message",
                     PStr "Document processed and stored successfully")])
            201))
    (cleanup temp_path).

Definition temp_path_of (doc_id filename_ : string) : string :=
  "/tmp/" +:+ doc_id +:+ "_" +:+ filename_.

(** [POST /api/documents], once [request.files] has been read *)
Definition upload_files (files_ : list (string * FileStorage)) : M Response :=
  match files_get "file" files_ with
  | None => ret (error_response "No file provided" 400)
  | Some file =>
      if String.eqb (filename file) EmptyString then
        ret (error_response "No file selected" 400)
      else if negb (allowed_file str_lower cfg (filename file)) then
        ret (error_response "File type not allowed" 400)
      else
        let filename_ := secure_filename (filename file) in
        doc_id <- ext_call Uuid4 ;;
        let temp_path := temp_path_of doc_id filename_ in
        file_save file temp_path ;;;
        upload_processing temp_path filename_ doc_id
  end.

(** [POST /api/documents]: the first line of the [try] reads
    [request.files]. *)
Definition upload_document (request : Request) : M Response :=
  try_except
    (files_ <- lift (request_files cfg request) ;;
     upload_files files_)
    (respond_500 "Error processing document" "Failed to process document").

(** [GET /api/documents] *)
Definition list_documents_route : M Response :=
  try_except
    (vector_store_ <- VectorStoreManager_init ;;
     documents <- list_documents vector_store_ ;;
     ret (mkResponse (PDict [("success", PBool true);
                             ("documents", PList (map PDict documents))])
            200))
    (respond_500 "Error listing documents" "Failed to list documents").

(** [DELETE /api/documents/<doc_id>] *)
Definition delete_document_route (doc_id : string) : M Response :=
  try_except
    (vector_store_ <- VectorStoreManager_init ;;
     success <- delete_document vector_store_ (PStr doc_id) ;;
     if success : bool then
       ret (mkResponse
              (PDict [("success", PBool true);
                      ("message", PStr ("Document " +:+ doc_id
                                        +:+ " deleted successfully"))])
              200)
     else ret (error_response "Document not found" 404))
    (respond_500 "Error deleting document" "Failed to delete document").

(** *** [server/routes/search.py] *)

Definition format_result (r : Document * Q) : pyval :=
  PDict [("content", PStr (page_content (fst r)));
         ("metadata", PDict (metadata (fst r)));
         ("similarity_score", PFloat (snd r))].

(** [not data or key not in data] *)
Definition missing_field (data : pyval) (key : string) : Exn + bool :=
  if negb (Py.truthy data) then inr true
  else match Py.contains key data with
       | inr b => inr (negb b)
       | inl e => inl e
       end.

(** [POST /api/search] *)
Definition search_documents (request : Request) : M Response :=
  try_except
    (data <- lift (get_json request) ;;
     missing <- lift (missing_field data "query") ;;
     if missing : bool then ret (error_response "Query is required" 400)
     else
       query <- lift (Py.getitem data "query") ;;
       k <- lift (Py.get data "k" (PInt 5)) ;;
       filter_metadata <- lift (Py.get data "filter" (PDict [])) ;;
       vector_store_ <- VectorStoreManager_init ;;
       results <- similarity_search vector_store_ query k filter_metadata ;;
       let formatted_results := map format_result results in
       ret (mkResponse
              (PDict [("success", PBool true);
                      ("query", query);
                      ("results", PList formatted_results);
                      ("total_results",
                       PInt (Z.of_nat (length formatted_results)))])
              200))
    (respond_500 "Error performing search" "Search failed").

(** [POST /api/search/similar] *)
Definition find_similar_documents_route (request : Request) : M Response :=
  try_except
    (data <- lift (get_json request) ;;
     missing <- lift (missing_field data "doc_id") ;;
     if missing : bool then ret (error_response "Document ID is required" 400)
     else
       doc_id <- lift (Py.getitem data "doc_id") ;;
       k <- lift (Py.get data "k" (PInt 5)) ;;
       vector_store_ <- VectorStoreManager_init ;;
       results <- find_similar_documents vector_store_ doc_id k ;;
       let formatted_results := map format_result results in
       ret (mkResponse
              (PDict [("success", PBool true);
                      ("reference_doc_id", doc_id);
                      ("similar_documents", PList formatted_results);
                      ("total_results",
                       PInt (Z.of_nat (length formatted_results)))])
              200))
    (respond_500 "Error finding similar documents"
       "Failed to find similar documents").

(** [GET /api/search/stats] *)
Definition get_search_stats : M Response :=
  try_except
    (vector_store_ <- VectorStoreManager_init ;;
     stats <- get_stats vector_store_ ;;
     ret (mkResponse (PDict [("success", PBool true);
                             ("stats", PDict stats)]) 200))
    (respond_500 "Error getting stats" "Failed to get stats").

(** *** [server/app.py] *)

Definition initialized_message : string :=
  "Initialized Pinecone index successfully.".

(** The [init-db] command: it builds a manager and calls [init_index] with
    the default dimension; its result is the line that [click.echo]
    prints.  The import on its first line, before the [try], finds the
    manager's module already loaded: [app.py] imports the blueprints, and
    both import it. *)
Definition init_db_command : M string :=
  try_except
    (manager <- VectorStoreManager_init ;;
     _ <- init_index manager 1536 ;;
     ret initialized_message)
    (fun e => ret ("Error initializing Pinecone index: " +:+ exn_str e)).

(** ** The vocabulary of the statements *)

(** [sub] occurs in [s]. *)
Definition occurs_in (sub s : string) : Prop :=
  exists p q, s = p +:+ sub +:+ q.

(** What [except ...: logging.error(...); raise] leaves behind when the body
    raises [e] without touching the world. *)
Definition logged (w : World) (what : string) (e : Exn) : World :=
  mkWorld (service w) (fs w)
    (log w ++ [mkLog RootLogger ERROR (what +:+ ": " +:+ exn_str e)])
    (trace w).

(** What the handler's [except] leaves behind. *)
Definition app_logged (w : World) (what : string) (e : Exn) : World :=
  mkWorld (service w) (fs w)
    (log w ++ [mkLog AppLogger ERROR (what +:+ ": " +:+ exn_str e)])
    (trace w).

Definition document_not_found (doc_id : pyval) : Exn :=
  mkExn ValueError ("Document with ID " +:+ py_str doc_id +:+ " not found").

(** The filter that leaves out the chunks of [doc_id]. *)
Definition ne_filter (doc_id : pyval) : pyval :=
  PDict [("doc_id", PDict [("$ne", doc_id)])].

(** What the theorem asks of the vector store: a search under
    [{"doc_id": {"$ne": d}}] returns no chunk whose [doc_id] is [d]. *)
Definition honours_ne_filter : Prop :=
  forall vs query k doc_id s results s',
    perform _ (VsSimilaritySearchWithScore vs query k (ne_filter doc_id)) s
    = (inr results, s') ->
    forall r, r ∈ results ->
              Py.dict_get "doc_id" (metadata (fst r)) <> Some doc_id.

(** A search succeeds only for a [top_k] that is an integer and at least 1
    (the index accepts 1 to 10000). *)
Definition rejects_top_k_below_1 : Prop :=
  forall vs query k filter s results s',
    perform _ (VsSimilaritySearchWithScore vs query k filter) s
    = (inr results, s') ->
    exists n, Py.index_of k = Some n /\ 1 <= n.

(** The query by which [delete_document] looks for the chunks of [doc_id]. *)
Definition chunks_query (index : Index) (doc_id : pyval) : call (list Match) :=
  IndexQuery index None (Some (PDict [("doc_id", doc_id)])) 10000 true.

Definition deleted_response (doc_id : string) : Response :=
  mkResponse
    (PDict [("success", PBool true);
            ("message", PStr ("Document " +:+ doc_id +:+ " deleted successfully"))])
    200.

Definition is_create {A} (c : call A) : bool :=
  match c with
  | CreateIndex _ _ _ _ => true
  | _ => false
  end.

(** The [create_index] calls of a trace. *)
Definition creates (t : list ecall) : list ecall :=
  List.filter (fun e => match e with ECall c => is_create c end) t.

(** The indexes that exist, as the control plane of the service sees them. *)
Variable index_names : Service -> list string.

(** What the theorem asks of the service: [list_indexes] reports the
    indexes that exist, a [create_index] that returns has made its index
    exist, and no other call adds or removes an index. *)
Definition lists_the_indexes : Prop :=
  forall c s names s',
    perform _ (ListIndexes c) s = (inr names, s') -> names = index_names s.

Definition create_adds_index : Prop :=
  forall c name d metric s s',
    perform _ (CreateIndex c name d metric) s = (inr tt, s') ->
    name ∈ index_names s'.

Definition only_create_changes_indexes : Prop :=
  forall A (c : call A) s,
    is_create c = false -> index_names (snd (perform A c s)) = index_names s.

(** [w'] differs from [w] by no [create_index] call and no change to the
    indexes that exist. *)
Definition quiet (w w' : World) : Prop :=
  creates (trace w') = creates (trace w) /\
  index_names (service w') = index_names (service w).

Definition quiet_at {A} (c : M A) (w : World) : Prop := quiet w (snd (c w)).

(** For a supported extension: the reading of its branch, and for the three
    formats read through a library the message that takes the place of an
    ImportError. *)
Definition reader_of (ext file_path : string)
  : option (M (list Document) * option string) :=
  if String.eqb ext "txt" then Some (read_txt file_path, None)
  else if String.eqb ext "pdf" then
    Some (read_pdf file_path, Some "PyPDF2 is required for PDF processing")
  else if String.eqb ext "docx" then
    Some (read_docx file_path, Some "python-docx is required for DOCX processing")
  else if String.eqb ext "xlsx" then
    Some (read_xlsx file_path, Some "openpyxl is required for XLSX processing")
  else None.

(** The failure that reaches the outer handler when the reading raises
    [e0]. *)
Definition surfaced (replacement : option string) (e0 : Exn) : Exn :=
  match replacement with
  | Some msg => if is_ImportError e0 then mkExn ValueError msg else e0
  | None => e0
  end.

(** The calls of a trace that write to the service: the indexes they create,
    the documents they add, the vector ids they delete. *)
Definition is_mutation {A} (c : call A) : bool :=
  match c with
  | CreateIndex _ _ _ _ | VsAddDocuments _ _ | IndexDelete _ _ => true
  | _ => false
  end.

Definition mutations (t : list ecall) : list ecall :=
  List.filter (fun e => match e with ECall c => is_mutation c end) t.

Definition added_documents (e : ecall) : option (VectorStore * list Document) :=
  match e with
  | ECall c =>
      match c with
      | VsAddDocuments vs documents => Some (vs, documents)
      | _ => None
      end
  end.

Definition deleted_ids (e : ecall) : option (Index * list string) :=
  match e with
  | ECall c =>
      match c with
      | IndexDelete index ids => Some (index, ids)
      | _ => None
      end
  end.

Definition add_calls (t : list ecall) : list (VectorStore * list Document) :=
  omap added_documents t.

Definition delete_calls (t : list ecall) : list (Index * list string) :=
  omap deleted_ids t.

(** A chunk that carries the identity of its document. *)
Definition tagged (doc_id filename_ : string) (text : Document) : Prop :=
  Py.dict_get "doc_id" (metadata text) = Some (PStr doc_id) /\
  Py.dict_get "filename" (metadata text) = Some (PStr filename_) /\
  exists now, Py.dict_get "upload_time" (metadata text) = Some (PStr now).

(** The [doc_id] in the metadata of a match, and the matches that
    [list_documents] files under the key [doc_id]: those whose own [doc_id]
    is equal to it as a dict key. *)
Definition match_doc_id (m : Match) : option pyval :=
  match match_metadata m with
  | Some md => Py.dict_get "doc_id" md
  | None => None
  end.

Definition same_document (doc_id : pyval) (m : Match) : bool :=
  match match_doc_id m with
  | Some d => Py.key_eqb d doc_id
  | None => false
  end.

Definition chunks_of (doc_id : pyval) (matches : list Match) : nat :=
  length (List.filter (same_document doc_id) matches).

(** No two keys of the dict are equal. *)
Fixpoint distinct_keys (documents : list (pyval * pydict)) : Prop :=
  match documents with
  | [] => True
  | (key, _) :: rest => documents_has key rest = false /\ distinct_keys rest
  end.

(** The entry filed under [key] counts [n] chunks. *)
Definition entry_counts (n : pyval -> nat) (item : pyval * pydict) : Prop :=
  Py.dict_get "doc_id" (snd item) = Some (fst item) /\
  Py.dict_get "chunk_count" (snd item)
  = Some (PInt (Z.of_nat (n (fst item)))).

(** What holds of the dict after the loop has gone through [seen]. *)
Definition grouped (seen : list Match) (documents : list (pyval * pydict))
  : Prop :=
  distinct_keys documents /\
  Forall (entry_counts (fun key => chunks_of key seen)) documents /\
  Forall (fun item => (0 < chunks_of (fst item) seen)%nat) documents /\
  Forall (fun m => forall d, match_doc_id m = Some d ->
                             documents_has d documents = true) seen.

(** The page number that [load_document] records for a page of a PDF. *)
Definition page_number (doc : Document) : option Z :=
  match Py.dict_get "page" (metadata doc) with
  | Some (PInt n) => Some n
  | _ => None
  end.

(** The document that [load_document] makes of page [i] of a PDF. *)
Definition page_document (file_path : string) (i : Z) (text : string)
  : Document :=
  mkDocument text [("source", PStr file_path); ("page", PInt i)].

Definition earlier_page (d1 d2 : Document) : Prop :=
  exists p1 p2,
    page_number d1 = Some p1 /\ page_number d2 = Some p2 /\ p1 < p2.

(** The similarity searches of a trace: the store, the query, [k] and the
    filter of each. *)
Definition searched (e : ecall)
  : option (VectorStore * pyval * pyval * pyval) :=
  match e with
  | ECall c =>
      match c with
      | VsSimilaritySearchWithScore vs query k filter =>
          Some (vs, query, k, filter)
      | _ => None
      end
  end.

Definition search_calls (t : list ecall)
  : list (VectorStore * pyval * pyval * pyval) :=
  omap searched t.

(** [not data or key not in data] holds of the body. *)
Definition field_missing (request : Request) (key : string) : Prop :=
  exists data,
    get_json request = inr data /\
    (Py.truthy data = false \/ Py.contains key data = inr false).

(** The configuration with one extension taken out of the allowed set. *)
Definition without_extension (a : string) (c : Config) : Config := {|
  PINECONE_API_KEY := PINECONE_API_KEY c;
  PINECONE_INDEX_NAME := PINECONE_INDEX_NAME c;
  OPENAI_API_KEY := OPENAI_API_KEY c;
  MAX_CONTENT_LENGTH := MAX_CONTENT_LENGTH c;
  ALLOWED_EXTENSIONS := ALLOWED_EXTENSIONS c ∖ {[ a ]};
  CHUNK_SIZE := CHUNK_SIZE c;
  CHUNK_OVERLAP := CHUNK_OVERLAP c
|}.

(** The query by which [list_documents] samples the index. *)
Definition sample_query (index : Index) : call (list Match) :=
  IndexQuery index (Some (repeat 0%Q 1536)) None 100 true.

(** [c] relates every world to the world it leaves: the shape of the frame
    properties below. *)
Definition keeps (R : World -> World -> Prop) {A} (c : M A) : Prop :=
  forall w, R w (snd (c w)).

(** A relation that [keeps] composes along: reflexive and transitive. *)
Record frame (R : World -> World -> Prop) : Prop := {
  frame_refl : forall w, R w w;
  frame_trans : forall w1 w2 w3, R w1 w2 -> R w2 w3 -> R w1 w3
}.

(** The relations used: the same calls of some kind in the trace, the same
    files, the same files except at one path. *)
Definition same_calls {B} (f : list ecall -> B) (w w' : World) : Prop :=
  f (trace w') = f (trace w).

Definition same_files (w w' : World) : Prop := fs w' = fs w.

Definition same_files_but (path : string) (w w' : World) : Prop :=
  forall p, p <> path -> fs w' !! p = fs w !! p.

(** An upload request that is read and fails validation: no [file] part,
    an empty filename, or a filename that [allowed_file] refuses. *)
Definition upload_invalid (request : Request) : Prop :=
  match request_files cfg request with
  | inl _ => False
  | inr files_ =>
      match files_get "file" files_ with
      | None => True
      | Some file =>
          filename file = EmptyString \/
          allowed_file str_lower cfg (filename file) = false
      end
  end.

(** What [add_metadata] does to one chunk: the text stays, the three
    identity keys are set, every other key keeps its value. *)
Definition retagged (doc_id filename_ : string) (text text' : Document) : Prop :=
  page_content text' = page_content text /\
  tagged doc_id filename_ text' /\
  forall key, key <> "doc_id" -> key <> "filename" -> key <> "upload_time" ->
              Py.dict_get key (metadata text') = Py.dict_get key (metadata text).

(** The clock, read once for each of [times] in turn, gave these answers
    and took the service from [s] to [s']. *)
Fixpoint clock_reads (s : Service) (times : list string) (s' : Service)
  : Prop :=
  match times with
  | [] => s' = s
  | now :: rest =>
      exists s1, perform _ UtcNowIsoformat s = (inr now, s1) /\
                 clock_reads s1 rest s'
  end.

(** The chunk's [upload_time] is [now]. *)
Definition stamped (text : Document) (now : string) : Prop :=
  Py.dict_get "upload_time" (metadata text) = Some (PStr now).

(** * Properties *)

(** ** The Python primitives on small inputs *)

Example allowed_file_pdf :
  allowed_file Mem.lower (default_config None None) "report.PDF" = true.
Proof. vm_compute. reflexivity. Qed.

Example allowed_file_exe :
  allowed_file Mem.lower (default_config None None) "setup.exe" = false.
Proof. vm_compute. reflexivity. Qed.

Example strip_examples :
  PyStr.strip_nonempty EmptyString = false /\
  PyStr.strip_nonempty Mem.all_white_space = false /\
  PyStr.strip_nonempty Mem.blank_page = false /\
  PyStr.strip_nonempty (" a" +:+ Mem.ideographic_space) = true /\
  forallb PyStr.strip_nonempty Mem.not_white_space = true.
Proof. vm_compute. repeat split. Qed.

Example allowed_file_nodot :
  allowed_file Mem.lower (default_config None None) "pdf" = false.
Proof. vm_compute. reflexivity. Qed.

Example slice_to_examples :
  Py.slice_to (PInt 2) [1; 2; 3] = inr [1; 2] /\
  Py.slice_to (PInt (-1)) [1; 2; 3] = inr [1; 2] /\
  Py.slice_to (PInt (-5)) [1; 2; 3] = inr [] /\
  Py.slice_to (PBool true) [1; 2; 3] = inr [1] /\
  Py.slice_to (PInt 7) [1; 2; 3] = inr [1; 2; 3].
Proof. repeat split. Qed.

Example contains_examples :
  Py.contains "query" (PDict [("query", PStr "x")]) = inr true /\
  Py.contains "query" (PList [PStr "q"]) = inr false /\
  Py.contains "query" (PStr "my query") = inr true /\
  (exists msg, Py.contains "query" (PInt 5) = inl (mkExn TypeError msg)).
Proof. repeat split. eexists. reflexivity. Qed.

(** ** Strings *)

Lemma append_cons c s t : String c s +:+ t = String c (s +:+ t).
Proof. reflexivity. Qed.

Lemma append_empty t : EmptyString +:+ t = t.
Proof. reflexivity. Qed.

Lemma append_empty_r s : s +:+ EmptyString = s.
Proof. induction s as [|c s IH]; [reflexivity|]. rewrite append_cons, IH. reflexivity. Qed.

Lemma append_assoc a b c : (a +:+ b) +:+ c = a +:+ b +:+ c.
Proof.
  induction a as [|x a IH]; [reflexivity|].
  rewrite !append_cons, IH. reflexivity.
Qed.

Lemma prefix_spec sub s :
  String.prefix sub s = true <-> exists q, s = sub +:+ q.
Proof.
  revert s. induction sub as [|c sub IH]; intros s.
  - split; [intros _; exists s; reflexivity | intros _; destruct s; reflexivity].
  - destruct s as [|d s]; simpl.
    + split; [discriminate | intros [q Hq]; discriminate].
    + destruct (ascii_dec c d) as [->|Hne].
      * rewrite IH. split; intros [q Hq]; exists q;
          rewrite append_cons in *; congruence.
      * split; [discriminate|].
        intros [q Hq]. rewrite append_cons in Hq. congruence.
Qed.

Lemma contains_spec sub s :
  PyStr.contains sub s = true <-> occurs_in sub s.
Proof.
  unfold occurs_in. induction s as [|c s IH].
  - change (PyStr.contains sub EmptyString)
      with (String.prefix sub EmptyString || false).
    rewrite orb_false_r, prefix_spec. split.
    + intros [q Hq]. exists EmptyString, q. exact Hq.
    + intros [p [q Hq]]. destruct p as [|d p].
      * exists q. exact Hq.
      * rewrite append_cons in Hq. discriminate.
  - change (PyStr.contains sub (String c s))
      with (String.prefix sub (String c s) || PyStr.contains sub s).
    rewrite orb_true_iff, prefix_spec, IH. split.
    + intros [[q Hq] | [p [q Hq]]].
      * exists EmptyString, q. exact Hq.
      * exists (String c p), q. rewrite append_cons. congruence.
    + intros [p [q Hq]]. destruct p as [|d p].
      * left. exists q. exact Hq.
      * right. exists p, q. rewrite append_cons in Hq. congruence.
Qed.

Lemma contains_false_spec sub s :
  PyStr.contains sub s = false <-> ~ occurs_in sub s.
Proof.
  rewrite <- contains_spec.
  destruct (PyStr.contains sub s); split; congruence.
Qed.

Lemma rsplit_at_None s :
  ~ occurs_in "." s -> PyStr.rsplit_at PyStr.dot s = None.
Proof.
  induction s as [|c s IH]; intros Hno; simpl; [reflexivity|].
  rewrite IH.
  - destruct (Ascii.eqb c PyStr.dot) eqn:E; [|reflexivity].
    apply Ascii.eqb_eq in E. subst c. exfalso. apply Hno.
    exists EmptyString, s. reflexivity.
  - intros [p [q Hq]]. apply Hno. exists (String c p), q.
    rewrite append_cons. congruence.
Qed.

Lemma rsplit_at_last stem ext :
  ~ occurs_in "." ext ->
  PyStr.rsplit_at PyStr.dot (stem +:+ "." +:+ ext) = Some (stem, ext).
Proof.
  intros Hno. induction stem as [|c stem IH].
  - rewrite append_empty, append_cons, append_empty. simpl.
    rewrite (rsplit_at_None ext Hno). reflexivity.
  - rewrite append_cons. simpl. rewrite IH. reflexivity.
Qed.

Lemma file_ext_last stem ext :
  ~ occurs_in "." ext ->
  file_ext str_lower (stem +:+ "." +:+ ext) = Some (str_lower ext).
Proof.
  intros Hno. unfold file_ext, PyStr.rsplit1.
  rewrite (rsplit_at_last stem ext Hno). reflexivity.
Qed.

(** ** Running a handler: how results decompose *)

Lemma bind_inr {A B} (c : M A) (k : A -> M B) w b w' :
  bind c k w = (inr b, w') ->
  exists a w1, c w = (inr a, w1) /\ k a w1 = (inr b, w').
Proof.
  unfold bind. destruct (c w) as [[e|a] w1]; intros H.
  - discriminate.
  - exists a, w1. split; [reflexivity | exact H].
Qed.

Lemma lift_inr {A} (r : Exn + A) (w : World) a w' :
  lift r w = (inr a, w') -> r = inr a /\ w' = w.
Proof. unfold lift. intros H. inversion H. split; reflexivity. Qed.

Lemma ext_call_inr {A} (c : call A) w a w' :
  ext_call c w = (inr a, w') ->
  exists s', perform A c (service w) = (inr a, s') /\
             w' = mkWorld s' (fs w) (log w) (trace w ++ [ECall c]).
Proof.
  unfold ext_call, ext_call_with.
  destruct (perform A c (service w)) as [r s'] eqn:E. intros H.
  inversion H. subst. exists s'. split; reflexivity.
Qed.

Lemma reraise_inr {A} (body : M A) what w a w' :
  try_except body (log_and_reraise what) w = (inr a, w') ->
  body w = (inr a, w').
Proof.
  unfold try_except. destruct (body w) as [[e|x] w1]; intros H.
  - unfold log_and_reraise, bind, logging_error, emit, raise in H. discriminate.
  - exact H.
Qed.

Lemma reraise_inl {A} (body : M A) what w e w1 :
  body w = (inl e, w1) ->
  try_except body (log_and_reraise what) w = (inl e, logged w1 what e).
Proof. unfold try_except. intros ->. reflexivity. Qed.

(** ** C3: operations on an uninitialized store *)

(** C3. On a manager whose [vector_store] is [None], each of the six
    operations raises the not-initialized error ([ValueError("Vector store
    not initialized")]) whatever its arguments; no external call is made, and
    the only effect is the error line the operation logs before re-raising. *)
Theorem uninitialized_store_fails (self : VectorStoreManager) (w : World) :
  vector_store self = None ->
  (forall documents,
      add_documents self documents w
      = (inl not_initialized, logged w "Failed to add documents" not_initialized)) /\
  (forall query k filter,
      similarity_search self query k filter w
      = (inl not_initialized,
         logged w "Failed to perform similarity search" not_initialized)) /\
  (forall doc_id k,
      find_similar_documents self doc_id k w
      = (inl not_initialized,
         logged w "Failed to find similar documents" not_initialized)) /\
  (forall doc_id,
      delete_document self doc_id w
      = (inl not_initialized,
         logged w "Failed to delete document" not_initialized)) /\
  list_documents self w
  = (inl not_initialized, logged w "Failed to list documents" not_initialized) /\
  get_stats self w
  = (inl not_initialized, logged w "Failed to get stats" not_initialized).
Proof.
  intros Hnone.
  assert (Hreq : require_vector_store self w = (inl not_initialized, w)).
  { unfold require_vector_store. rewrite Hnone. reflexivity. }
  repeat split; intros; apply reraise_inl; unfold bind; rewrite Hreq;
    reflexivity.
Qed.

Lemma try_except_inr {A} (body : M A) (handler : Exn -> M A) w a w' :
  try_except body handler w = (inr a, w') ->
  body w = (inr a, w') \/
  exists e w1, body w = (inl e, w1) /\ handler e w1 = (inr a, w').
Proof.
  unfold try_except. destruct (body w) as [[e|x] w1]; intros H.
  - right. exists e, w1. split; [reflexivity | exact H].
  - left. exact H.
Qed.

Lemma respond_500_status what shown e w r w' :
  respond_500 what shown e w = (inr r, w') ->
  status r = 500 /\ fs w' = fs w /\ trace w' = trace w.
Proof.
  unfold respond_500, bind, app_logger_error, emit, ret. intros H.
  inversion H. subst. repeat split; reflexivity.
Qed.

(** ** C7: an upload with a disallowed extension *)

Lemma allowed_file_false_of_ext filename :
  (forall ext, file_ext str_lower filename = Some ext -> ext ∉ ALLOWED_EXTENSIONS cfg) ->
  allowed_file str_lower cfg filename = false.
Proof.
  intros Hext. unfold allowed_file.
  destruct (file_ext str_lower filename) as [ext|]; [|apply andb_false_r].
  rewrite bool_decide_eq_false_2 by (apply Hext; reflexivity).
  apply andb_false_r.
Qed.

(** Once [request.files] has been read, the handler is the rest of its
    [try]. *)
Lemma upload_document_read (request : Request) files_ (w : World) :
  request_files cfg request = inr files_ ->
  upload_document request w
  = try_except (upload_files files_)
      (respond_500 "Error processing document" "Failed to process document")
      w.
Proof.
  intros H. unfold upload_document, try_except, bind, lift. rewrite H.
  reflexivity.
Qed.

(** A body longer than [MAX_CONTENT_LENGTH] is not read. *)
Lemma request_files_too_large (request : Request) :
  MAX_CONTENT_LENGTH cfg < content_length request ->
  request_files cfg request = inl request_entity_too_large.
Proof.
  intros H. unfold request_files. apply Z.ltb_lt in H. rewrite H.
  reflexivity.
Qed.

Lemma upload_rejected_when_not_allowed (request : Request) (w : World)
    files_ file :
  request_files cfg request = inr files_ ->
  files_get "file" files_ = Some file ->
  allowed_file str_lower cfg (filename file) = false ->
  exists msg,
    upload_document request w = (inr (error_response msg 400), w).
Proof.
  intros Hread Hfile Hext. rewrite (upload_document_read _ _ _ Hread).
  unfold upload_files, try_except. rewrite Hfile.
  destruct (String.eqb (filename file) EmptyString).
  - exists "No file selected". reflexivity.
  - rewrite Hext. exists "File type not allowed". reflexivity.
Qed.

(** C7, as amended.  For an upload whose [request.files] is read (the body
    is within [MAX_CONTENT_LENGTH] and its form parses): when the extension
    of the uploaded file's name (the lower-cased text after its last ['.'],
    if it has one) is not in the allowed set, [POST /api/documents] answers
    400 with an [{error}] body and returns the world exactly as it found
    it: nothing is saved, no external call joins the trace, no manager is
    built, nothing is logged. *)
Theorem disallowed_upload_rejected (request : Request) (w : World)
    files_ file :
  request_files cfg request = inr files_ ->
  files_get "file" files_ = Some file ->
  (forall ext, file_ext str_lower (filename file) = Some ext ->
               ext ∉ ALLOWED_EXTENSIONS cfg) ->
  exists msg,
    upload_document request w = (inr (error_response msg 400), w).
Proof.
  intros Hread Hfile Hext. apply allowed_file_false_of_ext in Hext.
  exact (upload_rejected_when_not_allowed request w files_ file Hread Hfile
           Hext).
Qed.

(** ** C10: [allowed_file] *)

(** C10, as amended.  A filename without a ['.'] is never allowed, and an
    upload under such a name whose [request.files] is read is answered 400.
    A filename [stem.ext] is allowed as soon as [ext] equals, up to letter
    case, an allowed extension [a] that is itself written in lower case (as
    every extension of the default configuration is): the comparison lowers
    the file's extension before the membership test, and nothing lowers the
    configured set. *)
Theorem allowed_file_no_dot_and_case :
  (forall filename,
      ~ occurs_in "." filename -> allowed_file str_lower cfg filename = false) /\
  (forall (request : Request) (w : World) files_ file,
      request_files cfg request = inr files_ ->
      files_get "file" files_ = Some file ->
      ~ occurs_in "." (filename file) ->
      exists msg,
        upload_document request w = (inr (error_response msg 400), w)) /\
  (forall stem ext a,
      a ∈ ALLOWED_EXTENSIONS cfg ->
      str_lower a = a ->
      ~ occurs_in "." ext ->
      str_lower ext = str_lower a ->
      allowed_file str_lower cfg (stem +:+ "." +:+ ext) = true).
Proof.
  assert (Hnodot : forall filename,
             ~ occurs_in "." filename -> allowed_file str_lower cfg filename = false).
  { intros filename Hno. unfold allowed_file.
    apply contains_false_spec in Hno. rewrite Hno. reflexivity. }
  split; [exact Hnodot|]. split.
  - intros request w files_ file Hread Hfile Hno.
    exact (upload_rejected_when_not_allowed request w files_ file Hread Hfile
             (Hnodot _ Hno)).
  - intros stem ext a Ha Hlow Hno Heq. unfold allowed_file.
    rewrite (file_ext_last stem ext Hno).
    assert (Hdot : PyStr.contains "." (stem +:+ "." +:+ ext) = true).
    { apply contains_spec. exists stem, ext. reflexivity. }
    rewrite Hdot. simpl. apply bool_decide_eq_true.
    rewrite Heq, Hlow. exact Ha.
Qed.

(** ** C6: the temporary file *)

Lemma cleanup_removes temp_path (w : World) :
  exists w', cleanup temp_path w = (inr tt, w') /\
             fs w' !! temp_path = None /\
             service w' = service w /\ log w' = log w /\ trace w' = trace w.
Proof.
  unfold cleanup, bind, os_path_exists, os_remove, ret.
  destruct (fs w !! temp_path) as [data|] eqn:E.
  - rewrite bool_decide_eq_true_2 by eauto.
    cbv beta iota. rewrite E.
    eexists. split; [reflexivity|]. simpl.
    rewrite lookup_delete_eq. repeat split; reflexivity.
  - rewrite bool_decide_eq_false_2 by (intros [x Hx]; discriminate).
    exists w. repeat split; try reflexivity. exact E.
Qed.

Lemma try_finally_cleanup {A} (body : M A) temp_path (w : World) :
  exists w1 w', body w = (fst (body w), w1) /\
    try_finally body (cleanup temp_path) w = (fst (body w), w') /\
    fs w' !! temp_path = None /\ trace w' = trace w1.
Proof.
  unfold try_finally. destruct (body w) as [r w1]. simpl.
  destruct (cleanup_removes temp_path w1) as (w' & Hc & Hfs & _ & _ & Ht).
  exists w1, w'. rewrite Hc. repeat split; assumption.
Qed.

(** C6. However the processing phase ends (a 201, or an exception from
    loading, splitting, building the manager or storing), the temporary file
    is absent from the file system afterwards; and so it is after the whole
    handler, for every upload that got as far as being saved. *)
Theorem temp_file_removed :
  (forall temp_path filename_ doc_id (w : World) r w',
      upload_processing temp_path filename_ doc_id w = (r, w') ->
      fs w' !! temp_path = None) /\
  (forall (request : Request) (w : World) files_ file doc_id s1,
      request_files cfg request = inr files_ ->
      files_get "file" files_ = Some file ->
      filename file <> EmptyString ->
      allowed_file str_lower cfg (filename file) = true ->
      perform _ Uuid4 (service w) = (inr doc_id, s1) ->
      fs (snd (upload_document request w))
        !! temp_path_of doc_id (secure_filename (filename file)) = None).
Proof.
  assert (Hproc : forall temp_path filename_ doc_id (w : World) r w',
             upload_processing temp_path filename_ doc_id w = (r, w') ->
             fs w' !! temp_path = None).
  { intros temp_path filename_ doc_id w r w' H.
    unfold upload_processing in H.
    match type of H with
    | try_finally ?body _ _ = _ =>
        destruct (try_finally_cleanup body temp_path w)
          as (w1 & w2 & _ & Hrun & Hfs & _)
    end.
    rewrite Hrun in H.
    inversion H. subst. exact Hfs. }
  split; [exact Hproc|].
  intros request w files_ file doc_id s1 Hread Hfile Hname Hext Huuid.
  rewrite (upload_document_read _ _ _ Hread).
  unfold upload_files, try_except. rewrite Hfile.
  apply String.eqb_neq in Hname. rewrite Hname, Hext. simpl.
  unfold bind at 1. unfold ext_call, ext_call_with. rewrite Huuid.
  unfold bind at 1. unfold file_save.
  match goal with
  | |- context [upload_processing ?p ?f ?d ?w0] =>
      destruct (upload_processing p f d w0) as [r w'] eqn:E
  end.
  apply Hproc in E. destruct r as [e|resp]; simpl.
  - exact E.
  - exact E.
Qed.

(** ** C8: [POST /api/search] *)

(** C8, at the inputs where the code departs from it.  A JSON body that is
    a non-zero integer (5, say) has no ['query'] field, yet the answer is not
    the 400 of a validation error: [not data] is false, ['query' not in data]
    raises a TypeError on an int, and the handler's [except] turns it into a
    500.  No external call is made. *)
Theorem search_documents_number_body (len : Z)
    (files_ : Exn + list (string * FileStorage)) (w : World) (n : Z) :
  n <> 0 ->
  search_documents
    {| content_length := len; files := files_; get_json := inr (PInt n) |} w
  = (inr (error_response
            "Search failed: argument of type 'int' is not iterable" 500),
     app_logged w "Error performing search"
       (mkExn TypeError "argument of type 'int' is not iterable")).
Proof.
  intros Hn. unfold search_documents, try_except, bind, lift, missing_field.
  cbn [get_json Py.truthy].
  destruct (n =? 0) eqn:E; [apply Z.eqb_eq in E; contradiction|].
  reflexivity.
Qed.

(** The part of C8 that the code does keep: a body that is absent, empty or
    an object without ['query'] gets a 400 and leaves the world alone; and a
    200 carries the results with their three fields and their count. *)
Lemma search_documents_object_body (request : Request) (w : World) :
  (get_json request = inr PNone ->
   search_documents request w
   = (inr (error_response "Query is required" 400), w)) /\
  (forall d, get_json request = inr (PDict d) ->
             Py.dict_has "query" d = false ->
             search_documents request w
             = (inr (error_response "Query is required" 400), w)) /\
  (forall resp w',
      search_documents request w = (inr resp, w') ->
      status resp = 200 ->
      exists query results,
        body resp
        = PDict [("success", PBool true);
                 ("query", query);
                 ("results", PList (map format_result results));
                 ("total_results", PInt (Z.of_nat (length results)))]).
Proof.
  split; [|split].
  - intros Hjson. unfold search_documents, try_except, bind, lift.
    rewrite Hjson. reflexivity.
  - intros d Hjson Hq. unfold search_documents, try_except, bind, lift.
    rewrite Hjson. unfold missing_field. destruct d as [|kv d]; [reflexivity|].
    simpl. rewrite Hq. reflexivity.
  - intros resp w' Hrun Hst. unfold search_documents in Hrun.
    apply try_except_inr in Hrun as [Hbody | (e & w1 & _ & Hh)].
    2:{ apply respond_500_status in Hh as [Hs _]. rewrite Hs in Hst. discriminate. }
    apply bind_inr in Hbody as (data & w1 & _ & Hbody).
    apply bind_inr in Hbody as (missing & w2 & _ & Hbody).
    destruct missing.
    { inversion Hbody. subst. discriminate. }
    apply bind_inr in Hbody as (query & w3 & _ & Hbody).
    apply bind_inr in Hbody as (k & w4 & _ & Hbody).
    apply bind_inr in Hbody as (flt & w5 & _ & Hbody).
    apply bind_inr in Hbody as (vs & w6 & _ & Hbody).
    apply bind_inr in Hbody as (results & w7 & _ & Hbody).
    inversion Hbody. subst. exists query, results.
    rewrite length_map. reflexivity.
Qed.

Lemma bind_run_inr {A B} (c : M A) (k : A -> M B) w a w1 :
  c w = (inr a, w1) -> bind c k w = k a w1.
Proof. unfold bind. intros ->. reflexivity. Qed.

Lemma bind_run_inl {A B} (c : M A) (k : A -> M B) w e w1 :
  c w = (inl e, w1) -> bind c k w = (inl e, w1).
Proof. unfold bind. intros ->. reflexivity. Qed.

Lemma ext_call_run {A} (c : call A) (w : World) r s' :
  perform A c (service w) = (r, s') ->
  ext_call c w = (r, mkWorld s' (fs w) (log w) (trace w ++ [ECall c])).
Proof. unfold ext_call, ext_call_with. intros ->. reflexivity. Qed.

Lemma dict_get_truthy key d v :
  Py.dict_get key d = Some v ->
  Py.truthy (PDict d) = true /\ Py.dict_has key d = true.
Proof.
  intros H. unfold Py.dict_has. rewrite H. split; [|reflexivity].
  destruct d; [discriminate | reflexivity].
Qed.

(** ** C4: a request for a document that does not exist *)

(** C4, at the input where the code departs from it.  [POST
    /api/search/similar] with a [doc_id] for which the store returns no
    reference chunk does not answer 404: the manager raises [ValueError
    ("Document with ID ... not found")], and the handler's blanket [except]
    answers 500 with that message passed through. *)
Theorem similar_unknown_doc_id_gives_500 (request : Request) (w : World)
    d doc_id self w0 vs s1 :
  get_json request = inr (PDict d) ->
  Py.dict_get "doc_id" d = Some doc_id ->
  VectorStoreManager_init w = (inr self, w0) ->
  vector_store self = Some vs ->
  perform _ (VsSimilaritySearch vs EmptyString 1 (PDict [("doc_id", doc_id)]))
    (service w0) = (inr [], s1) ->
  fst (find_similar_documents_route request w)
  = inr (error_response
           ("Failed to find similar documents: "
            +:+ exn_str (document_not_found doc_id)) 500).
Proof.
  intros Hjson Hid Hinit Hvs Hnone.
  destruct (dict_get_truthy _ _ _ Hid) as [Htruthy Hhas].
  assert (Hfind : forall k,
             find_similar_documents self doc_id k w0
             = (inl (document_not_found doc_id),
                logged (mkWorld s1 (fs w0) (log w0)
                          (trace w0 ++
                           [ECall (VsSimilaritySearch vs EmptyString 1
                                     (PDict [("doc_id", doc_id)]))]))
                  "Failed to find similar documents"
                  (document_not_found doc_id))).
  { intros k. unfold find_similar_documents. apply reraise_inl.
    unfold require_vector_store. rewrite Hvs.
    rewrite (bind_run_inr _ _ w0 vs w0) by reflexivity.
    rewrite (bind_run_inr _ _ _ _ _ (ext_call_run _ _ _ _ Hnone)).
    reflexivity. }
  unfold find_similar_documents_route, try_except.
  rewrite Hjson.
  rewrite (bind_run_inr _ _ w (PDict d) w) by reflexivity.
  unfold missing_field. rewrite Htruthy. simpl Py.contains. rewrite Hhas.
  rewrite (bind_run_inr _ _ w false w) by reflexivity.
  cbv iota. unfold Py.getitem. rewrite Hid.
  rewrite (bind_run_inr _ _ w doc_id w) by reflexivity.
  rewrite (bind_run_inr _ _ w (from_option id (PInt 5) (Py.dict_get "k" d)) w)
    by reflexivity.
  rewrite (bind_run_inr _ _ _ _ _ Hinit).
  rewrite (bind_run_inl _ _ _ _ _ (Hfind _)).
  reflexivity.
Qed.

(** ** C1: [find_similar_documents] *)

Lemma take_to_length {A} (n : Z) (l : list A) :
  0 <= n -> Z.of_nat (length (Py.take_to n l)) <= n.
Proof.
  intros Hn. unfold Py.take_to.
  destruct (0 <=? n) eqn:E; [|apply Z.leb_gt in E; lia].
  rewrite length_take. lia.
Qed.

Lemma take_to_elem {A} (n : Z) (l : list A) x :
  x ∈ Py.take_to n l -> x ∈ l.
Proof.
  unfold Py.take_to. destruct (0 <=? n); intros H;
    apply elem_of_take in H as (i & Hi & _);
    apply list_elem_of_lookup; exists i; exact Hi.
Qed.

Lemma add_int_index k n1 v :
  Py.add_int k 1 = inr v -> Py.index_of v = Some n1 ->
  v = PInt n1 /\ Py.index_of k = Some (n1 - 1).
Proof.
  destruct k as [ | b | m | x | s | l | d]; simpl; intros H Hi;
    inversion H; subst; simpl in Hi; inversion Hi; subst.
  - split; [reflexivity|]. f_equal. lia.
  - split; [reflexivity|]. f_equal. lia.
Qed.

Lemma slice_to_index {A} k n (l rs : list A) :
  Py.index_of k = Some n -> Py.slice_to k l = inr rs -> rs = Py.take_to n l.
Proof.
  unfold Py.slice_to. intros Hi. rewrite Hi.
  destruct k; try discriminate; intros H; inversion H; reflexivity.
Qed.

(** C1. For every [doc_id] and every [k], over a store that honours the
    [$ne] filter and rejects a [top_k] below 1: when
    [find_similar_documents] returns, no entry of its result carries the
    reference [doc_id] in its metadata, [k] is an integer [n], the result has
    at most [n] entries, and the store was asked for [n + 1]. *)
Theorem find_similar_excludes_reference_and_truncates :
  honours_ne_filter ->
  rejects_top_k_below_1 ->
  forall self doc_id k (w : World) results w',
    find_similar_documents self doc_id k w = (inr results, w') ->
    (forall r, r ∈ results ->
               Py.dict_get "doc_id" (metadata (fst r)) <> Some doc_id) /\
    exists n vs reference,
      Py.index_of k = Some n /\
      Z.of_nat (length results) <= n /\
      trace w'
      = (trace w ++
         [ECall (VsSimilaritySearch vs EmptyString 1
                   (PDict [("doc_id", doc_id)]));
          ECall (VsSimilaritySearchWithScore vs (PStr reference) (PInt (n + 1))
                   (ne_filter doc_id))])%list.
Proof.
  intros Hne Htop self doc_id k w results w' Hrun.
  unfold find_similar_documents in Hrun. apply reraise_inr in Hrun.
  apply bind_inr in Hrun as (vs & w1 & Hvs & Hrun).
  unfold require_vector_store in Hvs.
  destruct (vector_store self) as [vs0|] eqn:Evs; [|discriminate].
  inversion Hvs. subst vs0 w1. clear Hvs.
  apply bind_inr in Hrun as (refs & w2 & Href & Hrun).
  apply ext_call_inr in Href as (s2 & _ & ->).
  destruct refs as [|reference refs]; [discriminate|].
  apply bind_inr in Hrun as (k1 & w3 & Hk1 & Hrun).
  apply lift_inr in Hk1 as [Hk1 ->].
  apply bind_inr in Hrun as (found & w4 & Hsearch & Hslice).
  apply lift_inr in Hslice as [Hslice ->].
  unfold similarity_search in Hsearch. apply reraise_inr in Hsearch.
  apply bind_inr in Hsearch as (vs' & w5 & Hvs' & Hsearch).
  unfold require_vector_store in Hvs'. rewrite Evs in Hvs'.
  inversion Hvs'. subst vs' w5. clear Hvs'.
  apply bind_inr in Hsearch as (found' & w6 & Hcall & Hret).
  inversion Hret. subst found' w6. clear Hret.
  apply ext_call_inr in Hcall as (s3 & Hperf & ->).
  destruct (Htop _ _ _ _ _ _ _ Hperf) as (n1 & Hidx & Hge).
  destruct (add_int_index _ _ _ Hk1 Hidx) as [-> Hk].
  apply (slice_to_index _ _ _ _ Hk) in Hslice. subst results.
  split.
  - intros r Hr. apply take_to_elem in Hr.
    exact (Hne _ _ _ _ _ _ _ Hperf r Hr).
  - exists (n1 - 1), vs, (page_content reference).
    split; [exact Hk|]. split; [apply take_to_length; lia|].
    simpl. rewrite <- app_assoc. simpl.
    replace (n1 - 1 + 1) with n1 by lia. reflexivity.
Qed.

Lemma try_except_run_inr {A} (body : M A) (handler : Exn -> M A) w a w1 :
  body w = (inr a, w1) -> try_except body handler w = (inr a, w1).
Proof. unfold try_except. intros ->. reflexivity. Qed.

(** ** C2: deleting a document *)

Lemma delete_document_run self doc_id (w : World) vs c index s1 matches s2 :
  vector_store self = Some vs ->
  pc self = Some c ->
  perform _ (PcIndex c (PINECONE_INDEX_NAME cfg)) (service w) = (inr index, s1) ->
  perform _ (chunks_query index doc_id) s1 = (inr matches, s2) ->
  (matches = [] ->
   exists w1, delete_document self doc_id w = (inr false, w1)) /\
  (matches <> [] ->
   forall s3,
     perform _ (IndexDelete index (map match_id matches)) s2 = (inr tt, s3) ->
     exists w1, delete_document self doc_id w = (inr true, w1)).
Proof.
  intros Hvs Hpc Hindex Hquery.
  assert (Hreq : require_vector_store self w = (inr vs, w)).
  { unfold require_vector_store. rewrite Hvs. reflexivity. }
  assert (Hself : self_pc self "Index" w = (inr c, w)).
  { unfold self_pc. rewrite Hpc. reflexivity. }
  split.
  - intros ->. eexists. unfold delete_document. apply try_except_run_inr.
    rewrite (bind_run_inr _ _ _ _ _ Hreq), (bind_run_inr _ _ _ _ _ Hself).
    rewrite (bind_run_inr _ _ _ _ _ (ext_call_run _ _ _ _ Hindex)).
    erewrite bind_run_inr by (apply ext_call_run; exact Hquery).
    reflexivity.
  - intros Hne s3 Hdel. destruct matches as [|m matches]; [congruence|].
    eexists. unfold delete_document. apply try_except_run_inr.
    rewrite (bind_run_inr _ _ _ _ _ Hreq), (bind_run_inr _ _ _ _ _ Hself).
    rewrite (bind_run_inr _ _ _ _ _ (ext_call_run _ _ _ _ Hindex)).
    erewrite bind_run_inr by (apply ext_call_run; exact Hquery).
    cbv iota.
    erewrite bind_run_inr by (apply ext_call_run; exact Hdel).
    reflexivity.
Qed.

(** C2.  Given that the index answers the query for the chunks of [doc_id]:
    with no match, [delete_document] returns [False] (it does not raise) and
    [DELETE /api/documents/<doc_id>] answers 404 with an [{error}] body; with
    at least one match, and the bulk delete going through, it returns [True]
    and the endpoint answers 200 with [{success, message}]. *)
Theorem delete_document_found_or_not :
  (forall self doc_id (w : World) vs c index s1 matches s2,
      vector_store self = Some vs ->
      pc self = Some c ->
      perform _ (PcIndex c (PINECONE_INDEX_NAME cfg)) (service w)
      = (inr index, s1) ->
      perform _ (chunks_query index doc_id) s1 = (inr matches, s2) ->
      (matches = [] -> fst (delete_document self doc_id w) = inr false) /\
      (matches <> [] ->
       forall s3,
         perform _ (IndexDelete index (map match_id matches)) s2 = (inr tt, s3) ->
         fst (delete_document self doc_id w) = inr true)) /\
  (forall (doc_id : string) (w : World) self w0 vs c index s1 matches s2,
      VectorStoreManager_init w = (inr self, w0) ->
      vector_store self = Some vs ->
      pc self = Some c ->
      perform _ (PcIndex c (PINECONE_INDEX_NAME cfg)) (service w0)
      = (inr index, s1) ->
      perform _ (chunks_query index (PStr doc_id)) s1 = (inr matches, s2) ->
      (matches = [] ->
       fst (delete_document_route doc_id w)
       = inr (error_response "Document not found" 404)) /\
      (matches <> [] ->
       forall s3,
         perform _ (IndexDelete index (map match_id matches)) s2 = (inr tt, s3) ->
         fst (delete_document_route doc_id w) = inr (deleted_response doc_id))).
Proof.
  split.
  - intros self doc_id w vs c index s1 matches s2 Hvs Hpc Hindex Hquery.
    destruct (delete_document_run _ _ _ _ _ _ _ _ _ Hvs Hpc Hindex Hquery)
      as [Hnone Hsome].
    split.
    + intros Hm. destruct (Hnone Hm) as [w1 ->]. reflexivity.
    + intros Hm s3 Hdel. destruct (Hsome Hm s3 Hdel) as [w1 ->]. reflexivity.
  - intros doc_id w self w0 vs c index s1 matches s2 Hinit Hvs Hpc Hindex Hquery.
    destruct (delete_document_run _ _ _ _ _ _ _ _ _ Hvs Hpc Hindex Hquery)
      as [Hnone Hsome].
    split.
    + intros Hm. destruct (Hnone Hm) as [w1 Hrun].
      unfold delete_document_route, try_except.
      rewrite (bind_run_inr _ _ _ _ _ Hinit).
      rewrite (bind_run_inr _ _ _ _ _ Hrun). reflexivity.
    + intros Hm s3 Hdel. destruct (Hsome Hm s3 Hdel) as [w1 Hrun].
      unfold delete_document_route, try_except.
      rewrite (bind_run_inr _ _ _ _ _ Hinit).
      rewrite (bind_run_inr _ _ _ _ _ Hrun). reflexivity.
Qed.

(** ** C9: [init_index] *)

Lemma quiet_refl w : quiet w w.
Proof. split; reflexivity. Qed.

Lemma quiet_trans w1 w2 w3 : quiet w1 w2 -> quiet w2 w3 -> quiet w1 w3.
Proof. intros [H1 H2] [H3 H4]. split; congruence. Qed.

Lemma quiet_bind {A B} (c : M A) (k : A -> M B) w :
  quiet_at c w ->
  (forall a w1, c w = (inr a, w1) -> quiet_at (k a) w1) ->
  quiet_at (bind c k) w.
Proof.
  unfold quiet_at, bind. intros Hc Hk.
  destruct (c w) as [[e|a] w1] eqn:E; simpl in *.
  - exact Hc.
  - eapply quiet_trans; [exact Hc | apply Hk; reflexivity].
Qed.

Lemma quiet_try_except {A} (body : M A) (handler : Exn -> M A) w :
  quiet_at body w ->
  (forall e w1, quiet_at (handler e) w1) ->
  quiet_at (try_except body handler) w.
Proof.
  unfold quiet_at, try_except. intros Hb Hh.
  destruct (body w) as [[e|a] w1] eqn:E; simpl in *.
  - eapply quiet_trans; [exact Hb | apply Hh].
  - exact Hb.
Qed.

Lemma quiet_reraise {A} what e w : quiet_at (@log_and_reraise A what e) w.
Proof. split; reflexivity. Qed.

Lemma creates_snoc {A} (t : list ecall) (c : call A) :
  is_create c = false -> creates (t ++ [ECall c]) = creates t.
Proof.
  intros H. unfold creates. rewrite List.filter_app. simpl. rewrite H.
  apply app_nil_r.
Qed.

Lemma quiet_ext_call {A} (c : call A) w :
  only_create_changes_indexes -> is_create c = false -> quiet_at (ext_call c) w.
Proof.
  intros Hframe Hc. unfold quiet_at, ext_call, ext_call_with.
  specialize (Hframe A c (service w) Hc).
  destruct (perform A c (service w)) as [r s']. simpl in *.
  split; simpl; [apply creates_snoc; exact Hc | exact Hframe].
Qed.

(** With the index there, [init_index] creates nothing. *)
Lemma init_index_present self dim (w : World) :
  lists_the_indexes -> only_create_changes_indexes ->
  PINECONE_INDEX_NAME cfg ∈ index_names (service w) ->
  quiet_at (init_index self dim) w.
Proof.
  intros Hlist Hframe Hin. unfold init_index.
  apply quiet_try_except; [|intros; apply quiet_reraise].
  apply quiet_bind.
  { unfold self_pc. destruct (pc self); apply quiet_refl. }
  intros c w1 Hc.
  assert (w1 = w) as ->.
  { unfold self_pc in Hc. destruct (pc self); inversion Hc; reflexivity. }
  apply quiet_bind; [apply quiet_ext_call; [exact Hframe | reflexivity]|].
  intros names w2 Hnames.
  apply ext_call_inr in Hnames as (s2 & Hperf & ->).
  apply Hlist in Hperf. subst names.
  rewrite bool_decide_eq_true_2 by exact Hin. cbn [negb].
  apply quiet_bind; [apply quiet_refl|]. intros _ w3 _.
  apply quiet_bind; [apply quiet_ext_call; [exact Hframe | reflexivity]|].
  intros index w4 _.
  apply quiet_bind.
  { unfold self_embeddings. destruct (embeddings self); apply quiet_refl. }
  intros emb w5 _.
  apply quiet_bind; [apply quiet_ext_call; [exact Hframe | reflexivity]|].
  intros vs w6 _. apply quiet_refl.
Qed.

(** After [init_index] has returned, the index is there and the manager is
    connected to it. *)
Lemma init_index_returns self dim (w : World) self1 w1 :
  lists_the_indexes -> create_adds_index -> only_create_changes_indexes ->
  init_index self dim w = (inr self1, w1) ->
  PINECONE_INDEX_NAME cfg ∈ index_names (service w1) /\
  vector_store self1 <> None.
Proof.
  intros Hlist Hcreate Hframe Hrun.
  unfold init_index in Hrun. apply reraise_inr in Hrun.
  apply bind_inr in Hrun as (c & w2 & Hc & Hrun).
  assert (w2 = w) as ->.
  { unfold self_pc in Hc. destruct (pc self); inversion Hc; reflexivity. }
  apply bind_inr in Hrun as (names & w3 & Hnames & Hrun).
  apply ext_call_inr in Hnames as (s3 & Hperf & ->).
  pose proof (Hframe _ (ListIndexes c) (service w) eq_refl) as Hsame.
  rewrite Hperf in Hsame. simpl in Hsame.
  apply Hlist in Hperf. subst names.
  apply bind_inr in Hrun as (u & w4 & Hstep & Hrun).
  assert (Hthere : PINECONE_INDEX_NAME cfg ∈ index_names (service w4)).
  { destruct (bool_decide (PINECONE_INDEX_NAME cfg ∈ index_names (service w)))
      eqn:E; cbn [negb] in Hstep.
    - inversion Hstep. subst w4. simpl. rewrite Hsame.
      apply bool_decide_eq_true_1 in E. exact E.
    - apply bind_inr in Hstep as ([] & w5 & Hcr & Hlog).
      apply ext_call_inr in Hcr as (s5 & Hperf & ->).
      apply Hcreate in Hperf. inversion Hlog. subst w4. exact Hperf. }
  clear Hstep.
  apply bind_inr in Hrun as (index & w5 & Hindex & Hrun).
  apply ext_call_inr in Hindex as (s5 & Hperf5 & ->).
  pose proof (Hframe _ (PcIndex c (PINECONE_INDEX_NAME cfg)) (service w4) eq_refl)
    as Hsame5.
  rewrite Hperf5 in Hsame5. simpl in Hsame5.
  apply bind_inr in Hrun as (emb & w6 & Hemb & Hrun).
  assert (w6 = mkWorld s5 (fs w4) (log w4)
                 (trace w4 ++ [ECall (PcIndex c (PINECONE_INDEX_NAME cfg))]))
    as ->.
  { unfold self_embeddings in Hemb.
    destruct (embeddings self); inversion Hemb; reflexivity. }
  apply bind_inr in Hrun as (vs & w7 & Hvs & Hret).
  apply ext_call_inr in Hvs as (s7 & Hperf7 & ->).
  pose proof (Hframe _ (NewVectorStore index emb "text") s5 eq_refl) as Hsame7.
  simpl in Hperf7. rewrite Hperf7 in Hsame7. simpl in Hsame7.
  inversion Hret. subst. simpl. split; [|discriminate].
  rewrite Hsame7, Hsame5. exact Hthere.
Qed.


(** ** C5: [load_document] *)

Lemma load_error_includes ext e : occurs_in (exn_str e) (exn_str (load_error ext e)).
Proof.
  unfold load_error. cbn [exn_str].
  exists ("Error loading " +:+ ext +:+ " file: "), EmptyString.
  rewrite append_empty_r, !append_assoc. reflexivity.
Qed.

Lemma except_ImportError_inl {A} (body : M A) msg (w : World) e0 w1 :
  body w = (inl e0, w1) ->
  except_ImportError body msg w = (inl (surfaced (Some msg) e0), w1).
Proof.
  unfold except_ImportError, try_except, surfaced. intros ->.
  destruct (is_ImportError e0); reflexivity.
Qed.

(** C5, amended.  With [ext] the lower-cased text after the last ['.'] of
    the filename: when [ext] is none of txt, pdf, docx, xlsx,
    [load_document] raises the generic load error wrapped around the
    unsupported-type error; when the reading of a supported format raises
    [e0], it raises the generic load error whose message ends with the
    message of [e0], except that for pdf, docx and xlsx an ImportError is
    first replaced by a fixed "... is required ..." ValueError, and it is
    that message the load error carries. *)
Theorem load_document_errors file_path filename ext (w : World) :
  file_ext str_lower filename = Some ext ->
  (ext <> "txt" -> ext <> "pdf" -> ext <> "docx" -> ext <> "xlsx" ->
   load_document file_path filename w
   = (inl (load_error ext (unsupported_file_type ext)), w) /\
   occurs_in ("Unsupported file type: " +:+ ext)
     (exn_str (load_error ext (unsupported_file_type ext)))) /\
  (forall body replacement e0 w1,
      reader_of ext file_path = Some (body, replacement) ->
      body w = (inl e0, w1) ->
      load_document file_path filename w
      = (inl (load_error ext (surfaced replacement e0)), w1) /\
      (replacement = None \/ is_ImportError e0 = false ->
       surfaced replacement e0 = e0 /\
       occurs_in (exn_str e0) (exn_str (load_error ext e0)))).
Proof.
  intros Hext. unfold load_document. rewrite Hext. split.
  - intros H1 H2 H3 H4.
    apply String.eqb_neq in H1, H2, H3, H4. rewrite H1, H2, H3, H4.
    split; [reflexivity|].
    exact (load_error_includes ext (unsupported_file_type ext)).
  - intros body replacement e0 w1 Hreader Hbody. unfold reader_of in Hreader.
    split.
    + unfold try_except.
      destruct (String.eqb ext "txt");
        [|destruct (String.eqb ext "pdf");
          [|destruct (String.eqb ext "docx");
            [|destruct (String.eqb ext "xlsx"); [|discriminate]]]];
        inversion Hreader; subst body replacement.
      * rewrite Hbody. reflexivity.
      * rewrite (except_ImportError_inl _ _ _ _ _ Hbody). reflexivity.
      * rewrite (except_ImportError_inl _ _ _ _ _ Hbody). reflexivity.
      * rewrite (except_ImportError_inl _ _ _ _ _ Hbody). reflexivity.
    + intros Hkeep. split; [|apply load_error_includes].
      unfold surfaced. destruct replacement as [msg|]; [|reflexivity].
      destruct Hkeep as [Hn|Hi]; [discriminate|]. rewrite Hi. reflexivity.
Qed.

(** * Further properties of the program *)

(** ** [allowed_file], characterised *)

Lemma rsplit_at_None_inv s :
  PyStr.rsplit_at PyStr.dot s = None -> ~ occurs_in "." s.
Proof.
  induction s as [|c s IH]; simpl; intros H [p [q Hq]].
  - destruct p; discriminate.
  - destruct (PyStr.rsplit_at PyStr.dot s) as [[a b]|]; [discriminate|].
    destruct (Ascii.eqb c PyStr.dot) eqn:E; [discriminate|].
    apply Ascii.eqb_neq in E. destruct p as [|d p].
    + rewrite append_empty, append_cons in Hq. inversion Hq. contradiction.
    + rewrite append_cons in Hq. inversion Hq. subst.
      apply (IH eq_refl). exists p, q. reflexivity.
Qed.

Lemma rsplit_at_Some_inv s stem ext :
  PyStr.rsplit_at PyStr.dot s = Some (stem, ext) ->
  s = stem +:+ "." +:+ ext /\ ~ occurs_in "." ext.
Proof.
  revert stem. induction s as [|c s IH]; simpl; intros stem H; [discriminate|].
  destruct (PyStr.rsplit_at PyStr.dot s) as [[a b]|] eqn:E.
  - inversion H. subst. destruct (IH a eq_refl) as [-> Hno].
    split; [rewrite append_cons; reflexivity | exact Hno].
  - destruct (Ascii.eqb c PyStr.dot) eqn:Ec; [|discriminate].
    apply Ascii.eqb_eq in Ec. inversion H. subst.
    split; [reflexivity | exact (rsplit_at_None_inv _ E)].
Qed.

Lemma file_ext_Some_inv filename e :
  file_ext str_lower filename = Some e ->
  exists stem ext, filename = stem +:+ "." +:+ ext /\ ~ occurs_in "." ext /\
                   e = str_lower ext.
Proof.
  unfold file_ext, PyStr.rsplit1.
  destruct (PyStr.rsplit_at PyStr.dot filename) as [[stem ext]|] eqn:E;
    simpl; intros H; inversion H.
  destruct (rsplit_at_Some_inv _ _ _ E) as [Hs Hno].
  exists stem, ext. repeat split; assumption.
Qed.

(** [allowed_file] accepts exactly the names [stem.ext], split at the last
    ['.'], whose [ext], lower-cased, is in the allowed set; so a hidden file
    [.pdf] is accepted and only the last of several extensions counts.  The
    entry that admits a file is the lower-cased form of the file's
    extension: an entry of the set that is the lower-cased form of no
    string admits nothing, and taking it out of the set changes no
    answer. *)
Theorem allowed_file_iff filename :
  (allowed_file str_lower cfg filename = true <->
   exists stem ext,
     filename = stem +:+ "." +:+ ext /\ ~ occurs_in "." ext /\
     str_lower ext ∈ ALLOWED_EXTENSIONS cfg) /\
  (forall a,
      (forall s, str_lower s <> a) ->
      allowed_file str_lower (without_extension a cfg) filename
      = allowed_file str_lower cfg filename).
Proof.
  split; [split|].
  - unfold allowed_file. intros H. apply andb_true_iff in H as [_ H].
    destruct (file_ext str_lower filename) as [e|] eqn:E; [|discriminate].
    apply bool_decide_eq_true_1 in H.
    destruct (file_ext_Some_inv _ _ E) as (stem & ext & Hs & Hno & ->).
    exists stem, ext. repeat split; assumption.
  - intros (stem & ext & -> & Hno & Hin). unfold allowed_file.
    rewrite (file_ext_last stem ext Hno).
    rewrite (proj2 (contains_spec "." (stem +:+ "." +:+ ext)))
      by (exists stem, ext; reflexivity).
    rewrite bool_decide_eq_true_2 by exact Hin. reflexivity.
  - intros a Hdead. unfold allowed_file. f_equal.
    destruct (file_ext str_lower filename) as [e|] eqn:E; [|reflexivity].
    destruct (file_ext_Some_inv _ _ E) as (stem & ext & _ & _ & ->).
    apply bool_decide_ext. unfold without_extension.
    cbn [ALLOWED_EXTENSIONS]. rewrite elem_of_difference, elem_of_singleton.
    split; [intros [H _]; exact H|].
    intros H. split; [exact H | apply Hdead].
Qed.

(** ** Frames: what a computation leaves alone *)

Lemma frame_same_calls {B} (f : list ecall -> B) : frame (same_calls f).
Proof. split; unfold same_calls; intros; congruence. Qed.

Lemma frame_same_files : frame same_files.
Proof. split; unfold same_files; intros; congruence. Qed.

Lemma frame_same_files_but path : frame (same_files_but path).
Proof.
  split; unfold same_files_but; intros; [reflexivity|].
  rewrite H0 by assumption. auto.
Qed.

Section Keeps.

Variable R : World -> World -> Prop.
Hypothesis HR : frame R.

Lemma keeps_ret {A} (a : A) : keeps R (ret a).
Proof. intros w. apply (frame_refl R HR). Qed.

Lemma keeps_raise {A} (e : Exn) : keeps R (@raise _ _ _ _ _ A e).
Proof. intros w. apply (frame_refl R HR). Qed.

Lemma keeps_lift {A} (r : Exn + A) : keeps R (lift r).
Proof. intros w. apply (frame_refl R HR). Qed.

Lemma keeps_bind {A B} (c : M A) (k : A -> M B) :
  keeps R c -> (forall a, keeps R (k a)) -> keeps R (bind c k).
Proof.
  intros Hc Hk w. unfold bind. specialize (Hc w).
  destruct (c w) as [[e|a] w1]; simpl in *; [exact Hc|].
  eapply (frame_trans R HR); [exact Hc | apply Hk].
Qed.

Lemma keeps_try_except {A} (body : M A) (handler : Exn -> M A) :
  keeps R body -> (forall e, keeps R (handler e)) ->
  keeps R (try_except body handler).
Proof.
  intros Hb Hh w. unfold try_except. specialize (Hb w).
  destruct (body w) as [[e|a] w1]; simpl in *; [|exact Hb].
  eapply (frame_trans R HR); [exact Hb | apply Hh].
Qed.

Lemma keeps_try_finally {A} (body : M A) (final : M unit) :
  keeps R body -> keeps R final -> keeps R (try_finally body final).
Proof.
  intros Hb Hf w. unfold try_finally. specialize (Hb w).
  destruct (body w) as [r w1]. specialize (Hf w1).
  destruct (final w1) as [[e|u] w2]; simpl in *;
    eapply (frame_trans R HR); eassumption.
Qed.

Lemma keeps_read_file path : keeps R (read_file path).
Proof.
  intros w. unfold read_file. destruct (fs w !! path);
    apply (frame_refl R HR).
Qed.

Lemma keeps_open_with {A} (reader : option string -> Exn + A) path :
  keeps R (open_with reader path).
Proof. intros w. apply (frame_refl R HR). Qed.

Lemma keeps_os_path_exists path : keeps R (os_path_exists path).
Proof. intros w. apply (frame_refl R HR). Qed.

End Keeps.

Lemma keeps_untraced {B} (f : list ecall -> B) {A} (c : M A) :
  (forall w, trace (snd (c w)) = trace w) -> keeps (same_calls f) c.
Proof. intros H w. unfold same_calls. rewrite H. reflexivity. Qed.

Lemma keeps_calls_ext_call {B} (f : list ecall -> B) {A} (c : call A) :
  (forall t : list ecall, f (t ++ [ECall c])%list = f t) ->
  keeps (same_calls f) (ext_call c).
Proof.
  intros H w. unfold same_calls, ext_call, ext_call_with.
  destruct (perform A c (service w)) as [r s']. simpl. apply H.
Qed.

Lemma mutations_snoc {A} (t : list ecall) (c : call A) :
  is_mutation c = false -> mutations (t ++ [ECall c]) = mutations t.
Proof.
  intros H. unfold mutations. rewrite List.filter_app. simpl. rewrite H.
  apply app_nil_r.
Qed.

Lemma add_calls_snoc {A} (t : list ecall) (c : call A) :
  add_calls (t ++ [ECall c])
  = (add_calls t
     ++ from_option (fun x => [x]) [] (added_documents (ECall c)))%list.
Proof.
  unfold add_calls. rewrite omap_app. simpl.
  destruct (added_documents (ECall c)); reflexivity.
Qed.

Lemma delete_calls_snoc {A} (t : list ecall) (c : call A) :
  delete_calls (t ++ [ECall c])
  = (delete_calls t
     ++ from_option (fun x => [x]) [] (deleted_ids (ECall c)))%list.
Proof.
  unfold delete_calls. rewrite omap_app. simpl.
  destruct (deleted_ids (ECall c)); reflexivity.
Qed.

Lemma keeps_files_emit lg lv msg : keeps same_files (emit lg lv msg).
Proof. intros w. reflexivity. Qed.

Lemma keeps_files_ext_call {A} (c : call A) : keeps same_files (ext_call c).
Proof.
  intros w. unfold same_files, ext_call, ext_call_with.
  destruct (perform A c (service w)). reflexivity.
Qed.

Lemma same_files_weaken path w w' : same_files w w' -> same_files_but path w w'.
Proof. unfold same_files, same_files_but. intros -> p _. reflexivity. Qed.

Lemma keeps_files_but_of path {A} (c : M A) :
  keeps same_files c -> keeps (same_files_but path) c.
Proof. intros H w. apply same_files_weaken, H. Qed.

Lemma keeps_files_but_save f path : keeps (same_files_but path) (file_save f path).
Proof.
  intros w p Hp. simpl. apply lookup_insert_ne. congruence.
Qed.

Lemma keeps_files_but_remove path : keeps (same_files_but path) (os_remove path).
Proof.
  intros w p Hp. unfold os_remove. destruct (fs w !! path); simpl.
  - apply lookup_delete_ne. congruence.
  - reflexivity.
Qed.

Create HintDb prog.
#[local] Hint Unfold
  logging_error logging_warning logging_info app_logger_error
  log_and_reraise require_vector_store self_pc self_embeddings
  VectorStoreManager_init init_index add_documents similarity_search
  find_similar_documents delete_document list_documents get_stats
  except_ImportError read_txt read_pdf read_docx read_xlsx load_document
  respond_500 cleanup upload_processing upload_files upload_document
  list_documents_route delete_document_route search_documents
  find_similar_documents_route get_search_stats init_db_command : prog.

(** Decompose a [keeps] goal along the structure of the program; [leaf]
    closes the goals about single steps. *)
Ltac keeps_with HR leaf :=
  repeat first
    [ apply (keeps_ret _ HR)
    | apply (keeps_raise _ HR)
    | apply (keeps_lift _ HR)
    | apply (keeps_read_file _ HR)
    | apply (keeps_open_with _ HR)
    | apply (keeps_os_path_exists _ HR)
    | leaf
    | apply (keeps_bind _ HR); [|intros ?]
    | apply (keeps_try_except _ HR); [|intros ?]
    | apply (keeps_try_finally _ HR)
    | match goal with
      | |- keeps _ (match ?x with _ => _ end) => destruct x
      | |- keeps _ (let _ := _ in _) => cbv zeta
      end
    | progress autounfold with prog ].

Ltac calls_leaf snoc :=
  first
    [ apply keeps_untraced; intros ?; reflexivity
    | apply keeps_calls_ext_call; intros ?; apply snoc; reflexivity ].

Lemma add_metadata_keeps_mutations doc_id filename_ texts :
  keeps (same_calls mutations) (add_metadata doc_id filename_ texts).
Proof.
  induction texts as [|text rest IH]; simpl.
  - apply (keeps_ret _ (frame_same_calls mutations)).
  - keeps_with (frame_same_calls mutations)
      ltac:(first [exact IH | calls_leaf (@mutations_snoc)]).
Qed.

Lemma os_remove_trace path (w : World) : trace (snd (os_remove path w)) = trace w.
Proof. unfold os_remove. destruct (fs w !! path); reflexivity. Qed.

Ltac calls_leaf_with snoc :=
  first
    [ apply keeps_untraced; intros ?; reflexivity
    | apply keeps_untraced; apply os_remove_trace
    | apply keeps_calls_ext_call; intros ?; snoc ].

Ltac creates_snoc_tac := apply creates_snoc; reflexivity.
Ltac mutations_snoc_tac := apply mutations_snoc; reflexivity.
Ltac add_calls_snoc_tac := rewrite add_calls_snoc; apply app_nil_r.
Ltac delete_calls_snoc_tac := rewrite delete_calls_snoc; apply app_nil_r.

Lemma add_metadata_keeps_calls {B} (f : list ecall -> B) doc_id filename_ texts :
  (forall t : list ecall, f (t ++ [ECall UtcNowIsoformat])%list = f t) ->
  keeps (same_calls f) (add_metadata doc_id filename_ texts).
Proof.
  intros Hf. induction texts as [|text rest IH]; simpl.
  - apply (keeps_ret _ (frame_same_calls f)).
  - keeps_with (frame_same_calls f)
      ltac:(first [exact IH | apply keeps_calls_ext_call; exact Hf]).
Qed.

Lemma add_metadata_keeps_files doc_id filename_ texts :
  keeps same_files (add_metadata doc_id filename_ texts).
Proof.
  induction texts as [|text rest IH]; simpl.
  - apply (keeps_ret _ frame_same_files).
  - keeps_with frame_same_files
      ltac:(first [exact IH | apply keeps_files_ext_call]).
Qed.

Ltac files_leaf :=
  first [ apply keeps_files_emit | apply keeps_files_ext_call
        | apply add_metadata_keeps_files ].

(** ** The routes that read *)

(** [GET /api/documents], [POST /api/search], [POST /api/search/similar] and
    [GET /api/search/stats] issue no call that writes to the service (no
    [create_index], no [add_documents], no [delete]) and leave the file
    system as it is, whatever the request and however the services
    answer. *)
Theorem reading_routes_write_nothing (request : Request) (w : World) :
  (mutations (trace (snd (list_documents_route w))) = mutations (trace w) /\
   fs (snd (list_documents_route w)) = fs w) /\
  (mutations (trace (snd (search_documents request w))) = mutations (trace w) /\
   fs (snd (search_documents request w)) = fs w) /\
  (mutations (trace (snd (find_similar_documents_route request w)))
   = mutations (trace w) /\
   fs (snd (find_similar_documents_route request w)) = fs w) /\
  (mutations (trace (snd (get_search_stats w))) = mutations (trace w) /\
   fs (snd (get_search_stats w)) = fs w).
Proof.
  assert (Hm : keeps (same_calls mutations) list_documents_route /\
               keeps (same_calls mutations) (search_documents request) /\
               keeps (same_calls mutations)
                 (find_similar_documents_route request) /\
               keeps (same_calls mutations) get_search_stats).
  { repeat split;
      keeps_with (frame_same_calls mutations)
        ltac:(calls_leaf_with mutations_snoc_tac). }
  assert (Hf : keeps same_files list_documents_route /\
               keeps same_files (search_documents request) /\
               keeps same_files (find_similar_documents_route request) /\
               keeps same_files get_search_stats).
  { repeat split; keeps_with frame_same_files files_leaf. }
  destruct Hm as (M1 & M2 & M3 & M4). destruct Hf as (F1 & F2 & F3 & F4).
  repeat split; first [apply M1 | apply M2 | apply M3 | apply M4
                      | apply F1 | apply F2 | apply F3 | apply F4].
Qed.

(** ** The routes that write *)

(** An upload never creates an index and never deletes a vector; a delete
    never creates an index, never adds a document and never touches the file
    system: the index is created by [init_index] alone. *)
Theorem writing_routes_confined (request : Request) (doc_id : string)
    (w : World) :
  (creates (trace (snd (upload_document request w))) = creates (trace w) /\
   delete_calls (trace (snd (upload_document request w)))
   = delete_calls (trace w)) /\
  (creates (trace (snd (delete_document_route doc_id w))) = creates (trace w) /\
   add_calls (trace (snd (delete_document_route doc_id w)))
   = add_calls (trace w) /\
   fs (snd (delete_document_route doc_id w)) = fs w).
Proof.
  split; [split | split; [|split]].
  - revert w. change (keeps (same_calls creates) (upload_document request)).
    keeps_with (frame_same_calls creates)
      ltac:(first [ apply add_metadata_keeps_calls; intros ?; creates_snoc_tac
                  | calls_leaf_with creates_snoc_tac ]).
  - revert w. change (keeps (same_calls delete_calls) (upload_document request)).
    keeps_with (frame_same_calls delete_calls)
      ltac:(first [ apply add_metadata_keeps_calls; intros ?;
                    delete_calls_snoc_tac
                  | calls_leaf_with delete_calls_snoc_tac ]).
  - revert w. change (keeps (same_calls creates) (delete_document_route doc_id)).
    keeps_with (frame_same_calls creates) ltac:(calls_leaf_with creates_snoc_tac).
  - revert w.
    change (keeps (same_calls add_calls) (delete_document_route doc_id)).
    keeps_with (frame_same_calls add_calls)
      ltac:(calls_leaf_with add_calls_snoc_tac).
  - revert w. change (keeps same_files (delete_document_route doc_id)).
    keeps_with frame_same_files files_leaf.
Qed.

Lemma load_document_keeps_files file_path filename_ :
  keeps same_files (load_document file_path filename_).
Proof. keeps_with frame_same_files files_leaf. Qed.

Lemma upload_processing_keeps_files_but temp_path filename_ doc_id :
  keeps (same_files_but temp_path)
    (upload_processing temp_path filename_ doc_id).
Proof.
  keeps_with (frame_same_files_but temp_path)
    ltac:(first [ apply keeps_files_but_remove
                | apply keeps_files_but_of; files_leaf
                | apply keeps_files_but_of; apply load_document_keeps_files ]).
Qed.

(** Apart from its own temporary path, an upload leaves every file as it
    was: for a path that is not the temporary path of this upload (the one
    made of the document id drawn for it and of the sanitised name of its
    file), the file system holds the same thing before and after the
    handler. *)
Theorem upload_touches_only_its_temp_file (request : Request) (w : World) p :
  (forall files_ file doc_id s1,
      request_files cfg request = inr files_ ->
      files_get "file" files_ = Some file ->
      perform _ Uuid4 (service w) = (inr doc_id, s1) ->
      p <> temp_path_of doc_id (secure_filename (filename file))) ->
  fs (snd (upload_document request w)) !! p = fs w !! p.
Proof.
  intros Hp.
  assert (Hh : forall e, keeps same_files
                 (respond_500 "Error processing document"
                    "Failed to process document" e)).
  { intros e. keeps_with frame_same_files files_leaf. }
  destruct (request_files cfg request) as [e|files_] eqn:Eread.
  { unfold upload_document, try_except, bind, lift. rewrite Eread.
    rewrite (Hh e w). reflexivity. }
  rewrite (upload_document_read _ _ _ Eread). unfold upload_files.
  destruct (files_get "file" files_) as [file|] eqn:Efile;
    [|reflexivity].
  destruct (String.eqb (filename file) EmptyString); [reflexivity|].
  destruct (negb (allowed_file str_lower cfg (filename file))); [reflexivity|].
  unfold try_except, bind at 1.
  destruct (ext_call Uuid4 w) as [[e|doc_id] w1] eqn:Euuid.
  - pose proof (keeps_files_ext_call Uuid4 w) as H1. rewrite Euuid in H1.
    rewrite (Hh e w1). simpl in H1. rewrite H1. reflexivity.
  - pose proof (keeps_files_ext_call Uuid4 w) as H1. rewrite Euuid in H1.
    simpl in H1. rewrite <- H1.
    apply ext_call_inr in Euuid as (s1 & Hdraw & _).
    specialize (Hp files_ file doc_id s1 eq_refl Efile Hdraw).
    set (temp := temp_path_of doc_id (secure_filename (filename file))) in *.
    assert (Hrest : keeps (same_files_but temp)
                      (file_save file temp ;;;
                       upload_processing temp (secure_filename (filename file))
                         doc_id)).
    { apply (keeps_bind _ (frame_same_files_but temp));
        [apply keeps_files_but_save|].
      intros _. apply upload_processing_keeps_files_but. }
    specialize (Hrest w1 p Hp).
    destruct ((file_save file temp ;;;
               upload_processing temp (secure_filename (filename file)) doc_id)
                w1) as [[e|r] w2]; simpl in *; exact Hrest.
Qed.

(** ** The handlers always answer *)

Lemma try_finally_inr {A} (body : M A) (final : M unit) w a w' :
  try_finally body final w = (inr a, w') -> exists w1, body w = (inr a, w1).
Proof.
  unfold try_finally. destruct (body w) as [r w1].
  destruct (final w1) as [[e|u] w2]; intros H; inversion H.
  exists w1. reflexivity.
Qed.

Lemma handler_answers (body : M Response) what shown (w : World) :
  exists r w',
    try_except body (respond_500 what shown) w = (inr r, w') /\
    (status r = 500 \/ exists w1, body w = (inr r, w1)).
Proof.
  unfold try_except. destruct (body w) as [[e|r] w1] eqn:E.
  - eexists. eexists. split; [reflexivity|]. left. reflexivity.
  - exists r, w1. split; [reflexivity|]. right. exists w1. reflexivity.
Qed.

Ltac invert_binds H :=
  repeat (let a := fresh "a" in
          let w := fresh "w" in
          apply bind_inr in H as (a & w & _ & H)).

(** The three handlers of [routes/documents.py] never let an exception
    escape: for every request and every behaviour of the services they
    return a response, and its status is 201, 400 or 500 for an upload, 200
    or 500 for the listing, 200, 404 or 500 for a delete. *)
Theorem documents_routes_always_answer (request : Request) (doc_id : string)
    (w : World) :
  (exists r w', upload_document request w = (inr r, w') /\
                (status r = 201 \/ status r = 400 \/ status r = 500)) /\
  (exists r w', list_documents_route w = (inr r, w') /\
                (status r = 200 \/ status r = 500)) /\
  (exists r w', delete_document_route doc_id w = (inr r, w') /\
                (status r = 200 \/ status r = 404 \/ status r = 500)).
Proof.
  split; [|split].
  - unfold upload_document.
    match goal with
    | |- context [try_except ?body (respond_500 ?a ?b) w] =>
        destruct (handler_answers body a b w) as (r & w' & Hrun & Hst)
    end.
    exists r, w'. split; [exact Hrun|].
    destruct Hst as [H5 | [w1 Hbody]]; [auto|].
    apply bind_inr in Hbody as (files_ & w0 & _ & Hbody).
    unfold upload_files in Hbody.
    destruct (files_get "file" files_) as [file|].
    2:{ inversion Hbody. auto. }
    destruct (String.eqb (filename file) EmptyString).
    { inversion Hbody. auto. }
    destruct (negb (allowed_file str_lower cfg (filename file))).
    { inversion Hbody. auto. }
    apply bind_inr in Hbody as (uuid & w2 & _ & Hbody).
    apply bind_inr in Hbody as (u & w3 & _ & Hbody).
    unfold upload_processing in Hbody.
    apply try_finally_inr in Hbody as [w4 Hbody].
    invert_binds Hbody. inversion Hbody. auto.
  - unfold list_documents_route.
    match goal with
    | |- context [try_except ?body (respond_500 ?a ?b) w] =>
        destruct (handler_answers body a b w) as (r & w' & Hrun & Hst)
    end.
    exists r, w'. split; [exact Hrun|].
    destruct Hst as [H5 | [w1 Hbody]]; [auto|].
    invert_binds Hbody. inversion Hbody. auto.
  - unfold delete_document_route.
    match goal with
    | |- context [try_except ?body (respond_500 ?a ?b) w] =>
        destruct (handler_answers body a b w) as (r & w' & Hrun & Hst)
    end.
    exists r, w'. split; [exact Hrun|].
    destruct Hst as [H5 | [w1 Hbody]]; [auto|].
    apply bind_inr in Hbody as (self & w2 & _ & Hbody).
    apply bind_inr in Hbody as ([] & w3 & _ & Hbody); inversion Hbody; auto.
Qed.

(** The three handlers of [routes/search.py] never let an exception escape
    either: they return a response whose status is 200, 400 or 500 for the
    two searches, 200 or 500 for the statistics. *)
Theorem search_routes_always_answer (request : Request) (w : World) :
  (exists r w', search_documents request w = (inr r, w') /\
                (status r = 200 \/ status r = 400 \/ status r = 500)) /\
  (exists r w', find_similar_documents_route request w = (inr r, w') /\
                (status r = 200 \/ status r = 400 \/ status r = 500)) /\
  (exists r w', get_search_stats w = (inr r, w') /\
                (status r = 200 \/ status r = 500)).
Proof.
  split; [|split].
  - unfold search_documents.
    match goal with
    | |- context [try_except ?body (respond_500 ?a ?b) w] =>
        destruct (handler_answers body a b w) as (r & w' & Hrun & Hst)
    end.
    exists r, w'. split; [exact Hrun|].
    destruct Hst as [H5 | [w1 Hbody]]; [auto|].
    apply bind_inr in Hbody as (data & w2 & _ & Hbody).
    apply bind_inr in Hbody as ([] & w3 & _ & Hbody).
    { inversion Hbody. auto. }
    invert_binds Hbody. inversion Hbody. auto.
  - unfold find_similar_documents_route.
    match goal with
    | |- context [try_except ?body (respond_500 ?a ?b) w] =>
        destruct (handler_answers body a b w) as (r & w' & Hrun & Hst)
    end.
    exists r, w'. split; [exact Hrun|].
    destruct Hst as [H5 | [w1 Hbody]]; [auto|].
    apply bind_inr in Hbody as (data & w2 & _ & Hbody).
    apply bind_inr in Hbody as ([] & w3 & _ & Hbody).
    { inversion Hbody. auto. }
    invert_binds Hbody. inversion Hbody. auto.
  - unfold get_search_stats.
    match goal with
    | |- context [try_except ?body (respond_500 ?a ?b) w] =>
        destruct (handler_answers body a b w) as (r & w' & Hrun & Hst)
    end.
    exists r, w'. split; [exact Hrun|].
    destruct Hst as [H5 | [w1 Hbody]]; [auto|].
    invert_binds Hbody. inversion Hbody. auto.
Qed.

(** ** Uploads *)

Lemma dict_get_set_eq key v d : Py.dict_get key (Py.dict_set key v d) = Some v.
Proof.
  induction d as [|[k x] d IH]; simpl.
  - rewrite String.eqb_refl. reflexivity.
  - destruct (String.eqb key k) eqn:E; simpl; rewrite ?String.eqb_refl, ?E;
      [reflexivity | exact IH].
Qed.

Lemma dict_get_set_ne key key' v d :
  key <> key' -> Py.dict_get key' (Py.dict_set key v d) = Py.dict_get key' d.
Proof.
  intros Hne. induction d as [|[k x] d IH]; simpl.
  - destruct (String.eqb key' key) eqn:E; [|reflexivity].
    apply String.eqb_eq in E. congruence.
  - destruct (String.eqb key k) eqn:E; simpl.
    + apply String.eqb_eq in E. subst k.
      destruct (String.eqb key' key) eqn:E'; [|reflexivity].
      apply String.eqb_eq in E'. congruence.
    + destruct (String.eqb key' k); [reflexivity | exact IH].
Qed.

Lemma retagged_update doc_id filename_ now text :
  retagged doc_id filename_ text
    (mkDocument (page_content text)
       (Py.dict_update [("doc_id", PStr doc_id); ("filename", PStr filename_);
                        ("upload_time", PStr now)] (metadata text))).
Proof.
  unfold retagged, tagged, Py.dict_update. cbn [fold_left fst snd metadata
                                                page_content].
  split; [reflexivity|]. split; [split; [|split]|].
  - rewrite !dict_get_set_ne by discriminate. apply dict_get_set_eq.
  - rewrite dict_get_set_ne by discriminate. apply dict_get_set_eq.
  - exists now. apply dict_get_set_eq.
  - intros key H1 H2 H3. rewrite !dict_get_set_ne by congruence. reflexivity.
Qed.

Lemma add_metadata_inr doc_id filename_ texts (w : World) texts' w' :
  add_metadata doc_id filename_ texts w = (inr texts', w') ->
  Forall2 (retagged doc_id filename_) texts texts'.
Proof.
  revert w texts' w'. induction texts as [|text rest IH];
    intros w texts' w' H; simpl in H.
  - inversion H. constructor.
  - apply bind_inr in H as (now & w1 & _ & H).
    apply bind_inr in H as (rest' & w2 & Hrest & H).
    inversion H. subst. constructor.
    + apply retagged_update.
    + exact (IH _ _ _ Hrest).
Qed.

(** [add_metadata] returns as many chunks as it was given, in the same
    order and with the same text; each now maps [doc_id] and [filename] to
    the document's, replacing what the chunk had under those keys, and keeps
    every other metadata key (the [source], the [page]).  It reads the clock
    once per chunk, in order, and the [upload_time] of each chunk is the
    answer the clock gave to the read made for it.  It does nothing else. *)
Theorem add_metadata_retags doc_id filename_ texts (w : World) texts' w' :
  add_metadata doc_id filename_ texts w = (inr texts', w') ->
  exists times,
    clock_reads (service w) times (service w') /\
    Forall2 stamped texts' times /\
    Forall2 (retagged doc_id filename_) texts texts' /\
    trace w'
    = (trace w ++ repeat (ECall UtcNowIsoformat) (length texts))%list /\
    fs w' = fs w /\ log w' = log w.
Proof.
  revert w texts' w'. induction texts as [|text rest IH];
    intros w texts' w' H; simpl in H.
  - inversion H. subst. exists []. simpl. rewrite app_nil_r.
    repeat split; constructor.
  - apply bind_inr in H as (now & w1 & Hnow & H).
    apply ext_call_inr in Hnow as (s1 & Hclock & ->).
    apply bind_inr in H as (rest' & w2 & Hrest & H).
    inversion H. subst. clear H.
    destruct (IH _ _ _ Hrest)
      as (times & Hreads & Hstamps & Htag & Htrace & Hfs & Hlog).
    exists (now :: times). repeat split.
    + exists s1. split; [exact Hclock | exact Hreads].
    + constructor; [|exact Hstamps].
      unfold stamped, Py.dict_update. cbn [fold_left fst snd metadata].
      apply dict_get_set_eq.
    + constructor; [apply retagged_update | exact Htag].
    + rewrite Htrace. simpl. rewrite <- app_assoc. reflexivity.
    + exact Hfs.
    + exact Hlog.
Qed.

Lemma try_finally_inr_worlds {A} (body : M A) (final : M unit) w a w' :
  try_finally body final w = (inr a, w') ->
  exists w1, body w = (inr a, w1) /\ final w1 = (inr tt, w').
Proof.
  unfold try_finally. destruct (body w) as [r w1].
  destruct (final w1) as [[e|[]] w2] eqn:E; intros H; inversion H.
  subst. exists w1. split; [reflexivity | exact E].
Qed.

Lemma add_documents_inr self documents (w : World) ids w' :
  add_documents self documents w = (inr ids, w') ->
  exists vs, vector_store self = Some vs /\
             add_calls (trace w') = (add_calls (trace w) ++ [(vs, documents)])%list /\
             fs w' = fs w.
Proof.
  intros H. unfold add_documents in H. apply reraise_inr in H.
  apply bind_inr in H as (vs & w1 & Hvs & H).
  unfold require_vector_store in Hvs.
  destruct (vector_store self) as [vs0|]; [|discriminate].
  inversion Hvs. subst vs0 w1.
  apply bind_inr in H as (ids' & w2 & Hcall & H).
  apply ext_call_inr in Hcall as (s2 & _ & ->).
  apply bind_inr in H as (u & w3 & Hlog & H).
  inversion Hlog. inversion H. subst. simpl.
  exists vs. split; [reflexivity|]. split; [|reflexivity].
  rewrite add_calls_snoc. reflexivity.
Qed.

(** A 201 means what it says: the response names the document id drawn for
    this upload and the sanitised filename; [chunks_created] is the number
    of chunks the splitter produced, which are the chunks handed to the
    vector store, in one [add_documents] call (the only one of the request),
    each retagged with the document id and the filename; and the temporary
    file is gone. *)
Theorem upload_created (request : Request) (w : World) r w' :
  upload_document request w = (inr r, w') ->
  status r = 201 ->
  exists files_ file doc_id vs texts documents splits,
    request_files cfg request = inr files_ /\
    files_get "file" files_ = Some file /\
    allowed_file str_lower cfg (filename file) = true /\
    split_documents (CHUNK_SIZE cfg) (CHUNK_OVERLAP cfg) documents
    = inr splits /\
    Forall2 (retagged doc_id (secure_filename (filename file))) splits texts /\
    length texts = length splits /\
    r = mkResponse
          (PDict [("success", PBool true);
                  ("doc_id", PStr doc_id);
                  ("filename", PStr (secure_filename (filename file)));
                  ("chunks_created", PInt (Z.of_nat (length texts)));
                  ("message",
                   PStr "Document processed and stored successfully")])
          201 /\
    add_calls (trace w') = (add_calls (trace w) ++ [(vs, texts)])%list /\
    fs w' !! temp_path_of doc_id (secure_filename (filename file)) = None.
Proof.
  intros Hrun Hst. unfold upload_document in Hrun.
  apply try_except_inr in Hrun as [Hbody | (e & w1 & _ & Hh)].
  2:{ apply respond_500_status in Hh as [Hs _]. rewrite Hs in Hst. discriminate. }
  apply bind_inr in Hbody as (files_ & w0 & Hread & Hbody).
  apply lift_inr in Hread as [Hread ->]. unfold upload_files in Hbody.
  destruct (files_get "file" files_) as [file|] eqn:Efile;
    [|inversion Hbody; subst; discriminate].
  destruct (String.eqb (filename file) EmptyString);
    [inversion Hbody; subst; discriminate|].
  destruct (allowed_file str_lower cfg (filename file)) eqn:Eallowed; cbn [negb] in Hbody;
    [|inversion Hbody; subst; discriminate].
  apply bind_inr in Hbody as (doc_id & w1 & Huuid & Hbody).
  apply bind_inr in Hbody as (u & w2 & Hsave & Hbody).
  set (name := secure_filename (filename file)) in *.
  set (temp := temp_path_of doc_id name) in *.
  assert (H1 : add_calls (trace w2) = add_calls (trace w)).
  { apply ext_call_inr in Huuid as (s1 & _ & ->). inversion Hsave. simpl.
    rewrite add_calls_snoc. apply app_nil_r. }
  unfold upload_processing in Hbody.
  apply try_finally_inr_worlds in Hbody as (w3 & Hbody & Hclean).
  destruct (cleanup_removes temp w3) as (w3' & Hc & Hgone & _ & _ & Htrace).
  rewrite Hc in Hclean. inversion Hclean. subst w3'. clear Hclean Hc.
  apply bind_inr in Hbody as (documents & w4 & Hload & Hbody).
  apply bind_inr in Hbody as (texts0 & w5 & Hsplit & Hbody).
  apply lift_inr in Hsplit as [Hsplit ->].
  apply bind_inr in Hbody as (texts & w6 & Hmeta & Hbody).
  apply bind_inr in Hbody as (self & w7 & Hinit & Hbody).
  apply bind_inr in Hbody as (ids & w8 & Hadd & Hbody).
  inversion Hbody. subst r w8. clear Hbody.
  apply add_documents_inr in Hadd as (vs & _ & Hadded & _).
  assert (H4 : add_calls (trace w4) = add_calls (trace w2)).
  { assert (K : keeps (same_calls add_calls) (load_document temp name))
      by (keeps_with (frame_same_calls add_calls)
            ltac:(calls_leaf_with add_calls_snoc_tac)).
    specialize (K w2). rewrite Hload in K. exact K. }
  assert (H6 : add_calls (trace w6) = add_calls (trace w4)).
  { pose proof (add_metadata_keeps_calls add_calls doc_id name texts0) as K.
    specialize (K ltac:(intros; rewrite add_calls_snoc; apply app_nil_r) w4).
    rewrite Hmeta in K. exact K. }
  assert (H7 : add_calls (trace w7) = add_calls (trace w6)).
  { assert (K : keeps (same_calls add_calls) VectorStoreManager_init)
      by (keeps_with (frame_same_calls add_calls)
            ltac:(calls_leaf_with add_calls_snoc_tac)).
    specialize (K w6). rewrite Hinit in K. exact K. }
  apply add_metadata_inr in Hmeta.
  exists files_, file, doc_id, vs, texts, documents, texts0.
  split; [exact Hread|]. split; [exact Efile|].
  split; [exact Eallowed|]. split; [exact Hsplit|].
  split; [exact Hmeta|].
  split; [symmetry; exact (Forall2_length _ _ _ Hmeta)|].
  split; [reflexivity|]. split.
  - rewrite Htrace, Hadded, H7, H6, H4, H1. reflexivity.
  - exact Hgone.
Qed.

(** An upload is answered 400 exactly when [request.files] is read (the
    body is within [MAX_CONTENT_LENGTH] and its form parses) and the request
    fails validation: no [file] part, an empty filename, or a filename that
    [allowed_file] refuses.  A 400 leaves the world untouched: no call, no
    file, no log line.  So a body over the limit is not answered 400. *)
Theorem upload_400_iff_invalid (request : Request) (w : World) r w' :
  upload_document request w = (inr r, w') ->
  (status r = 400 <-> upload_invalid request) /\
  (status r = 400 -> w' = w) /\
  (MAX_CONTENT_LENGTH cfg < content_length request -> status r = 500).
Proof.
  unfold upload_invalid. intros Hrun.
  destruct (request_files cfg request) as [e|files_] eqn:Eread.
  { unfold upload_document, try_except, bind, lift in Hrun.
    rewrite Eread in Hrun. apply respond_500_status in Hrun as [Hs _].
    rewrite Hs. repeat split; try discriminate; try contradiction. }
  assert (Hfits : MAX_CONTENT_LENGTH cfg < content_length request -> False).
  { intros Hbig. rewrite (request_files_too_large _ Hbig) in Eread.
    discriminate. }
  rewrite (upload_document_read _ _ _ Eread) in Hrun.
  unfold upload_files in Hrun.
  destruct (files_get "file" files_) as [file|].
  2:{ inversion Hrun. subst. repeat split; auto; contradiction. }
  destruct (String.eqb (filename file) EmptyString) eqn:Ename.
  { apply String.eqb_eq in Ename. inversion Hrun. subst.
    repeat split; auto; contradiction. }
  apply String.eqb_neq in Ename.
  destruct (allowed_file str_lower cfg (filename file)) eqn:Eallowed;
    cbn [negb] in Hrun.
  2:{ inversion Hrun. subst. repeat split; auto; contradiction. }
  assert (Hne : status r <> 400).
  { apply try_except_inr in Hrun as [Hbody | (e & w1 & _ & Hh)].
    - apply bind_inr in Hbody as (uuid & w2 & _ & Hbody).
      apply bind_inr in Hbody as (u & w3 & _ & Hbody).
      unfold upload_processing in Hbody.
      apply try_finally_inr in Hbody as [w4 Hbody].
      invert_binds Hbody. inversion Hbody. discriminate.
    - apply respond_500_status in Hh as [Hs _]. rewrite Hs. discriminate. }
  split; [split|split]; intros H.
  - contradiction.
  - destruct H as [H|H]; [contradiction | discriminate].
  - contradiction.
  - contradiction.
Qed.

(** The extension that [allowed_file] checked is the raw filename's; the
    file is then loaded under the sanitised filename.  When
    [secure_filename] leaves no ['.'] in the name (as it does for a name
    like [.txt], whose leading dot it strips), [load_document] fails on the
    subscript of its [rsplit] before any handler of its own applies, and the
    upload is answered 500 with [list index out of range]. *)
Theorem upload_sanitised_name_without_dot (request : Request) (w : World)
    files_ file doc_id s1 :
  request_files cfg request = inr files_ ->
  files_get "file" files_ = Some file ->
  filename file <> EmptyString ->
  allowed_file str_lower cfg (filename file) = true ->
  ~ occurs_in "." (secure_filename (filename file)) ->
  perform _ Uuid4 (service w) = (inr doc_id, s1) ->
  (forall file_path,
      load_document file_path (secure_filename (filename file)) w
      = (inl (mkExn IndexError "list index out of range"), w)) /\
  fst (upload_document request w)
  = inr (error_response
           "Failed to process document: list index out of range" 500).
Proof.
  intros Hread Hfile Hname Hallowed Hnodot Huuid.
  assert (Hext : file_ext str_lower (secure_filename (filename file)) = None).
  { unfold file_ext, PyStr.rsplit1.
    rewrite (rsplit_at_None _ Hnodot). reflexivity. }
  assert (Hload : forall file_path (w0 : World),
             load_document file_path (secure_filename (filename file)) w0
             = (inl (mkExn IndexError "list index out of range"), w0)).
  { intros file_path w0. unfold load_document. rewrite Hext. reflexivity. }
  split; [intros; apply Hload|].
  rewrite (upload_document_read _ _ _ Hread).
  unfold upload_files, try_except. rewrite Hfile.
  apply String.eqb_neq in Hname. rewrite Hname, Hallowed. cbn [negb].
  rewrite (bind_run_inr _ _ _ _ _ (ext_call_run _ _ _ _ Huuid)).
  erewrite bind_run_inr by (unfold file_save; reflexivity).
  unfold upload_processing, try_finally.
  rewrite (bind_run_inl _ _ _ _ _ (Hload _ _)).
  match goal with
  | |- context [cleanup ?p ?w0] =>
      destruct (cleanup_removes p w0) as (w2 & -> & _)
  end.
  reflexivity.
Qed.

(** ** Building the manager *)

(** A manager is connected exactly when the index exists at the time it is
    built: over a service whose [list_indexes] reports the indexes that
    exist and whose other calls do not change them, a constructor that
    returns has set [pc] and [embeddings], has set [vector_store] if and
    only if an index of the configured name exists, and has left the
    indexes as they were. *)
Theorem manager_connected_iff_index_exists :
  lists_the_indexes -> only_create_changes_indexes ->
  forall (w : World) self w',
    VectorStoreManager_init w = (inr self, w') ->
    (vector_store self <> None <->
     PINECONE_INDEX_NAME cfg ∈ index_names (service w)) /\
    pc self <> None /\ embeddings self <> None /\
    index_names (service w') = index_names (service w).
Proof.
  intros Hlist Hframe w self w' Hrun.
  unfold VectorStoreManager_init in Hrun. apply reraise_inr in Hrun.
  apply bind_inr in Hrun as (c & w1 & Hc & Hrun).
  apply ext_call_inr in Hc as (s1 & Hp1 & ->).
  pose proof (Hframe _ (NewPinecone (PINECONE_API_KEY cfg)) (service w) eq_refl)
    as F1. rewrite Hp1 in F1. simpl in F1.
  apply bind_inr in Hrun as (emb & w2 & Hemb & Hrun).
  apply ext_call_inr in Hemb as (s2 & Hp2 & ->). simpl in Hp2.
  pose proof (Hframe _ (NewOpenAIEmbeddings (OPENAI_API_KEY cfg)) s1 eq_refl)
    as F2. rewrite Hp2 in F2. simpl in F2.
  apply bind_inr in Hrun as (names & w3 & Hnames & Hrun).
  apply ext_call_inr in Hnames as (s3 & Hp3 & ->). simpl in Hp3.
  pose proof (Hframe _ (ListIndexes c) s2 eq_refl) as F3.
  rewrite Hp3 in F3. simpl in F3.
  apply Hlist in Hp3. subst names. rewrite F2, F1 in Hrun.
  destruct (bool_decide (PINECONE_INDEX_NAME cfg ∈ index_names (service w)))
    eqn:E.
  - apply bool_decide_eq_true_1 in E.
    apply bind_inr in Hrun as (index & w4 & Hindex & Hrun).
    apply ext_call_inr in Hindex as (s4 & Hp4 & ->). simpl in Hp4.
    pose proof (Hframe _ (PcIndex c (PINECONE_INDEX_NAME cfg)) s3 eq_refl) as F4.
    rewrite Hp4 in F4. simpl in F4.
    apply bind_inr in Hrun as (vs & w5 & Hvs & Hrun).
    apply ext_call_inr in Hvs as (s5 & Hp5 & ->). simpl in Hp5.
    pose proof (Hframe _ (NewVectorStore index emb "text") s4 eq_refl) as F5.
    rewrite Hp5 in F5. simpl in F5.
    inversion Hrun. subst. simpl.
    repeat split; try discriminate; try (intros _; exact E).
    congruence.
  - apply bool_decide_eq_false_1 in E.
    apply bind_inr in Hrun as (u & w4 & Hlog & Hrun).
    inversion Hlog. inversion Hrun. subst. simpl.
    repeat split; try discriminate; try congruence.
Qed.

Lemma guard_fails {A} self (k : VectorStore -> M A) what (w : World) :
  vector_store self = None ->
  try_except (vs <- require_vector_store self ;; k vs) (log_and_reraise what) w
  = (inl not_initialized, logged w what not_initialized).
Proof.
  intros Hnone. apply reraise_inl. unfold bind, require_vector_store.
  rewrite Hnone. reflexivity.
Qed.

Lemma respond_500_run what shown e (w : World) :
  respond_500 what shown e w
  = (inr (error_response (shown +:+ ": " +:+ exn_str e) 500),
     app_logged w what e).
Proof. reflexivity. Qed.

Lemma handler_run_inl (body : M Response) what shown (w : World) e w1 :
  body w = (inl e, w1) ->
  try_except body (respond_500 what shown) w
  = (inr (error_response (shown +:+ ": " +:+ exn_str e) 500),
     app_logged w1 what e).
Proof. unfold try_except. intros ->. apply respond_500_run. Qed.

(** The two search handlers up to the point where they build the manager,
    for a body that is an object with the required field. *)
Lemma search_documents_prefix (request : Request) d query (w : World) :
  get_json request = inr (PDict d) ->
  Py.dict_get "query" d = Some query ->
  search_documents request w
  = try_except
      (vector_store_ <- VectorStoreManager_init ;;
       results <- similarity_search vector_store_ query
                    (from_option id (PInt 5) (Py.dict_get "k" d))
                    (from_option id (PDict []) (Py.dict_get "filter" d)) ;;
       let formatted_results := map format_result results in
       ret (mkResponse
              (PDict [("success", PBool true);
                      ("query", query);
                      ("results", PList formatted_results);
                      ("total_results",
                       PInt (Z.of_nat (length formatted_results)))])
              200))
      (respond_500 "Error performing search" "Search failed") w.
Proof.
  intros Hjson Hq. destruct (dict_get_truthy _ _ _ Hq) as [Ht Hh].
  unfold search_documents, try_except. rewrite Hjson.
  rewrite (bind_run_inr _ _ w (PDict d) w) by reflexivity.
  unfold missing_field. rewrite Ht. simpl Py.contains. rewrite Hh.
  rewrite (bind_run_inr _ _ w false w) by reflexivity.
  cbv iota. unfold Py.getitem. rewrite Hq.
  rewrite (bind_run_inr _ _ w query w) by reflexivity.
  rewrite (bind_run_inr _ _ w (from_option id (PInt 5) (Py.dict_get "k" d)) w)
    by reflexivity.
  rewrite (bind_run_inr _ _ w
             (from_option id (PDict []) (Py.dict_get "filter" d)) w)
    by reflexivity.
  reflexivity.
Qed.

Lemma find_similar_prefix (request : Request) d doc_id (w : World) :
  get_json request = inr (PDict d) ->
  Py.dict_get "doc_id" d = Some doc_id ->
  find_similar_documents_route request w
  = try_except
      (vector_store_ <- VectorStoreManager_init ;;
       results <- find_similar_documents vector_store_ doc_id
                    (from_option id (PInt 5) (Py.dict_get "k" d)) ;;
       let formatted_results := map format_result results in
       ret (mkResponse
              (PDict [("success", PBool true);
                      ("reference_doc_id", doc_id);
                      ("similar_documents", PList formatted_results);
                      ("total_results",
                       PInt (Z.of_nat (length formatted_results)))])
              200))
      (respond_500 "Error finding similar documents"
         "Failed to find similar documents") w.
Proof.
  intros Hjson Hq. destruct (dict_get_truthy _ _ _ Hq) as [Ht Hh].
  unfold find_similar_documents_route, try_except. rewrite Hjson.
  rewrite (bind_run_inr _ _ w (PDict d) w) by reflexivity.
  unfold missing_field. rewrite Ht. simpl Py.contains. rewrite Hh.
  rewrite (bind_run_inr _ _ w false w) by reflexivity.
  cbv iota. unfold Py.getitem. rewrite Hq.
  rewrite (bind_run_inr _ _ w doc_id w) by reflexivity.
  rewrite (bind_run_inr _ _ w (from_option id (PInt 5) (Py.dict_get "k" d)) w)
    by reflexivity.
  reflexivity.
Qed.

(** ** Requests while the services fail or the index is missing *)

(** When the manager cannot be built (a missing key, a provider that does
    not answer), each handler that needs it answers 500 and passes the
    failure's message through after its own prefix. *)
Theorem constructor_failure_passes_through (request : Request)
    (doc_id : string) (w : World) e w0 :
  VectorStoreManager_init w = (inl e, w0) ->
  fst (list_documents_route w)
  = inr (error_response ("Failed to list documents: " +:+ exn_str e) 500) /\
  fst (delete_document_route doc_id w)
  = inr (error_response ("Failed to delete document: " +:+ exn_str e) 500) /\
  fst (get_search_stats w)
  = inr (error_response ("Failed to get stats: " +:+ exn_str e) 500) /\
  (forall d query,
      get_json request = inr (PDict d) ->
      Py.dict_get "query" d = Some query ->
      fst (search_documents request w)
      = inr (error_response ("Search failed: " +:+ exn_str e) 500)) /\
  (forall d ref,
      get_json request = inr (PDict d) ->
      Py.dict_get "doc_id" d = Some ref ->
      fst (find_similar_documents_route request w)
      = inr (error_response
               ("Failed to find similar documents: " +:+ exn_str e) 500)).
Proof.
  intros Hinit.
  split; [|split; [|split; [|split]]].
  - unfold list_documents_route.
    erewrite handler_run_inl by (apply bind_run_inl; exact Hinit). reflexivity.
  - unfold delete_document_route.
    erewrite handler_run_inl by (apply bind_run_inl; exact Hinit). reflexivity.
  - unfold get_search_stats.
    erewrite handler_run_inl by (apply bind_run_inl; exact Hinit). reflexivity.
  - intros d query Hjson Hq. rewrite (search_documents_prefix _ _ _ _ Hjson Hq).
    erewrite handler_run_inl by (apply bind_run_inl; exact Hinit). reflexivity.
  - intros d ref Hjson Hq. rewrite (find_similar_prefix _ _ _ _ Hjson Hq).
    erewrite handler_run_inl by (apply bind_run_inl; exact Hinit). reflexivity.
Qed.

(** When the manager is built but finds no index of the configured name,
    each handler that needs the store answers 500 with [Vector store not
    initialized] and makes no call beyond those of the constructor: a
    request never creates the missing index. *)
Theorem routes_without_index (request : Request) (doc_id : string)
    (w : World) self w0 :
  VectorStoreManager_init w = (inr self, w0) ->
  vector_store self = None ->
  (fst (list_documents_route w)
   = inr (error_response
            "Failed to list documents: Vector store not initialized" 500) /\
   trace (snd (list_documents_route w)) = trace w0) /\
  (fst (delete_document_route doc_id w)
   = inr (error_response
            "Failed to delete document: Vector store not initialized" 500) /\
   trace (snd (delete_document_route doc_id w)) = trace w0) /\
  (fst (get_search_stats w)
   = inr (error_response
            "Failed to get stats: Vector store not initialized" 500) /\
   trace (snd (get_search_stats w)) = trace w0) /\
  (forall d query,
      get_json request = inr (PDict d) ->
      Py.dict_get "query" d = Some query ->
      fst (search_documents request w)
      = inr (error_response "Search failed: Vector store not initialized" 500) /\
      trace (snd (search_documents request w)) = trace w0) /\
  (forall d ref,
      get_json request = inr (PDict d) ->
      Py.dict_get "doc_id" d = Some ref ->
      fst (find_similar_documents_route request w)
      = inr (error_response
               "Failed to find similar documents: Vector store not initialized"
               500) /\
      trace (snd (find_similar_documents_route request w)) = trace w0).
Proof.
  intros Hinit Hnone.
  split; [|split; [|split; [|split]]].
  - unfold list_documents_route.
    erewrite handler_run_inl.
    2:{ rewrite (bind_run_inr _ _ _ _ _ Hinit). apply bind_run_inl.
        unfold list_documents. apply guard_fails. exact Hnone. }
    split; reflexivity.
  - unfold delete_document_route.
    erewrite handler_run_inl.
    2:{ rewrite (bind_run_inr _ _ _ _ _ Hinit). apply bind_run_inl.
        unfold delete_document. apply guard_fails. exact Hnone. }
    split; reflexivity.
  - unfold get_search_stats.
    erewrite handler_run_inl.
    2:{ rewrite (bind_run_inr _ _ _ _ _ Hinit). apply bind_run_inl.
        unfold get_stats. apply guard_fails. exact Hnone. }
    split; reflexivity.
  - intros d query Hjson Hq. rewrite (search_documents_prefix _ _ _ _ Hjson Hq).
    erewrite handler_run_inl.
    2:{ rewrite (bind_run_inr _ _ _ _ _ Hinit). apply bind_run_inl.
        unfold similarity_search. apply guard_fails. exact Hnone. }
    split; reflexivity.
  - intros d ref Hjson Hq. rewrite (find_similar_prefix _ _ _ _ Hjson Hq).
    erewrite handler_run_inl.
    2:{ rewrite (bind_run_inr _ _ _ _ _ Hinit). apply bind_run_inl.
        unfold find_similar_documents. apply guard_fails. exact Hnone. }
    split; reflexivity.
Qed.

(** ** Creating the index *)

Lemma creates_snoc_create (t : list ecall) c name dimension metric :
  creates (t ++ [ECall (CreateIndex c name dimension metric)])
  = (creates t ++ [ECall (CreateIndex c name dimension metric)])%list.
Proof. unfold creates. rewrite List.filter_app. reflexivity. Qed.

(** When no index of the configured name exists, an [init_index] that
    returns has issued exactly one [create_index], for the configured name,
    with the dimension it was given and the cosine metric. *)
Theorem init_index_creates_missing_index :
  lists_the_indexes ->
  forall self dim (w : World) self1 w1,
    init_index self dim w = (inr self1, w1) ->
    PINECONE_INDEX_NAME cfg ∉ index_names (service w) ->
    exists c,
      pc self = Some c /\
      creates (trace w1)
      = (creates (trace w)
         ++ [ECall (CreateIndex c (PINECONE_INDEX_NAME cfg) dim "cosine")])%list.
Proof.
  intros Hlist self dim w self1 w1 Hrun Hout.
  unfold init_index in Hrun. apply reraise_inr in Hrun.
  apply bind_inr in Hrun as (c & w2 & Hc & Hrun).
  unfold self_pc in Hc. destruct (pc self) as [c0|] eqn:Epc; [|discriminate].
  inversion Hc. subst c0 w2. clear Hc.
  apply bind_inr in Hrun as (names & w3 & Hnames & Hrun).
  apply ext_call_inr in Hnames as (s3 & Hperf & ->).
  apply Hlist in Hperf. subst names.
  rewrite bool_decide_eq_false_2 in Hrun by exact Hout. cbn [negb] in Hrun.
  apply bind_inr in Hrun as (u & w4 & Hstep & Hrun).
  apply bind_inr in Hstep as ([] & w5 & Hcr & Hlog).
  apply ext_call_inr in Hcr as (s5 & _ & ->). inversion Hlog. subst w4.
  clear Hlog.
  apply bind_inr in Hrun as (index & w6 & Hindex & Hrun).
  apply ext_call_inr in Hindex as (s6 & _ & ->).
  apply bind_inr in Hrun as (emb & w7 & Hemb & Hrun).
  unfold self_embeddings in Hemb.
  destruct (embeddings self); [|discriminate]. inversion Hemb. subst.
  apply bind_inr in Hrun as (vs & w8 & Hvs & Hret).
  apply ext_call_inr in Hvs as (s8 & _ & ->). inversion Hret. subst.
  exists c. split; [reflexivity|]. simpl.
  rewrite !creates_snoc by reflexivity.
  rewrite creates_snoc_create, creates_snoc by reflexivity. reflexivity.
Qed.

Lemma manager_init_quiet (w : World) :
  only_create_changes_indexes -> quiet_at VectorStoreManager_init w.
Proof.
  intros Hframe. unfold VectorStoreManager_init.
  apply quiet_try_except; [|intros; apply quiet_reraise].
  apply quiet_bind; [apply quiet_ext_call; [exact Hframe | reflexivity]|].
  intros c w1 _.
  apply quiet_bind; [apply quiet_ext_call; [exact Hframe | reflexivity]|].
  intros emb w2 _.
  apply quiet_bind; [apply quiet_ext_call; [exact Hframe | reflexivity]|].
  intros names w3 _.
  destruct (bool_decide (PINECONE_INDEX_NAME cfg ∈ names)).
  - apply quiet_bind; [apply quiet_ext_call; [exact Hframe | reflexivity]|].
    intros index w4 _.
    apply quiet_bind; [apply quiet_ext_call; [exact Hframe | reflexivity]|].
    intros vs w5 _. apply quiet_refl.
  - apply quiet_bind; [split; reflexivity|]. intros u w4 _. apply quiet_refl.
Qed.

(** The [init-db] command lets no exception of the manager or of
    [init_index] escape: it always prints one line.  When that line is the
    success message, an index of the configured name exists afterwards; and
    if one existed before, the command has created nothing and changed no
    index. *)
Theorem init_db_command_initializes :
  lists_the_indexes -> create_adds_index -> only_create_changes_indexes ->
  forall w : World,
    (exists line w', init_db_command w = (inr line, w')) /\
    (forall w',
        init_db_command w = (inr initialized_message, w') ->
        PINECONE_INDEX_NAME cfg ∈ index_names (service w') /\
        (PINECONE_INDEX_NAME cfg ∈ index_names (service w) -> quiet w w')).
Proof.
  intros Hlist Hcreate Hframe w. split.
  - unfold init_db_command, try_except.
    match goal with
    | |- context [match ?b w with _ => _ end] => destruct (b w) as [[e|line] w1]
    end; eexists; eexists; reflexivity.
  - intros w' Hrun. unfold init_db_command in Hrun.
    apply try_except_inr in Hrun as [Hbody | (e & w1 & _ & Hh)].
    2:{ exfalso. injection Hh as Hmsg _. discriminate Hmsg. }
    apply bind_inr in Hbody as (manager & w1 & Hinit & Hbody).
    apply bind_inr in Hbody as (self1 & w2 & Hindex & Hret).
    inversion Hret. subst w2. clear Hret.
    destruct (init_index_returns _ _ _ _ _ Hlist Hcreate Hframe Hindex)
      as [Hthere _].
    split; [exact Hthere|]. intros Hbefore.
    pose proof (manager_init_quiet w Hframe) as Q1.
    unfold quiet_at in Q1. rewrite Hinit in Q1. simpl in Q1.
    assert (Hmid : PINECONE_INDEX_NAME cfg ∈ index_names (service w1)).
    { destruct Q1 as [_ ->]. exact Hbefore. }
    pose proof (init_index_present manager 1536 w1 Hlist Hframe Hmid) as Q2.
    unfold quiet_at in Q2. rewrite Hindex in Q2. simpl in Q2.
    exact (quiet_trans _ _ _ Q1 Q2).
Qed.

(** ** Grouping the sampled chunks by document *)

Lemma Qeq_bool_sym x y : Qeq_bool x y = Qeq_bool y x.
Proof.
  apply eq_true_iff_eq. rewrite !Qeq_bool_iff.
  split; intros H; symmetry; exact H.
Qed.

Lemma key_eqb_sym a b : Py.key_eqb a b = Py.key_eqb b a.
Proof.
  unfold Py.key_eqb.
  destruct a, b; simpl; try reflexivity;
    solve [apply Qeq_bool_sym | apply String.eqb_sym].
Qed.

Lemma key_eqb_trans a b c :
  Py.key_eqb a b = true -> Py.key_eqb b c = true -> Py.key_eqb a c = true.
Proof.
  unfold Py.key_eqb.
  destruct a, b, c; simpl; try discriminate; try reflexivity;
    try (rewrite !Qeq_bool_iff; intros H1 H2; rewrite H1; exact H2).
  rewrite !String.eqb_eq. congruence.
Qed.

Lemma key_eqb_refl a : Py.hashable a = true -> Py.key_eqb a a = true.
Proof.
  unfold Py.key_eqb.
  destruct a; simpl; try discriminate; intros _; try reflexivity;
    try (apply Qeq_bool_iff; reflexivity).
  apply String.eqb_refl.
Qed.

Lemma documents_has_false d documents :
  documents_has d documents = false ->
  Forall (fun item => Py.key_eqb d (fst item) = false) documents.
Proof.
  induction documents as [|[key entry] rest IH]; simpl; intros H.
  - constructor.
  - apply orb_false_iff in H as [H1 H2]. constructor; [exact H1 | auto].
Qed.

Lemma documents_has_true d documents :
  documents_has d documents = true ->
  exists item, item ∈ documents /\ Py.key_eqb d (fst item) = true.
Proof.
  induction documents as [|[key entry] rest IH]; simpl; intros H.
  - discriminate.
  - apply orb_true_iff in H as [H|H].
    + exists (key, entry). split; [left | exact H].
    + destruct (IH H) as (item & Hin & Heq). exists item.
      split; [right; exact Hin | exact Heq].
Qed.

Lemma documents_has_elem d item documents :
  item ∈ documents -> Py.key_eqb d (fst item) = true ->
  documents_has d documents = true.
Proof.
  intros Hin Heq. induction documents as [|[key entry] rest IH].
  - inversion Hin.
  - simpl. apply orb_true_iff. inversion Hin; subst.
    + left. exact Heq.
    + right. auto.
Qed.

Lemma documents_has_equal d d' documents :
  Py.key_eqb d d' = true ->
  documents_has d documents = documents_has d' documents.
Proof.
  intros Heq. apply eq_true_iff_eq. split; intros H;
    apply documents_has_true in H as (item & Hin & Hitem);
    apply (documents_has_elem _ item); try exact Hin.
  - apply (key_eqb_trans _ d); [rewrite key_eqb_sym; exact Heq | exact Hitem].
  - apply (key_eqb_trans _ d'); [exact Heq | exact Hitem].
Qed.

Lemma documents_has_app d a b :
  documents_has d (a ++ b) = documents_has d a || documents_has d b.
Proof.
  induction a as [|[key entry] rest IH]; simpl; [reflexivity|].
  rewrite IH, orb_assoc. reflexivity.
Qed.

Lemma distinct_keys_snoc documents key entry :
  distinct_keys documents -> documents_has key documents = false ->
  distinct_keys (documents ++ [(key, entry)]).
Proof.
  induction documents as [|[k e] rest IH]; simpl.
  - intros _ _. split; [reflexivity | exact I].
  - intros [Hk Hrest] Hnew. apply orb_false_iff in Hnew as [Hne Hnew].
    split; [|auto].
    rewrite documents_has_app, Hk. simpl.
    rewrite key_eqb_sym, Hne. reflexivity.
Qed.

Lemma documents_incr_keys d documents :
  map fst (documents_incr d documents) = map fst documents.
Proof.
  induction documents as [|[key entry] rest IH]; simpl; [reflexivity|].
  destruct (Py.key_eqb d key); simpl; [reflexivity | rewrite IH; reflexivity].
Qed.

Lemma documents_has_keys d a b :
  map fst a = map fst b -> documents_has d a = documents_has d b.
Proof.
  revert b. induction a as [|[k e] a IH]; intros [|[k' e'] b]; simpl;
    try discriminate; [reflexivity|].
  intros H. injection H as -> H. rewrite (IH b H). reflexivity.
Qed.

Lemma distinct_keys_same_keys a b :
  map fst a = map fst b -> distinct_keys a -> distinct_keys b.
Proof.
  revert b. induction a as [|[k e] a IH]; intros [|[k' e'] b]; simpl;
    try discriminate; [auto|].
  intros H. injection H as -> H. intros [Hk Ha].
  split; [rewrite <- (documents_has_keys k' a b H); exact Hk | eauto].
Qed.

(** [documents[doc_id]['chunk_count'] += 1] adds one to the entry filed
    under a key equal to [doc_id] and leaves the other entries alone. *)
Lemma documents_incr_counts d n documents :
  distinct_keys documents ->
  Forall (entry_counts n) documents ->
  Forall (entry_counts
            (fun key => (n key + if Py.key_eqb d key then 1 else 0)%nat))
    (documents_incr d documents).
Proof.
  induction documents as [|[key entry] rest IH]; simpl; intros Hd Hall.
  - constructor.
  - destruct Hd as [Hkey Hd]. inversion Hall as [|? ? [Hid Hcount] Hrest].
    subst. simpl in Hid, Hcount.
    destruct (Py.key_eqb d key) eqn:Ek.
    + constructor.
      * unfold entry_counts, incr_chunk_count. simpl. rewrite Hcount, Ek.
        split.
        -- rewrite dict_get_set_ne by discriminate. exact Hid.
        -- rewrite dict_get_set_eq. do 2 f_equal. lia.
      * apply documents_has_false in Hkey.
        rewrite Forall_forall in Hrest, Hkey. apply Forall_forall.
        intros item Hin. specialize (Hrest item Hin).
        specialize (Hkey item Hin). unfold entry_counts in *.
        replace (Py.key_eqb d (fst item)) with false.
        { rewrite Nat.add_0_r. exact Hrest. }
        symmetry. apply not_true_is_false. intros Hd'.
        rewrite (key_eqb_trans key d (fst item)) in Hkey;
          [discriminate | rewrite key_eqb_sym; exact Ek | exact Hd'].
    + constructor; [|auto].
      unfold entry_counts. simpl. rewrite Ek, Nat.add_0_r.
      split; assumption.
Qed.

Lemma filter_none {A} (f : A -> bool) (l : list A) :
  (forall x, In x l -> f x = false) -> List.filter f l = [].
Proof.
  induction l as [|x l IH]; simpl; intros H; [reflexivity|].
  rewrite (H x) by (left; reflexivity). apply IH. intros y Hy.
  apply H. right. exact Hy.
Qed.

Lemma chunks_of_snoc key seen m :
  chunks_of key (seen ++ [m])
  = (chunks_of key seen + if same_document key m then 1 else 0)%nat.
Proof.
  unfold chunks_of. rewrite List.filter_app, length_app. simpl.
  destruct (same_document key m); reflexivity.
Qed.

Lemma group_match_grouped seen documents m documents' :
  grouped seen documents ->
  group_match documents m = inr documents' ->
  grouped (seen ++ [m]) documents'.
Proof.
  intros (Hd & Hcount & Hpos & Hseen) Hrun. unfold group_match in Hrun.
  destruct (match_metadata m) as [md|] eqn:Emd; [|discriminate].
  destruct (Py.dict_get "doc_id" md) as [d|] eqn:Eid.
  - destruct (Py.hashable d) eqn:Ehash; [|discriminate]. simpl in Hrun.
    injection Hrun as <-.
    assert (Hm : match_doc_id m = Some d).
    { unfold match_doc_id. rewrite Emd. exact Eid. }
    assert (Hsame : forall key, same_document key m = Py.key_eqb d key).
    { intros key. unfold same_document. rewrite Hm. reflexivity. }
    set (entry := [("doc_id", d);
                   ("filename",
                    from_option id (PStr "Unknown")
                      (Py.dict_get "filename" md));
                   ("upload_time",
                    from_option id (PStr "Unknown")
                      (Py.dict_get "upload_time" md));
                   ("chunk_count", PInt 0)]).
    destruct (documents_has d documents) eqn:Ehas.
    + repeat split.
      * apply (distinct_keys_same_keys documents);
          [symmetry; apply documents_incr_keys | exact Hd].
      * eapply Forall_impl;
          [apply (documents_incr_counts d _ documents Hd Hcount)|].
        intros [key e] [H1 H2]. split; [exact H1|].
        simpl in *. rewrite chunks_of_snoc, Hsame. exact H2.
      * apply Forall_forall. intros item Hin.
        assert (Hk : fst item ∈ map fst documents).
        { rewrite <- (documents_incr_keys d). apply list_elem_of_fmap.
          exists item. split; [reflexivity | exact Hin]. }
        apply list_elem_of_fmap in Hk as (item0 & Hfst & Hin0).
        rewrite Forall_forall in Hpos. specialize (Hpos item0 Hin0).
        rewrite chunks_of_snoc, Hfst. lia.
      * apply Forall_app. split.
        -- eapply Forall_impl; [exact Hseen|]. intros m0 H d0 Hd0.
           rewrite (documents_has_keys d0 _ documents
                      (documents_incr_keys d documents)). auto.
        -- constructor; [|constructor]. intros d0 Hd0.
           rewrite Hm in Hd0. injection Hd0 as <-.
           rewrite (documents_has_keys d _ documents
                      (documents_incr_keys d documents)). exact Ehas.
    + assert (Hfresh : chunks_of d seen = 0%nat).
      { unfold chunks_of.
        rewrite filter_none; [reflexivity|]. intros m0 Hin0.
        rewrite Forall_forall in Hseen.
        apply not_true_is_false. intros Hsd.
        unfold same_document in Hsd.
        destruct (match_doc_id m0) as [d0|] eqn:E0; [|discriminate].
        assert (Hin0' : m0 ∈ seen) by (apply list_elem_of_In; exact Hin0).
        pose proof (Hseen m0 Hin0' d0 E0) as Hhas0.
        rewrite (documents_has_equal d0 d documents Hsd) in Hhas0.
        congruence. }
      assert (Hd' : distinct_keys (documents ++ [(d, entry)])).
      { apply distinct_keys_snoc; assumption. }
      assert (Hcount' : Forall (entry_counts (fun key => chunks_of key seen))
                          (documents ++ [(d, entry)])).
      { apply Forall_app. split; [exact Hcount|].
        constructor; [|constructor]. split; [reflexivity|].
        simpl. rewrite Hfresh. reflexivity. }
      repeat split.
      * apply (distinct_keys_same_keys (documents ++ [(d, entry)]));
          [symmetry; apply documents_incr_keys | exact Hd'].
      * eapply Forall_impl;
          [apply (documents_incr_counts d _ _ Hd' Hcount')|].
        intros [key e] [H1 H2]. split; [exact H1|].
        simpl in *. rewrite chunks_of_snoc, Hsame. exact H2.
      * apply Forall_forall. intros item Hin.
        assert (Hk : fst item ∈ map fst (documents ++ [(d, entry)])).
        { rewrite <- (documents_incr_keys d). apply list_elem_of_fmap.
          exists item. split; [reflexivity | exact Hin]. }
        apply list_elem_of_fmap in Hk as (item0 & Hfst & Hin0).
        rewrite chunks_of_snoc, Hfst.
        apply elem_of_app in Hin0 as [Hin0|Hin0].
        -- rewrite Forall_forall in Hpos. specialize (Hpos item0 Hin0). lia.
        -- apply list_elem_of_singleton in Hin0. subst item0. simpl.
           rewrite Hsame, (key_eqb_refl d Ehash). lia.
      * apply Forall_app. split.
        -- eapply Forall_impl; [exact Hseen|]. intros m0 H d0 Hd0.
           rewrite (documents_has_keys d0 _ _
                      (documents_incr_keys d (documents ++ [(d, entry)]))).
           rewrite documents_has_app, (H d0 Hd0). reflexivity.
        -- constructor; [|constructor]. intros d0 Hd0.
           rewrite Hm in Hd0. injection Hd0 as <-.
           rewrite (documents_has_keys d _ _
                      (documents_incr_keys d (documents ++ [(d, entry)]))).
           rewrite documents_has_app. simpl.
           rewrite (key_eqb_refl d Ehash). apply orb_true_r.
  - injection Hrun as <-.
    assert (Hm : match_doc_id m = None).
    { unfold match_doc_id. rewrite Emd. exact Eid. }
    assert (Hsame : forall key, same_document key m = false).
    { intros key. unfold same_document. rewrite Hm. reflexivity. }
    repeat split.
    + exact Hd.
    + eapply Forall_impl; [exact Hcount|]. intros [key e] [H1 H2].
      split; [exact H1|]. simpl in *.
      rewrite chunks_of_snoc, Hsame, Nat.add_0_r. exact H2.
    + eapply Forall_impl; [exact Hpos|]. intros item H.
      simpl in *. rewrite chunks_of_snoc, Hsame. lia.
    + apply Forall_app. split; [exact Hseen|].
      constructor; [|constructor]. intros d0 Hd0. congruence.
Qed.

Lemma group_matches_grouped matches : forall seen documents documents',
  grouped seen documents ->
  group_matches documents matches = inr documents' ->
  grouped (seen ++ matches) documents'.
Proof.
  induction matches as [|m rest IH]; simpl; intros seen documents documents'.
  - intros H Hrun. injection Hrun as <-. rewrite app_nil_r. exact H.
  - intros H Hrun.
    destruct (group_match documents m) as [e|documents1] eqn:E1;
      [discriminate|].
    replace (seen ++ m :: rest)%list with ((seen ++ [m]) ++ rest)%list
      by (rewrite <- app_assoc; reflexivity).
    apply (IH _ documents1); [|exact Hrun].
    apply (group_match_grouped _ documents); assumption.
Qed.

Lemma distinct_keys_lookup documents : forall i j item1 item2,
  distinct_keys documents ->
  documents !! i = Some item1 -> documents !! j = Some item2 -> i <> j ->
  Py.key_eqb (fst item1) (fst item2) = false.
Proof.
  induction documents as [|[key entry] rest IH]; intros i j item1 item2 Hd.
  - intros H. inversion H.
  - destruct Hd as [Hkey Hd].
    pose proof (documents_has_false _ _ Hkey) as Hall.
    rewrite Forall_forall in Hall.
    destruct i as [|i], j as [|j]; simpl; intros H1 H2 Hne.
    + congruence.
    + injection H1 as <-. apply Hall. eapply list_elem_of_lookup_2. exact H2.
    + injection H2 as <-. rewrite key_eqb_sym. apply Hall.
      eapply list_elem_of_lookup_2. exact H1.
    + apply (IH i j); auto.
Qed.

(** [list_documents] groups the sampled matches by [doc_id].  When it
    returns, the entries are those of the matches the index gave to the
    sample query: every entry carries a [doc_id] and, as [chunk_count], the
    number of sampled matches with an equal [doc_id], which is at least one;
    every sampled match with a [doc_id] has its entry; and no two entries
    have equal [doc_id]s. *)
Theorem list_documents_groups_by_doc_id self (w : World) entries w' :
  list_documents self w = (inr entries, w') ->
  exists c index s1 stats s2 matches,
    pc self = Some c /\
    perform _ (PcIndex c (PINECONE_INDEX_NAME cfg)) (service w)
    = (inr index, s1) /\
    perform _ (DescribeIndexStats index) s1 = (inr stats, s2) /\
    perform _ (sample_query index) s2 = (inr matches, service w') /\
    (forall entry, entry ∈ entries ->
       exists d,
         Py.dict_get "doc_id" entry = Some d /\
         Py.dict_get "chunk_count" entry
         = Some (PInt (Z.of_nat (chunks_of d matches))) /\
         (0 < chunks_of d matches)%nat) /\
    (forall m d, m ∈ matches -> match_doc_id m = Some d ->
       exists entry d',
         entry ∈ entries /\ Py.dict_get "doc_id" entry = Some d' /\
         Py.key_eqb d d' = true) /\
    (forall i j entry1 entry2 d1 d2,
       i <> j -> entries !! i = Some entry1 -> entries !! j = Some entry2 ->
       Py.dict_get "doc_id" entry1 = Some d1 ->
       Py.dict_get "doc_id" entry2 = Some d2 ->
       Py.key_eqb d1 d2 = false).
Proof.
  intros Hrun. unfold list_documents in Hrun. apply reraise_inr in Hrun.
  apply bind_inr in Hrun as (vs & w1 & Hvs & Hrun).
  unfold require_vector_store in Hvs.
  destruct (vector_store self); [|discriminate]. inversion Hvs. subst w1.
  clear Hvs.
  apply bind_inr in Hrun as (c & w2 & Hc & Hrun).
  unfold self_pc in Hc. destruct (pc self) as [c0|]; [|discriminate].
  inversion Hc. subst c0 w2. clear Hc.
  apply bind_inr in Hrun as (index & w3 & Hindex & Hrun).
  apply ext_call_inr in Hindex as (s1 & Hindex & ->).
  apply bind_inr in Hrun as (stats & w4 & Hstats & Hrun).
  apply ext_call_inr in Hstats as (s2 & Hstats & ->).
  apply bind_inr in Hrun as (matches & w5 & Hquery & Hrun).
  apply ext_call_inr in Hquery as (s3 & Hquery & ->).
  apply bind_inr in Hrun as (documents & w6 & Hgroup & Hret).
  apply lift_inr in Hgroup as [Hgroup ->]. inversion Hret. subst. clear Hret.
  cbn [service].
  assert (G : grouped ([] ++ matches) documents).
  { apply (group_matches_grouped matches [] []); [|exact Hgroup].
    repeat split; constructor. }
  rewrite app_nil_l in G. destruct G as (Hd & Hcount & Hpos & Hseen).
  rewrite Forall_forall in Hcount. rewrite Forall_forall in Hpos.
  rewrite Forall_forall in Hseen.
  exists c, index, s1, stats, s2, matches.
  repeat split; try assumption.
  - intros entry Hin. apply list_elem_of_fmap in Hin as (item & -> & Hin).
    destruct (Hcount item Hin) as [H1 H2]. exists (fst item).
    repeat split; [exact H1 | exact H2 | exact (Hpos item Hin)].
  - intros m d Hin Hm.
    destruct (documents_has_true _ _ (Hseen m Hin d Hm))
      as (item & Hitem & Heq).
    exists (snd item), (fst item). repeat split.
    + apply list_elem_of_fmap. exists item. split; [reflexivity | exact Hitem].
    + exact (proj1 (Hcount item Hitem)).
    + exact Heq.
  - intros i j entry1 entry2 d1 d2 Hne H1 H2 Hd1 Hd2.
    rewrite list_lookup_fmap in H1, H2.
    destruct (documents !! i) as [item1|] eqn:E1; [|discriminate].
    destruct (documents !! j) as [item2|] eqn:E2; [|discriminate].
    simpl in H1, H2. injection H1 as <-. injection H2 as <-.
    pose proof (proj1 (Hcount item1 (list_elem_of_lookup_2 _ _ _ E1))) as K1.
    pose proof (proj1 (Hcount item2 (list_elem_of_lookup_2 _ _ _ E2))) as K2.
    rewrite K1 in Hd1. rewrite K2 in Hd2.
    injection Hd1 as <-. injection Hd2 as <-.
    exact (distinct_keys_lookup documents i j item1 item2 Hd E1 E2 Hne).
Qed.

(** ** What [delete_document] deletes *)

(** When [delete_document] returns, it has asked the index for the chunks
    whose [doc_id] is the given one.  It returns [False] exactly when there
    are none, having deleted nothing and logged nothing; otherwise it has
    issued one delete, of the ids of all the chunks found, in the order
    found, and logged their number. *)
Theorem delete_document_deletes_what_it_found self doc_id (w : World) found w' :
  delete_document self doc_id w = (inr found, w') ->
  exists c index s1 matches s2,
    pc self = Some c /\
    perform _ (PcIndex c (PINECONE_INDEX_NAME cfg)) (service w)
    = (inr index, s1) /\
    perform _ (chunks_query index doc_id) s1 = (inr matches, s2) /\
    (found = false <-> matches = []) /\
    delete_calls (trace w')
    = (delete_calls (trace w)
       ++ if found then [(index, map match_id matches)] else [])%list /\
    log w'
    = (log w
       ++ if found
          then [mkLog RootLogger INFO
                  ("Deleted " +:+ pretty (length matches)
                   +:+ " vectors for document " +:+ py_str doc_id)]
          else [])%list /\
    (found = false -> service w' = s2).
Proof.
  intros Hrun. unfold delete_document in Hrun. apply reraise_inr in Hrun.
  apply bind_inr in Hrun as (vs & w1 & Hvs & Hrun).
  unfold require_vector_store in Hvs.
  destruct (vector_store self); [|discriminate]. inversion Hvs. subst w1.
  clear Hvs.
  apply bind_inr in Hrun as (c & w2 & Hc & Hrun).
  unfold self_pc in Hc. destruct (pc self) as [c0|]; [|discriminate].
  inversion Hc. subst c0 w2. clear Hc.
  apply bind_inr in Hrun as (index & w3 & Hindex & Hrun).
  apply ext_call_inr in Hindex as (s1 & Hindex & ->).
  apply bind_inr in Hrun as (matches & w4 & Hquery & Hrun).
  apply ext_call_inr in Hquery as (s2 & Hquery & ->).
  cbn [service] in Hquery.
  exists c, index, s1, matches, s2.
  split; [reflexivity|]. split; [exact Hindex|]. split; [exact Hquery|].
  destruct matches as [|m rest].
  - inversion Hrun. subst. cbn [trace log service].
    rewrite !delete_calls_snoc. simpl. rewrite !app_nil_r.
    repeat split; reflexivity.
  - apply bind_inr in Hrun as ([] & w5 & Hdel & Hrun).
    apply ext_call_inr in Hdel as (s3 & _ & ->).
    apply bind_inr in Hrun as ([] & w6 & Hlog & Hret).
    inversion Hlog. subst w6. inversion Hret. subst. cbn [trace log service].
    rewrite !delete_calls_snoc. cbn [deleted_ids from_option].
    rewrite !app_nil_r. rewrite length_map.
    repeat split; try reflexivity; discriminate.
Qed.

(** ** What [load_document] returns *)

Lemma handler_raises_inr {A} (body : M A) (f : Exn -> Exn) w a w' :
  try_except body (fun e => raise (f e)) w = (inr a, w') ->
  body w = (inr a, w').
Proof.
  intros H. apply try_except_inr in H as [H | (e & w1 & _ & H)];
    [exact H | discriminate].
Qed.

Lemma except_ImportError_inr {A} (body : M A) msg w a w' :
  except_ImportError body msg w = (inr a, w') -> body w = (inr a, w').
Proof.
  unfold except_ImportError. intros H.
  apply try_except_inr in H as [H | (e & w1 & _ & H)]; [exact H|].
  destruct (is_ImportError e); discriminate.
Qed.

Lemma read_file_inr path (w : World) data w' :
  read_file path w = (inr data, w') -> fs w !! path = Some data /\ w' = w.
Proof.
  unfold read_file. destruct (fs w !! path); intros H; inversion H.
  split; reflexivity.
Qed.

Lemma pdf_documents_elem file_path pages : forall n documents,
  pdf_documents file_path n pages = inr documents ->
  forall doc,
    doc ∈ documents <->
    exists i text,
      pages !! i = Some (inr text) /\ PyStr.strip_nonempty text = true /\
      doc = page_document file_path (n + Z.of_nat i) text.
Proof.
  induction pages as [|[e|text] rest IH]; simpl; intros n documents Hrun doc.
  - injection Hrun as <-. split.
    + intros H. inversion H.
    + intros (i & t & H & _). rewrite lookup_nil in H. discriminate.
  - discriminate.
  - destruct (pdf_documents file_path (n + 1) rest) as [e|docs] eqn:Erest;
      [discriminate|].
    specialize (IH (n + 1) docs Erest doc).
    assert (Hrest : doc ∈ docs <->
                    exists i t, rest !! i = Some (inr t) /\
                                PyStr.strip_nonempty t = true /\
                                doc = page_document file_path
                                        (n + Z.of_nat (S i)) t).
    { rewrite IH. split; intros (i & t & H1 & H2 & H3); exists i, t;
        (split; [exact H1|]; split; [exact H2|]); rewrite H3; f_equal; lia. }
    destruct (PyStr.strip_nonempty text) eqn:Etext; injection Hrun as <-.
    + rewrite elem_of_cons, Hrest. split.
      * intros [-> | (i & t & H1 & H2 & H3)].
        -- exists 0%nat, text. repeat split; [exact Etext|].
           change (Z.of_nat 0) with 0. rewrite Z.add_0_r. reflexivity.
        -- exists (S i), t. repeat split; assumption.
      * intros ([|i] & t & H1 & H2 & H3).
        -- left. simpl in H1. injection H1 as <-. rewrite H3.
           change (Z.of_nat 0) with 0. rewrite Z.add_0_r. reflexivity.
        -- right. exists i, t. repeat split; assumption.
    + rewrite Hrest. split.
      * intros (i & t & H1 & H2 & H3). exists (S i), t.
        repeat split; assumption.
      * intros ([|i] & t & H1 & H2 & H3).
        -- simpl in H1. injection H1 as <-. congruence.
        -- exists i, t. repeat split; assumption.
Qed.

Lemma pdf_documents_sorted file_path pages : forall n documents,
  pdf_documents file_path n pages = inr documents ->
  StronglySorted earlier_page documents.
Proof.
  induction pages as [|[e|text] rest IH]; simpl; intros n documents Hrun.
  - injection Hrun as <-. constructor.
  - discriminate.
  - destruct (pdf_documents file_path (n + 1) rest) as [e|docs] eqn:Erest;
      [discriminate|].
    destruct (PyStr.strip_nonempty text); injection Hrun as <-;
      [|exact (IH _ _ Erest)].
    constructor; [exact (IH _ _ Erest)|].
    apply Forall_forall. intros doc Hin.
    apply (pdf_documents_elem _ _ _ _ Erest) in Hin as (i & t & _ & _ & ->).
    exists n, (n + 1 + Z.of_nat i). repeat split. lia.
Qed.

Lemma pdf_documents_all_read file_path pages : forall n documents,
  pdf_documents file_path n pages = inr documents ->
  Forall (fun page => exists text, page = inr text) pages.
Proof.
  induction pages as [|[e|text] rest IH]; simpl; intros n documents Hrun.
  - constructor.
  - discriminate.
  - destruct (pdf_documents file_path (n + 1) rest) as [e|docs] eqn:Erest;
      [discriminate|].
    constructor; [exists text; reflexivity | exact (IH _ _ Erest)].
Qed.

(** A PDF is loaded page by page.  When [load_document] returns for a
    [pdf] filename, the text of every page was extracted; the documents are
    the pages whose text is not blank, each with the file as [source] and
    its position in the PDF, counted from 0, as [page] (a blank page is left
    out but keeps its number); and they come in page order. *)
Theorem load_document_pdf_pages file_path filename (w : World) documents w' :
  file_ext str_lower filename = Some "pdf" ->
  load_document file_path filename w = (inr documents, w') ->
  exists data pages,
    fs w !! file_path = Some data /\
    pdf_reader_pages data = inr pages /\
    Forall (fun page => exists text, page = inr text) pages /\
    (forall doc,
        doc ∈ documents <->
        exists i text,
          pages !! i = Some (inr text) /\ PyStr.strip_nonempty text = true /\
          doc = page_document file_path (Z.of_nat i) text) /\
    StronglySorted earlier_page documents.
Proof.
  intros Hext Hrun. unfold load_document in Hrun. rewrite Hext in Hrun.
  apply handler_raises_inr in Hrun. cbn [String.eqb Ascii.eqb Bool.eqb] in Hrun.
  apply except_ImportError_inr in Hrun. unfold read_pdf in Hrun.
  apply bind_inr in Hrun as ([] & w1 & Himport & Hrun).
  apply lift_inr in Himport as [_ ->].
  apply bind_inr in Hrun as (data & w2 & Hread & Hrun).
  apply read_file_inr in Hread as [Hread ->].
  apply bind_inr in Hrun as (pages & w3 & Hpages & Hrun).
  apply lift_inr in Hpages as [Hpages ->].
  apply lift_inr in Hrun as [Hrun _].
  exists data, pages. split; [exact Hread|]. split; [exact Hpages|].
  split; [exact (pdf_documents_all_read _ _ _ _ Hrun)|].
  split; [|exact (pdf_documents_sorted _ _ _ _ Hrun)].
  intros doc. rewrite (pdf_documents_elem _ _ _ _ Hrun doc).
  split; intros (i & t & H1 & H2 & H3); exists i, t;
    (split; [exact H1|]; split; [exact H2|]); rewrite H3; f_equal; lia.
Qed.

(** [load_document] returns only for the four extensions it knows, it
    changes nothing (no file, no call, no log line), and every document it
    returns names the file it was read from as its [source]; for a file that
    is not a PDF there is exactly one document, whose only metadata is that
    source. *)
Theorem load_document_returns file_path filename (w : World) documents w' :
  load_document file_path filename w = (inr documents, w') ->
  w' = w /\
  Forall (fun doc => Py.dict_get "source" (metadata doc)
                     = Some (PStr file_path)) documents /\
  exists ext,
    file_ext str_lower filename = Some ext /\
    (ext = "txt" \/ ext = "pdf" \/ ext = "docx" \/ ext = "xlsx") /\
    (ext <> "pdf" ->
     exists content,
       documents = [mkDocument content [("source", PStr file_path)]]).
Proof.
  intros Hrun. unfold load_document in Hrun.
  destruct (file_ext str_lower filename) as [ext|]; [|discriminate].
  apply handler_raises_inr in Hrun.
  destruct (String.eqb ext "txt") eqn:Etxt.
  { apply String.eqb_eq in Etxt. unfold read_txt in Hrun.
    apply bind_inr in Hrun as (data & w1 & Hread & Hrun).
    apply read_file_inr in Hread as [_ ->].
    apply bind_inr in Hrun as (content & w2 & Hdec & Hrun).
    apply lift_inr in Hdec as [_ ->]. inversion Hrun. subst.
    split; [reflexivity|]. split; [repeat constructor|].
    exists "txt". repeat split; [left; reflexivity|].
    intros _. exists content. reflexivity. }
  destruct (String.eqb ext "pdf") eqn:Epdf.
  { apply String.eqb_eq in Epdf. apply except_ImportError_inr in Hrun.
    unfold read_pdf in Hrun.
    apply bind_inr in Hrun as ([] & w1 & Himport & Hrun).
    apply lift_inr in Himport as [_ ->].
    apply bind_inr in Hrun as (data & w2 & Hread & Hrun).
    apply read_file_inr in Hread as [_ ->].
    apply bind_inr in Hrun as (pages & w3 & Hpages & Hrun).
    apply lift_inr in Hpages as [_ ->].
    apply lift_inr in Hrun as [Hrun ->].
    split; [reflexivity|]. split.
    - apply Forall_forall. intros doc Hin.
      apply (pdf_documents_elem _ _ _ _ Hrun) in Hin as (i & t & _ & _ & ->).
      reflexivity.
    - exists ext. repeat split; [right; left; exact Epdf|].
      intros Hne. contradiction. }
  destruct (String.eqb ext "docx") eqn:Edocx.
  { apply String.eqb_eq in Edocx. apply except_ImportError_inr in Hrun.
    unfold read_docx in Hrun.
    apply bind_inr in Hrun as ([] & w1 & Himport & Hrun).
    apply lift_inr in Himport as [_ ->].
    apply bind_inr in Hrun as (paragraphs & w2 & Hopen & Hrun).
    unfold open_with in Hopen. inversion Hopen. subst w2.
    inversion Hrun. subst.
    split; [reflexivity|]. split; [repeat constructor|].
    exists "docx". repeat split; [right; right; left; reflexivity|].
    intros _. eexists. reflexivity. }
  destruct (String.eqb ext "xlsx") eqn:Exlsx.
  { apply String.eqb_eq in Exlsx. apply except_ImportError_inr in Hrun.
    unfold read_xlsx in Hrun.
    apply bind_inr in Hrun as ([] & w1 & Himport & Hrun).
    apply lift_inr in Himport as [_ ->].
    apply bind_inr in Hrun as (sheets & w2 & Hopen & Hrun).
    unfold open_with in Hopen. inversion Hopen. subst w2.
    inversion Hrun. subst.
    split; [reflexivity|]. split; [repeat constructor|].
    exists "xlsx". repeat split; [right; right; right; reflexivity|].
    intros _. eexists. reflexivity. }
  discriminate.
Qed.

(** ** The search routes on their good and bad requests *)

Lemma search_calls_snoc {A} (t : list ecall) (c : call A) :
  search_calls (t ++ [ECall c])
  = (search_calls t
     ++ from_option (fun x => [x]) [] (searched (ECall c)))%list.
Proof.
  unfold search_calls. rewrite omap_app. simpl.
  destruct (searched (ECall c)); reflexivity.
Qed.

Lemma missing_field_true data key :
  missing_field data key = inr true <->
  Py.truthy data = false \/ Py.contains key data = inr false.
Proof.
  unfold missing_field. destruct (Py.truthy data); simpl.
  - destruct (Py.contains key data) as [e|[|]]; simpl; split;
      try discriminate; try reflexivity;
      try (intros [H|H]; discriminate); intros _; right; reflexivity.
  - split; [intros _; left; reflexivity | reflexivity].
Qed.

(** A 200 from [POST /api/search] means that the body was a JSON object with
    a ['query'], and that the vector store of the manager built for the
    request was asked once: for that query, with the body's ['k'] (5 when it
    has none) and the body's ['filter'] (an empty dict when it has none),
    both passed on as they came.  The response echoes the query and lists
    what the store answered to that search, in the store's order, with its
    number. *)
Theorem search_documents_ok (request : Request) (w : World) resp w' :
  search_documents request w = (inr resp, w') ->
  status resp = 200 ->
  exists d query self w1 vs results,
    get_json request = inr (PDict d) /\
    Py.dict_get "query" d = Some query /\
    VectorStoreManager_init w = (inr self, w1) /\
    vector_store self = Some vs /\
    perform _
      (VsSimilaritySearchWithScore vs query
         (from_option id (PInt 5) (Py.dict_get "k" d))
         (from_option id (PDict []) (Py.dict_get "filter" d)))
      (service w1)
    = (inr results, service w') /\
    search_calls (trace w')
    = (search_calls (trace w)
       ++ [(vs, query,
            from_option id (PInt 5) (Py.dict_get "k" d),
            from_option id (PDict []) (Py.dict_get "filter" d))])%list /\
    resp = mkResponse
             (PDict [("success", PBool true);
                     ("query", query);
                     ("results", PList (map format_result results));
                     ("total_results", PInt (Z.of_nat (length results)))])
             200.
Proof.
  intros Hrun Hst. unfold search_documents in Hrun.
  apply try_except_inr in Hrun as [Hbody | (e & w1 & _ & Hh)].
  2:{ apply respond_500_status in Hh as [Hs _]. rewrite Hs in Hst.
      discriminate. }
  apply bind_inr in Hbody as (data & w1 & Hjson & Hbody).
  apply lift_inr in Hjson as [Hjson ->].
  apply bind_inr in Hbody as (missing & w2 & Hmiss & Hbody).
  apply lift_inr in Hmiss as [_ ->].
  destruct missing; [inversion Hbody; subst; discriminate|].
  apply bind_inr in Hbody as (query & w3 & Hq & Hbody).
  apply lift_inr in Hq as [Hq ->].
  destruct data as [| | | | | |d]; try discriminate.
  cbn [Py.getitem] in Hq.
  destruct (Py.dict_get "query" d) as [q|] eqn:Eq; [|discriminate].
  injection Hq as ->.
  apply bind_inr in Hbody as (k & w4 & Hk & Hbody).
  apply lift_inr in Hk as [Hk ->]. injection Hk as <-.
  apply bind_inr in Hbody as (flt & w5 & Hflt & Hbody).
  apply lift_inr in Hflt as [Hflt ->]. injection Hflt as <-.
  apply bind_inr in Hbody as (self & w6 & Hinit & Hbody).
  apply bind_inr in Hbody as (results & w7 & Hsearch & Hret).
  inversion Hret. subst resp w7. clear Hret.
  unfold similarity_search in Hsearch. apply reraise_inr in Hsearch.
  apply bind_inr in Hsearch as (vs & w8 & Hvs & Hsearch).
  unfold require_vector_store in Hvs.
  destruct (vector_store self) as [vs0|] eqn:Evs; [|discriminate].
  inversion Hvs. subst vs0 w8. clear Hvs.
  apply bind_inr in Hsearch as (found & w9 & Hcall & Hret).
  apply ext_call_inr in Hcall as (s9 & Hanswer & ->). inversion Hret. subst.
  assert (K : keeps (same_calls search_calls) VectorStoreManager_init)
    by (keeps_with (frame_same_calls search_calls)
          ltac:(calls_leaf_with
                  ltac:(rewrite search_calls_snoc; apply app_nil_r))).
  specialize (K w). rewrite Hinit in K. unfold same_calls in K. simpl in K.
  exists d, query, self, w6, vs, results.
  split; [exact Hjson|]. split; [exact Eq|]. split; [exact Hinit|].
  split; [exact Evs|]. split; [exact Hanswer|]. split.
  - cbn [trace]. rewrite search_calls_snoc, K. reflexivity.
  - rewrite length_map. reflexivity.
Qed.

(** The two [POST] routes of the search blueprint answer 400 exactly when
    the body is falsy (absent, [null], 0, empty) or does not contain the
    field they need, ['query'] or ['doc_id']; the 400 carries the route's
    message and nothing has happened: no call, no log line. *)
Theorem search_routes_400_iff_field_missing (request : Request) (w : World) :
  (forall r w',
      search_documents request w = (inr r, w') ->
      (status r = 400 <-> field_missing request "query") /\
      (status r = 400 ->
       r = error_response "Query is required" 400 /\ w' = w)) /\
  (forall r w',
      find_similar_documents_route request w = (inr r, w') ->
      (status r = 400 <-> field_missing request "doc_id") /\
      (status r = 400 ->
       r = error_response "Document ID is required" 400 /\ w' = w)).
Proof.
  split; intros r w' Hrun.
  - unfold search_documents in Hrun.
    apply try_except_inr in Hrun as [Hbody | (e & w1 & Hfail & Hh)].
    + apply bind_inr in Hbody as (data & w1 & Hjson & Hbody).
      apply lift_inr in Hjson as [Hjson ->].
      apply bind_inr in Hbody as (missing & w2 & Hmiss & Hbody).
      apply lift_inr in Hmiss as [Hmiss ->].
      destruct missing.
      * inversion Hbody. subst. split; [|auto]. split; [|reflexivity].
        intros _. exists data. split; [exact Hjson|].
        apply missing_field_true. exact Hmiss.
      * assert (Hne : status r <> 400).
        { invert_binds Hbody. inversion Hbody. discriminate. }
        split; [|contradiction]. split; [contradiction|].
        intros (data' & Hjson' & Hm). rewrite Hjson in Hjson'.
        injection Hjson' as <-. apply missing_field_true in Hm. congruence.
    + apply respond_500_status in Hh as [Hs _].
      split; [|rewrite Hs; discriminate].
      split; [rewrite Hs; discriminate|].
      intros (data & Hjson & Hm). apply missing_field_true in Hm.
      unfold bind, lift in Hfail. rewrite Hjson, Hm in Hfail. discriminate.
  - unfold find_similar_documents_route in Hrun.
    apply try_except_inr in Hrun as [Hbody | (e & w1 & Hfail & Hh)].
    + apply bind_inr in Hbody as (data & w1 & Hjson & Hbody).
      apply lift_inr in Hjson as [Hjson ->].
      apply bind_inr in Hbody as (missing & w2 & Hmiss & Hbody).
      apply lift_inr in Hmiss as [Hmiss ->].
      destruct missing.
      * inversion Hbody. subst. split; [|auto]. split; [|reflexivity].
        intros _. exists data. split; [exact Hjson|].
        apply missing_field_true. exact Hmiss.
      * assert (Hne : status r <> 400).
        { invert_binds Hbody. inversion Hbody. discriminate. }
        split; [|contradiction]. split; [contradiction|].
        intros (data' & Hjson' & Hm). rewrite Hjson in Hjson'.
        injection Hjson' as <-. apply missing_field_true in Hm. congruence.
    + apply respond_500_status in Hh as [Hs _].
      split; [|rewrite Hs; discriminate].
      split; [rewrite Hs; discriminate|].
      intros (data & Hjson & Hm). apply missing_field_true in Hm.
      unfold bind, lift in Hfail. rewrite Hjson, Hm in Hfail. discriminate.
Qed.

(** ** An upload that cannot be loaded *)

Lemma frame_same_world : frame (fun w w' : World => w' = w).
Proof. split; intros; congruence. Qed.

Lemma load_document_same_world file_path filename_ :
  keeps (fun w w' : World => w' = w) (load_document file_path filename_).
Proof. keeps_with frame_same_world fail. Qed.

(** The manager is built only after the file has been loaded.  When
    [load_document] fails on the saved upload, the upload is answered 500
    with the failure's message, and neither Pinecone nor OpenAI has been
    contacted: the only external call of the request is the draw of the
    document id.  This is what happens to a file whose extension the
    configuration allows but [load_document] does not know: the failure is
    then the unsupported-type error. *)
Theorem upload_unloadable_file_stops_before_store (request : Request)
    (w : World) files_ file doc_id s1 e :
  request_files cfg request = inr files_ ->
  files_get "file" files_ = Some file ->
  filename file <> EmptyString ->
  allowed_file str_lower cfg (filename file) = true ->
  perform _ Uuid4 (service w) = (inr doc_id, s1) ->
  fst (load_document
         (temp_path_of doc_id (secure_filename (filename file)))
         (secure_filename (filename file))
         (mkWorld s1
            (<[temp_path_of doc_id (secure_filename (filename file))
               := stream file]> (fs w))
            (log w) (trace w ++ [ECall Uuid4]))) = inl e ->
  fst (upload_document request w)
  = inr (error_response ("Failed to process document: " +:+ exn_str e) 500) /\
  trace (snd (upload_document request w)) = (trace w ++ [ECall Uuid4])%list /\
  service (snd (upload_document request w)) = s1 /\
  (forall ext,
      file_ext str_lower (secure_filename (filename file)) = Some ext ->
      ext <> "txt" -> ext <> "pdf" -> ext <> "docx" -> ext <> "xlsx" ->
      e = load_error ext (unsupported_file_type ext)).
Proof.
  intros Hread Hfile Hname Hallowed Huuid Hload.
  set (name := secure_filename (filename file)) in *.
  set (temp := temp_path_of doc_id name) in *.
  set (w2 := mkWorld s1 (<[temp := stream file]> (fs w)) (log w)
               (trace w ++ [ECall Uuid4])) in *.
  assert (Hrun : load_document temp name w2 = (inl e, w2)).
  { pose proof (load_document_same_world temp name w2) as Hsame.
    destruct (load_document temp name w2) as [r w3]. simpl in *.
    subst. reflexivity. }
  assert (Hupload :
            exists w', upload_document request w
                       = (inr (error_response
                                 ("Failed to process document: "
                                  +:+ exn_str e) 500), w') /\
                       trace w' = trace w2 /\ service w' = service w2).
  { rewrite (upload_document_read _ _ _ Hread).
    unfold upload_files, try_except. rewrite Hfile.
    apply String.eqb_neq in Hname. rewrite Hname, Hallowed. cbn [negb].
    destruct (cleanup_removes temp w2) as (w3 & Hclean & _ & Hs & _ & Ht).
    rewrite (bind_run_inr _ _ _ _ _ (ext_call_run _ _ _ _ Huuid)).
    erewrite bind_run_inr by (unfold file_save; reflexivity).
    unfold upload_processing, try_finally.
    fold name. fold temp. fold w2.
    rewrite (bind_run_inl _ _ _ _ _ Hrun), Hclean.
    eexists. split; [reflexivity|]. split; [exact Ht | exact Hs]. }
  destruct Hupload as (w' & -> & Ht & Hs). simpl.
  split; [reflexivity|]. split; [exact Ht|]. split; [exact Hs|].
  intros ext Hext H1 H2 H3 H4.
  unfold load_document in Hrun. rewrite Hext in Hrun.
  apply String.eqb_neq in H1, H2, H3, H4. rewrite H1, H2, H3, H4 in Hrun.
  inversion Hrun. reflexivity.
Qed.

End Glue.

(** * The reference service meets the assumptions *)

Lemma pyval_eqb_refl : forall a, Mem.pyval_eqb a a = true.
Proof.
  fix IH 1. intros [ | b | n | x | s | l | d]; simpl.
  - reflexivity.
  - destruct b; reflexivity.
  - apply Z.eqb_refl.
  - rewrite Z.eqb_refl, Pos.eqb_refl. reflexivity.
  - apply String.eqb_refl.
  - induction l as [|x l IHl]; [reflexivity|].
    rewrite (IH x). exact IHl.
  - induction d as [|[k x] d IHd]; [reflexivity|].
    rewrite String.eqb_refl, (IH x). exact IHd.
Qed.

Lemma search_matches s k filter v :
  v ∈ Mem.search s k filter -> Mem.matches_filter filter (Mem.vec_metadata v) = true.
Proof.
  unfold Mem.search. intros H.
  apply elem_of_take in H as (i & Hi & _).
  assert (Hin : In v (List.filter
                        (fun v => Mem.matches_filter filter (Mem.vec_metadata v))
                        (Mem.vectors s))).
  { apply list_elem_of_In, list_elem_of_lookup. exists i. exact Hi. }
  apply List.filter_In in Hin as [_ Hm]. exact Hm.
Qed.

Lemma mem_honours_ne_filter : honours_ne_filter Mem.perform.
Proof.
  intros vs query k doc_id s results s' Hrun r Hr Hget.
  simpl in Hrun. destruct k as [ | | n | | | | ]; try discriminate.
  destruct (Mem.valid_top_k n); [|discriminate].
  inversion Hrun. subst results s'. clear Hrun.
  apply list_elem_of_fmap in Hr as (v & -> & Hv).
  apply search_matches in Hv. simpl in Hv, Hget.
  rewrite Hget, pyval_eqb_refl in Hv. discriminate.
Qed.

Lemma mem_rejects_top_k_below_1 : rejects_top_k_below_1 Mem.perform.
Proof.
  intros vs query k filter s results s' Hrun.
  simpl in Hrun. destruct k as [ | | n | | | | ]; try discriminate.
  destruct (Mem.valid_top_k n) eqn:E; [|discriminate].
  exists n. split; [reflexivity|].
  unfold Mem.valid_top_k in E. apply andb_true_iff in E as [E _].
  apply Z.leb_le in E. exact E.
Qed.

Lemma mem_lists_the_indexes : lists_the_indexes Mem.perform Mem.index_names.
Proof. intros c s names s' H. simpl in H. inversion H. reflexivity. Qed.

Lemma mem_create_adds_index : create_adds_index Mem.perform Mem.index_names.
Proof.
  intros c name d metric s s' H. simpl in H.
  destruct (bool_decide (name ∈ Mem.index_names s)); [discriminate|].
  inversion H. simpl. apply elem_of_app. right. apply list_elem_of_singleton.
  reflexivity.
Qed.

Lemma mem_only_create_changes_indexes :
  only_create_changes_indexes Mem.perform Mem.index_names.
Proof.
  intros A c s Hc. destruct c; try discriminate; simpl;
    repeat match goal with
      | |- context [match ?x with _ => _ end] => destruct x
      end; reflexivity.
Qed.

(** * The theorems at concrete inputs *)

Lemma allowed_file_witness :
  allowed_file Mem.lower Mem.cfg "report" = false /\
  (exists msg,
      upload_document Mem.perform Mem.cfg Mem.lower Mem.decode_utf8
        Mem.import_module Mem.pdf_reader_pages Mem.docx_paragraphs
        Mem.xlsx_sheets Mem.secure_filename Mem.split_documents
        (Mem.upload_of "report" "x") (Mem.world Mem.sample ∅)
      = (inr (error_response msg 400), Mem.world Mem.sample ∅)) /\
  allowed_file Mem.lower Mem.cfg "report.PDF" = true.
Proof.
  destruct (allowed_file_no_dot_and_case Mem.perform Mem.cfg Mem.lower
              Mem.decode_utf8 Mem.import_module Mem.pdf_reader_pages
              Mem.docx_paragraphs Mem.xlsx_sheets Mem.secure_filename
              Mem.split_documents)
    as (Hno & Hupload & Hcase).
  split; [|split].
  - apply Hno. apply contains_false_spec. vm_compute. reflexivity.
  - refine (Hupload (Mem.upload_of "report" "x") (Mem.world Mem.sample ∅)
              [("file", {| filename := "report"; stream := "x" |})]
              {| filename := "report"; stream := "x" |} eq_refl eq_refl _).
    apply contains_false_spec. vm_compute. reflexivity.
  - apply (Hcase "report" "PDF" "pdf").
    + apply (bool_decide_eq_true_1 _). vm_compute. reflexivity.
    + reflexivity.
    + apply contains_false_spec. vm_compute. reflexivity.
    + reflexivity.
Defined.

(** C10 as stated fails.  With [ALLOWED_EXTENSIONS] set to [PDF], the names
    [a.pdf] and [a.PDF] have an extension that differs from the allowed one
    at most in letter case, and neither is accepted: the file's extension is
    lower-cased, the configured one is not.  And an upload named [report],
    without a ['.'], in a body over [MAX_CONTENT_LENGTH] is answered 500,
    not 400. *)
Lemma allowed_file_upper_case_entry :
  "PDF" ∈ ALLOWED_EXTENSIONS Mem.upper_case_entry /\
  allowed_file Mem.lower Mem.upper_case_entry "a.pdf" = false /\
  allowed_file Mem.lower Mem.upper_case_entry "a.PDF" = false /\
  fst (upload_document Mem.perform Mem.cfg Mem.lower Mem.decode_utf8
         Mem.import_module Mem.pdf_reader_pages Mem.docx_paragraphs
         Mem.xlsx_sheets Mem.secure_filename Mem.split_documents
         (Mem.upload_sized Mem.seventeen_MiB "report" "x")
         (Mem.world Mem.sample ∅))
  = inr (error_response
           ("Failed to process document: "
            +:+ exn_str request_entity_too_large) 500).
Proof.
  split; [apply (bool_decide_eq_true_1 _); vm_compute; reflexivity|].
  split; [vm_compute; reflexivity|].
  split; vm_compute; reflexivity.
Qed.

Lemma uninitialized_store_witness :
  fst (add_documents Mem.perform Mem.unconnected [] (Mem.world Mem.blank ∅))
  = inl not_initialized /\
  fst (get_stats Mem.perform Mem.cfg Mem.unconnected (Mem.world Mem.blank ∅))
  = inl not_initialized.
Proof.
  destruct (uninitialized_store_fails Mem.perform Mem.py_repr Mem.cfg
              Mem.unconnected (Mem.world Mem.blank ∅) eq_refl)
    as (Hadd & _ & _ & _ & _ & Hstats).
  split.
  - rewrite Hadd. reflexivity.
  - rewrite Hstats. reflexivity.
Defined.

Lemma find_similar_witness :
  exists results w',
    find_similar_documents Mem.perform Mem.py_repr Mem.connected (PStr "a") (PInt 1)
      (Mem.world Mem.sample ∅) = (inr results, w') /\
    length results = 1%nat /\
    forall r, r ∈ results ->
              Py.dict_get "doc_id" (metadata (fst r)) <> Some (PStr "a").
Proof.
  eexists. eexists. split; [vm_compute; reflexivity|].
  split; [reflexivity|].
  refine (proj1 (find_similar_excludes_reference_and_truncates
                   Mem.perform Mem.py_repr
                   mem_honours_ne_filter mem_rejects_top_k_below_1
                   Mem.connected (PStr "a") (PInt 1) (Mem.world Mem.sample ∅)
                   _ _ _)).
  vm_compute. reflexivity.
Defined.

Lemma delete_document_witness :
  fst (delete_document Mem.perform Mem.py_repr Mem.cfg Mem.connected (PStr "zzz")
         (Mem.world Mem.sample ∅)) = inr false /\
  fst (delete_document_route Mem.perform Mem.py_repr Mem.cfg "zzz"
         (Mem.world Mem.sample ∅))
  = inr (error_response "Document not found" 404) /\
  fst (delete_document Mem.perform Mem.py_repr Mem.cfg Mem.connected (PStr "a")
         (Mem.world Mem.sample ∅)) = inr true /\
  fst (delete_document_route Mem.perform Mem.py_repr Mem.cfg "a"
         (Mem.world Mem.sample ∅))
  = inr (deleted_response "a").
Proof.
  destruct (delete_document_found_or_not Mem.perform Mem.py_repr Mem.cfg)
    as [Hmanager Hroute].
  split; [|split; [|split]].
  - eapply (Hmanager Mem.connected (PStr "zzz") (Mem.world Mem.sample ∅)).
    + reflexivity.
    + reflexivity.
    + vm_compute. reflexivity.
    + vm_compute. reflexivity.
    + reflexivity.
  - eapply (Hroute "zzz" (Mem.world Mem.sample ∅)).
    + vm_compute. reflexivity.
    + reflexivity.
    + reflexivity.
    + vm_compute. reflexivity.
    + vm_compute. reflexivity.
    + reflexivity.
  - eapply (Hmanager Mem.connected (PStr "a") (Mem.world Mem.sample ∅)).
    + reflexivity.
    + reflexivity.
    + vm_compute. reflexivity.
    + vm_compute. reflexivity.
    + discriminate.
    + vm_compute. reflexivity.
  - eapply (Hroute "a" (Mem.world Mem.sample ∅)).
    + vm_compute. reflexivity.
    + reflexivity.
    + reflexivity.
    + vm_compute. reflexivity.
    + vm_compute. reflexivity.
    + discriminate.
    + vm_compute. reflexivity.
Defined.

Lemma similar_unknown_doc_id_witness :
  fst (find_similar_documents_route Mem.perform Mem.py_repr Mem.cfg
         (Mem.json (PDict [("doc_id", PStr "zzz")]))
         (Mem.world Mem.sample ∅))
  = inr (error_response
           "Failed to find similar documents: Document with ID zzz not found"
           500).
Proof.
  eapply (similar_unknown_doc_id_gives_500 Mem.perform Mem.py_repr Mem.cfg
            (Mem.json (PDict [("doc_id", PStr "zzz")]))
            (Mem.world Mem.sample ∅) [("doc_id", PStr "zzz")] (PStr "zzz")).
  - reflexivity.
  - reflexivity.
  - vm_compute. reflexivity.
  - reflexivity.
  - vm_compute. reflexivity.
Defined.

Lemma disallowed_upload_witness :
  exists msg,
    upload_document Mem.perform Mem.cfg Mem.lower Mem.decode_utf8
      Mem.import_module Mem.pdf_reader_pages Mem.docx_paragraphs
      Mem.xlsx_sheets Mem.secure_filename Mem.split_documents
      (Mem.upload_of "setup.exe" "MZ") (Mem.world Mem.sample ∅)
    = (inr (error_response msg 400), Mem.world Mem.sample ∅).
Proof.
  refine (disallowed_upload_rejected Mem.perform Mem.cfg Mem.lower
            Mem.decode_utf8 Mem.import_module Mem.pdf_reader_pages
            Mem.docx_paragraphs Mem.xlsx_sheets Mem.secure_filename
            Mem.split_documents (Mem.upload_of "setup.exe" "MZ")
            (Mem.world Mem.sample ∅)
            [("file", {| filename := "setup.exe"; stream := "MZ" |})]
            {| filename := "setup.exe"; stream := "MZ" |} eq_refl eq_refl _).
  intros ext Hext Hin. vm_compute in Hext. inversion Hext. subst ext.
  apply (bool_decide_eq_true_2 _) in Hin. vm_compute in Hin. discriminate.
Defined.

(** C7 as stated fails.  An upload of [setup.exe] in a body of 17 MiB, over
    the default [MAX_CONTENT_LENGTH] of 16 MiB, is not answered 400:
    [request.files] raises inside the [try], the handler's [except] answers
    500 and logs the error, so the world is not as it was. *)
Lemma oversized_disallowed_upload_gets_500 :
  (forall ext, file_ext Mem.lower "setup.exe" = Some ext ->
               ext ∉ ALLOWED_EXTENSIONS Mem.cfg) /\
  upload_document Mem.perform Mem.cfg Mem.lower Mem.decode_utf8
    Mem.import_module Mem.pdf_reader_pages Mem.docx_paragraphs
    Mem.xlsx_sheets Mem.secure_filename Mem.split_documents
    (Mem.upload_sized Mem.seventeen_MiB "setup.exe" "MZ")
    (Mem.world Mem.sample ∅)
  = (inr (error_response
            ("Failed to process document: "
             +:+ exn_str request_entity_too_large) 500),
     app_logged (Mem.world Mem.sample ∅) "Error processing document"
       request_entity_too_large) /\
  app_logged (Mem.world Mem.sample ∅) "Error processing document"
    request_entity_too_large
  <> Mem.world Mem.sample ∅.
Proof.
  split; [|split].
  - intros ext Hext Hin. vm_compute in Hext. inversion Hext. subst ext.
    apply (bool_decide_eq_true_2 _) in Hin. vm_compute in Hin. discriminate.
  - vm_compute. reflexivity.
  - intros H. apply (f_equal log) in H. vm_compute in H. discriminate.
Qed.

Lemma temp_file_witness :
  fs (snd (upload_document Mem.perform Mem.cfg Mem.lower Mem.decode_utf8
             Mem.import_module Mem.pdf_reader_pages Mem.docx_paragraphs
             Mem.xlsx_sheets Mem.secure_filename Mem.split_documents
             (Mem.upload_of "notes.txt" "hello")
             (Mem.world Mem.blank ∅)))
    !! "/tmp/uuid-0_notes.txt" = None.
Proof.
  change "/tmp/uuid-0_notes.txt"
    with (temp_path_of "uuid-0"
            (Mem.secure_filename
               (filename {| filename := "notes.txt"; stream := "hello" |}))).
  refine (proj2 (temp_file_removed Mem.perform Mem.cfg Mem.lower
                   Mem.decode_utf8 Mem.import_module Mem.pdf_reader_pages
                   Mem.docx_paragraphs Mem.xlsx_sheets Mem.secure_filename
                   Mem.split_documents)
            (Mem.upload_of "notes.txt" "hello") _
            [("file", {| filename := "notes.txt"; stream := "hello" |})]
            _ "uuid-0" (Mem.mkState [] [] 1) eq_refl eq_refl _ _ _).
  - discriminate.
  - vm_compute. reflexivity.
  - vm_compute. reflexivity.
Defined.


Lemma load_document_witness :
  load_document Mem.lower Mem.decode_utf8 Mem.import_module Mem.pdf_reader_pages
    Mem.docx_paragraphs Mem.xlsx_sheets "/tmp/u_setup.exe" "setup.exe"
    (Mem.world Mem.blank ∅)
  = (inl (mkExn ValueError
            "Error loading exe file: Unsupported file type: exe"),
     Mem.world Mem.blank ∅) /\
  load_document Mem.lower Mem.decode_utf8 Mem.import_module Mem.pdf_reader_pages
    Mem.docx_paragraphs Mem.xlsx_sheets "/tmp/u_notes.txt" "notes.txt"
    (Mem.world Mem.blank ∅)
  = (inl (mkExn ValueError
            "Error loading txt file: [Errno 2] No such file or directory: '/tmp/u_notes.txt'"),
     Mem.world Mem.blank ∅).
Proof.
  split.
  - refine (proj1 (proj1 (load_document_errors Mem.lower Mem.decode_utf8
                            Mem.import_module Mem.pdf_reader_pages
                            Mem.docx_paragraphs Mem.xlsx_sheets
                            "/tmp/u_setup.exe" "setup.exe" "exe"
                            (Mem.world Mem.blank ∅) eq_refl)
                     _ _ _ _)); discriminate.
  - refine (proj1 (proj2 (load_document_errors Mem.lower Mem.decode_utf8
                            Mem.import_module Mem.pdf_reader_pages
                            Mem.docx_paragraphs Mem.xlsx_sheets
                            "/tmp/u_notes.txt" "notes.txt" "txt"
                            (Mem.world Mem.blank ∅) eq_refl)
                     _ None
                     (mkExn FileNotFoundError
                        "[Errno 2] No such file or directory: '/tmp/u_notes.txt'")
                     (Mem.world Mem.blank ∅) eq_refl _)).
    vm_compute. reflexivity.
Defined.

(** C5 as stated fails: pdf is a supported extension, and where PyPDF2 is not
    installed the reading fails with [No module named 'PyPDF2']; the load
    error that [load_document] raises does not include that message. *)
Lemma load_document_drops_import_message :
  read_pdf Mem.import_without_PyPDF2 Mem.pdf_reader_pages "/tmp/u_a.pdf"
    (Mem.world Mem.blank {[ "/tmp/u_a.pdf" := "%PDF-1.7" ]})
  = (inl Mem.no_module_named_PyPDF2,
     Mem.world Mem.blank {[ "/tmp/u_a.pdf" := "%PDF-1.7" ]}) /\
  load_document Mem.lower Mem.decode_utf8 Mem.import_without_PyPDF2
    Mem.pdf_reader_pages
    Mem.docx_paragraphs Mem.xlsx_sheets "/tmp/u_a.pdf" "a.pdf"
    (Mem.world Mem.blank {[ "/tmp/u_a.pdf" := "%PDF-1.7" ]})
  = (inl (mkExn ValueError
            "Error loading pdf file: PyPDF2 is required for PDF processing"),
     Mem.world Mem.blank {[ "/tmp/u_a.pdf" := "%PDF-1.7" ]}) /\
  ~ occurs_in (exn_str Mem.no_module_named_PyPDF2)
      "Error loading pdf file: PyPDF2 is required for PDF processing".
Proof.
  split; [reflexivity|]. split; [reflexivity|].
  apply contains_false_spec. vm_compute. reflexivity.
Qed.

Lemma search_documents_number_witness :
  status
    (match fst (search_documents Mem.perform Mem.cfg
                  {| content_length := 64; files := inr [];
                     get_json := inr (PInt 5) |}
                  (Mem.world Mem.sample ∅)) with
     | inr response => response
     | inl _ => error_response EmptyString 0
     end) = 500.
Proof.
  rewrite (search_documents_number_body Mem.perform Mem.cfg 64 (inr [])
             (Mem.world Mem.sample ∅) 5); [reflexivity | discriminate].
Defined.

(** * The further properties at concrete inputs *)

Lemma mem_lower_not_PDF s : Mem.lower s <> "PDF".
Proof.
  destruct s as [|c s]; simpl; [discriminate|]. intros H.
  injection H as Hc _. revert Hc.
  destruct c as [b0 b1 b2 b3 b4 b5 b6 b7].
  destruct b0, b1, b2, b3, b4, b5, b6, b7; vm_compute; discriminate.
Qed.

Lemma allowed_file_iff_witness :
  allowed_file Mem.lower Mem.cfg "archive.tar.PDF" = true /\
  allowed_file Mem.lower (without_extension "PDF" Mem.upper_case_entry) "a.PDF"
  = allowed_file Mem.lower Mem.upper_case_entry "a.PDF".
Proof.
  split.
  - apply (proj1 (allowed_file_iff Mem.cfg Mem.lower "archive.tar.PDF")).
    exists "archive.tar", "PDF". split; [reflexivity|]. split.
    + apply contains_false_spec. vm_compute. reflexivity.
    + apply (bool_decide_eq_true_1 _). vm_compute. reflexivity.
  - apply (proj2 (allowed_file_iff Mem.upper_case_entry Mem.lower "a.PDF")).
    exact mem_lower_not_PDF.
Defined.

Lemma upload_touches_only_its_temp_file_witness :
  fs (snd (upload_document Mem.perform Mem.cfg Mem.lower Mem.decode_utf8
             Mem.import_module Mem.pdf_reader_pages Mem.docx_paragraphs
             Mem.xlsx_sheets Mem.secure_filename Mem.split_documents
             (Mem.upload_of "notes.txt" "hello")
             (Mem.world Mem.sample {[ "/tmp/uuid-9_notes.txt" := "kept" ]})))
    !! "/tmp/uuid-9_notes.txt"
  = Some "kept".
Proof.
  rewrite (upload_touches_only_its_temp_file Mem.perform Mem.cfg
             Mem.lower Mem.decode_utf8 Mem.import_module Mem.pdf_reader_pages
             Mem.docx_paragraphs Mem.xlsx_sheets Mem.secure_filename
             Mem.split_documents (Mem.upload_of "notes.txt" "hello")
             (Mem.world Mem.sample {[ "/tmp/uuid-9_notes.txt" := "kept" ]})
             "/tmp/uuid-9_notes.txt").
  - reflexivity.
  - intros files_ file doc_id s1 Hread Hfile Hdraw E.
    vm_compute in Hread. injection Hread as <-.
    vm_compute in Hfile. injection Hfile as <-.
    vm_compute in Hdraw. injection Hdraw as <- _.
    vm_compute in E. discriminate E.
Defined.

Lemma add_metadata_retags_witness :
  exists texts' w' times,
    add_metadata Mem.perform "d1" "a.txt"
      [mkDocument "one" [("source", PStr "/tmp/d1_a.txt")];
       mkDocument "two" [("source", PStr "/tmp/d1_a.txt")]]
      (Mem.world Mem.sample ∅)
    = (inr texts', w') /\
    clock_reads Mem.perform Mem.sample times (service w') /\
    Forall2 stamped texts' times /\
    Forall2 (retagged "d1" "a.txt")
      [mkDocument "one" [("source", PStr "/tmp/d1_a.txt")];
       mkDocument "two" [("source", PStr "/tmp/d1_a.txt")]]
      texts' /\
    trace w' = [ECall UtcNowIsoformat; ECall UtcNowIsoformat].
Proof.
  destruct (add_metadata_retags Mem.perform "d1" "a.txt"
              [mkDocument "one" [("source", PStr "/tmp/d1_a.txt")];
               mkDocument "two" [("source", PStr "/tmp/d1_a.txt")]]
              (Mem.world Mem.sample ∅) _ _ ltac:(vm_compute; reflexivity))
    as (times & Hreads & Hstamps & Htag & Htrace & _).
  eexists. eexists. exists times. split; [vm_compute; reflexivity|].
  split; [exact Hreads|]. split; [exact Hstamps|].
  split; [exact Htag | exact Htrace].
Defined.

Lemma upload_created_witness :
  exists r w' vs texts,
    upload_document Mem.perform Mem.cfg Mem.lower Mem.decode_utf8
      Mem.import_module
      Mem.pdf_reader_pages Mem.docx_paragraphs Mem.xlsx_sheets
      Mem.secure_filename Mem.split_documents
      (Mem.upload_of "notes.txt" "hello") (Mem.world Mem.sample ∅)
    = (inr r, w') /\
    status r = 201 /\
    add_calls (trace w') = [(vs, texts)] /\
    Py.dict_get "chunks_created" (match body r with PDict d => d | _ => [] end)
    = Some (PInt (Z.of_nat (length texts))).
Proof.
  pose (w := Mem.world Mem.sample ∅).
  destruct (upload_created Mem.perform Mem.cfg Mem.lower Mem.decode_utf8
              Mem.import_module Mem.pdf_reader_pages Mem.docx_paragraphs
              Mem.xlsx_sheets Mem.secure_filename Mem.split_documents
              (Mem.upload_of "notes.txt" "hello") w
              _ _ ltac:(vm_compute; reflexivity) eq_refl)
    as (files_ & file & doc_id & vs & texts & documents & splits
        & _ & _ & _ & _ & _ & _ & Hr & Hadd & _).
  eexists. eexists. exists vs, texts.
  split; [vm_compute; reflexivity|]. split; [reflexivity|].
  split; [exact Hadd|].
  rewrite Hr. reflexivity.
Defined.

Lemma upload_400_iff_invalid_witness :
  upload_document Mem.perform Mem.cfg Mem.lower Mem.decode_utf8
    Mem.import_module
    Mem.pdf_reader_pages Mem.docx_paragraphs Mem.xlsx_sheets
    Mem.secure_filename Mem.split_documents
    (Mem.upload_of "setup.exe" "MZ") (Mem.world Mem.sample ∅)
  = (inr (error_response "File type not allowed" 400),
     Mem.world Mem.sample ∅) /\
  upload_invalid Mem.cfg Mem.lower (Mem.upload_of "setup.exe" "MZ").
Proof.
  assert (Hrun :
            upload_document Mem.perform Mem.cfg Mem.lower Mem.decode_utf8
              Mem.import_module Mem.pdf_reader_pages Mem.docx_paragraphs
              Mem.xlsx_sheets Mem.secure_filename Mem.split_documents
              (Mem.upload_of "setup.exe" "MZ") (Mem.world Mem.sample ∅)
            = (inr (error_response "File type not allowed" 400),
               Mem.world Mem.sample ∅))
    by (vm_compute; reflexivity).
  split; [exact Hrun|].
  apply (proj1 (upload_400_iff_invalid Mem.perform Mem.cfg Mem.lower
    Mem.decode_utf8
                  Mem.import_module Mem.pdf_reader_pages Mem.docx_paragraphs
                  Mem.xlsx_sheets Mem.secure_filename Mem.split_documents
                  _ _ _ _ Hrun)).
  reflexivity.
Defined.

Lemma upload_sanitised_name_without_dot_witness :
  allowed_file Mem.lower Mem.cfg ".txt" = true /\
  fst (upload_document Mem.perform Mem.cfg Mem.lower Mem.decode_utf8
    Mem.import_module
         Mem.pdf_reader_pages Mem.docx_paragraphs Mem.xlsx_sheets
         Mem.drop_leading_dot Mem.split_documents
         (Mem.upload_of ".txt" "hello") (Mem.world Mem.sample ∅))
  = inr (error_response
           "Failed to process document: list index out of range" 500).
Proof.
  split; [vm_compute; reflexivity|].
  refine (proj2 (upload_sanitised_name_without_dot Mem.perform Mem.cfg
                   Mem.lower Mem.decode_utf8 Mem.import_module
                     Mem.pdf_reader_pages
                   Mem.docx_paragraphs Mem.xlsx_sheets Mem.drop_leading_dot
                   Mem.split_documents (Mem.upload_of ".txt" "hello")
                   (Mem.world Mem.sample ∅)
                   [("file", {| filename := ".txt"; stream := "hello" |})]
                   {| filename := ".txt"; stream := "hello" |}
                   "uuid-0" (Mem.mkState (Mem.index_names Mem.sample)
                               (Mem.vectors Mem.sample) 1)
                   eq_refl eq_refl _ _ _ _)).
  - discriminate.
  - vm_compute. reflexivity.
  - apply contains_false_spec. vm_compute. reflexivity.
  - vm_compute. reflexivity.
Defined.

Lemma manager_connected_iff_index_exists_witness :
  (exists self w',
      VectorStoreManager_init Mem.perform Mem.cfg (Mem.world Mem.sample ∅)
      = (inr self, w') /\
      vector_store self <> None) /\
  (exists self w',
      VectorStoreManager_init Mem.perform Mem.cfg (Mem.world Mem.blank ∅)
      = (inr self, w') /\
      ~ vector_store self <> None).
Proof.
  split; eexists; eexists; (split; [vm_compute; reflexivity|]).
  - apply (proj1 (manager_connected_iff_index_exists Mem.perform Mem.cfg
                    Mem.index_names mem_lists_the_indexes
                    mem_only_create_changes_indexes
                    (Mem.world Mem.sample ∅) _ _
                    ltac:(vm_compute; reflexivity))).
    apply (bool_decide_eq_true_1 _). vm_compute. reflexivity.
  - intros H.
    apply (proj1 (manager_connected_iff_index_exists Mem.perform Mem.cfg
                    Mem.index_names mem_lists_the_indexes
                    mem_only_create_changes_indexes
                    (Mem.world Mem.blank ∅) _ _
                    ltac:(vm_compute; reflexivity))) in H.
    apply (bool_decide_eq_true_2 _) in H. vm_compute in H. discriminate.
Defined.

Lemma constructor_failure_passes_through_witness :
  fst (list_documents_route Mem.perform Mem.no_pinecone_key
         (Mem.world Mem.sample ∅))
  = inr (error_response
           "Failed to list documents: You haven't specified an Api-Key." 500) /\
  fst (search_documents Mem.perform Mem.no_pinecone_key
         (Mem.json (PDict [("query", PStr "alpha")]))
         (Mem.world Mem.sample ∅))
  = inr (error_response
           "Search failed: You haven't specified an Api-Key." 500).
Proof.
  pose (w := Mem.world Mem.sample ∅).
  destruct (constructor_failure_passes_through Mem.perform Mem.py_repr
              Mem.no_pinecone_key
              (Mem.json (PDict [("query", PStr "alpha")])) "a" w _ _
              ltac:(vm_compute; reflexivity))
    as (Hlist & _ & _ & Hsearch & _).
  split; [exact Hlist|].
  exact (Hsearch [("query", PStr "alpha")] (PStr "alpha") eq_refl eq_refl).
Defined.

Lemma routes_without_index_witness :
  fst (get_search_stats Mem.perform Mem.cfg (Mem.world Mem.blank ∅))
  = inr (error_response
           "Failed to get stats: Vector store not initialized" 500) /\
  fst (find_similar_documents_route Mem.perform Mem.py_repr Mem.cfg
         (Mem.json (PDict [("doc_id", PStr "a")])) (Mem.world Mem.blank ∅))
  = inr (error_response
           "Failed to find similar documents: Vector store not initialized"
           500).
Proof.
  pose (w := Mem.world Mem.blank ∅).
  destruct (routes_without_index Mem.perform Mem.py_repr Mem.cfg
              (Mem.json (PDict [("doc_id", PStr "a")])) "a" w _ _
              ltac:(vm_compute; reflexivity) eq_refl)
    as (_ & _ & [Hstats _] & _ & Hsimilar).
  split; [exact Hstats|].
  exact (proj1 (Hsimilar [("doc_id", PStr "a")] (PStr "a") eq_refl eq_refl)).
Defined.

Lemma init_index_creates_missing_index_witness :
  exists self1 w1,
    init_index Mem.perform Mem.cfg Mem.unconnected 384 (Mem.world Mem.blank ∅)
    = (inr self1, w1) /\
    creates (trace w1)
    = [ECall (CreateIndex "pc-key" "langchain-documents" 384 "cosine")].
Proof.
  pose (w := Mem.world Mem.blank ∅).
  destruct (init_index_creates_missing_index Mem.perform Mem.cfg
              Mem.index_names mem_lists_the_indexes Mem.unconnected 384 w
              _ _ ltac:(vm_compute; reflexivity))
    as (c & Hc & Hcreates).
  { intros Hin. apply (bool_decide_eq_true_2 _) in Hin. vm_compute in Hin.
    discriminate. }
  injection Hc as <-.
  eexists. eexists. split; [vm_compute; reflexivity | exact Hcreates].
Defined.

Lemma init_db_command_initializes_witness :
  (exists w',
      init_db_command Mem.perform Mem.cfg (Mem.world Mem.blank ∅)
      = (inr initialized_message, w') /\
      "langchain-documents" ∈ Mem.index_names (service w')) /\
  (exists w',
      init_db_command Mem.perform Mem.cfg (Mem.world Mem.sample ∅)
      = (inr initialized_message, w') /\
      quiet Mem.index_names (Mem.world Mem.sample ∅) w').
Proof.
  split; eexists; (split; [vm_compute; reflexivity|]).
  - pose (w := Mem.world Mem.blank ∅).
    exact (proj1 (proj2 (init_db_command_initializes Mem.perform Mem.cfg
                           Mem.index_names mem_lists_the_indexes
                           mem_create_adds_index
                           mem_only_create_changes_indexes w)
                    _ ltac:(vm_compute; reflexivity))).
  - pose (w := Mem.world Mem.sample ∅).
    apply (proj2 (proj2 (init_db_command_initializes Mem.perform Mem.cfg
                           Mem.index_names mem_lists_the_indexes
                           mem_create_adds_index
                           mem_only_create_changes_indexes w)
                    _ ltac:(vm_compute; reflexivity))).
    apply (bool_decide_eq_true_1 _). vm_compute. reflexivity.
Defined.

Lemma list_documents_groups_by_doc_id_witness :
  exists entries w',
    list_documents Mem.perform Mem.cfg Mem.connected (Mem.world Mem.sample ∅)
    = (inr entries, w') /\
    map (Py.dict_get "chunk_count") entries
    = [Some (PInt 2); Some (PInt 1)] /\
    forall entry1 entry2 d1 d2,
      entries !! 0%nat = Some entry1 -> entries !! 1%nat = Some entry2 ->
      Py.dict_get "doc_id" entry1 = Some d1 ->
      Py.dict_get "doc_id" entry2 = Some d2 ->
      Py.key_eqb d1 d2 = false.
Proof.
  pose (w := Mem.world Mem.sample ∅).
  destruct (list_documents_groups_by_doc_id Mem.perform Mem.cfg
              Mem.connected w _ _ ltac:(vm_compute; reflexivity))
    as (c & index & s1 & stats & s2 & matches & _ & _ & _ & _ & _ & _
        & Hdistinct).
  eexists. eexists. split; [vm_compute; reflexivity|].
  split; [reflexivity|].
  intros entry1 entry2 d1 d2.
  apply (Hdistinct 0%nat 1%nat entry1 entry2 d1 d2). discriminate.
Defined.

Lemma delete_document_deletes_what_it_found_witness :
  exists w',
    delete_document Mem.perform Mem.py_repr Mem.cfg Mem.connected (PStr "a")
      (Mem.world Mem.sample ∅)
    = (inr true, w') /\
    delete_calls (trace w') = [("langchain-documents", ["vec-0"; "vec-1"])].
Proof.
  pose (w := Mem.world Mem.sample ∅).
  destruct (delete_document_deletes_what_it_found Mem.perform Mem.py_repr
              Mem.cfg Mem.connected (PStr "a") w true _
              ltac:(vm_compute; reflexivity))
    as (c & index & s1 & matches & s2 & _ & Hindex & Hquery & _ & Hdel & _).
  vm_compute in Hindex. injection Hindex as <- <-.
  vm_compute in Hquery. injection Hquery as <- _.
  eexists. split; [vm_compute; reflexivity | exact Hdel].
Defined.

Lemma load_document_pdf_pages_witness :
  exists documents w',
    load_document Mem.lower Mem.decode_utf8 Mem.import_module Mem.three_pages
      Mem.docx_paragraphs Mem.xlsx_sheets "/tmp/u_a.pdf" "a.pdf"
      (Mem.world Mem.blank {[ "/tmp/u_a.pdf" := "%PDF-1.7" ]})
    = (inr documents, w') /\
    page_document "/tmp/u_a.pdf" 2 "third page" ∈ documents /\
    length documents = 2%nat /\
    StronglySorted earlier_page documents.
Proof.
  pose (w := Mem.world Mem.blank {[ "/tmp/u_a.pdf" := "%PDF-1.7" ]}).
  destruct (load_document_pdf_pages Mem.lower Mem.decode_utf8
              Mem.import_module Mem.three_pages Mem.docx_paragraphs
              Mem.xlsx_sheets "/tmp/u_a.pdf" "a.pdf" w _ _ eq_refl
              ltac:(vm_compute; reflexivity))
    as (data & pages & _ & Hpages & _ & Helem & Hsorted).
  injection Hpages as <-.
  eexists. eexists. split; [vm_compute; reflexivity|].
  split; [|split; [reflexivity | exact Hsorted]].
  apply Helem. exists 2%nat, "third page".
  split; [reflexivity|]. split; reflexivity.
Defined.

Lemma load_document_returns_witness :
  exists documents,
    load_document Mem.lower Mem.decode_utf8 Mem.import_module
      Mem.pdf_reader_pages
      Mem.docx_paragraphs Mem.xlsx_sheets "/tmp/u_notes.txt" "notes.TXT"
      (Mem.world Mem.blank {[ "/tmp/u_notes.txt" := "hello" ]})
    = (inr documents,
       Mem.world Mem.blank {[ "/tmp/u_notes.txt" := "hello" ]}) /\
    Forall (fun doc => Py.dict_get "source" (metadata doc)
                       = Some (PStr "/tmp/u_notes.txt")) documents.
Proof.
  pose (w := Mem.world Mem.blank {[ "/tmp/u_notes.txt" := "hello" ]}).
  destruct (load_document_returns Mem.lower Mem.decode_utf8 Mem.import_module
              Mem.pdf_reader_pages Mem.docx_paragraphs Mem.xlsx_sheets
              "/tmp/u_notes.txt" "notes.TXT" w _ _
              ltac:(vm_compute; reflexivity))
    as (_ & Hsource & _).
  eexists. split; [vm_compute; reflexivity | exact Hsource].
Defined.

Lemma search_documents_ok_witness :
  exists resp w' vs results,
    search_documents Mem.perform Mem.cfg
      (Mem.json (PDict [("query", PStr "alpha"); ("k", PInt 2)]))
      (Mem.world Mem.sample ∅)
    = (inr resp, w') /\
    status resp = 200 /\
    Mem.perform _
      (VsSimilaritySearchWithScore vs (PStr "alpha") (PInt 2) (PDict []))
      Mem.sample
    = (inr results, service w') /\
    Py.dict_get "results" (match body resp with PDict d => d | _ => [] end)
    = Some (PList (map format_result results)) /\
    search_calls (trace w') = [(vs, PStr "alpha", PInt 2, PDict [])].
Proof.
  pose (w := Mem.world Mem.sample ∅).
  destruct (search_documents_ok Mem.perform Mem.cfg
              (Mem.json (PDict [("query", PStr "alpha"); ("k", PInt 2)])) w
              _ _ ltac:(vm_compute; reflexivity) eq_refl)
    as (d & query & self & w1 & vs & results & Hjson & Hquery & Hinit & _
        & Hanswer & Hcalls & Hresp).
  injection Hjson as <-. injection Hquery as <-.
  vm_compute in Hinit. injection Hinit as _ <-.
  eexists. eexists. exists vs, results.
  split; [vm_compute; reflexivity|]. split; [reflexivity|].
  split; [exact Hanswer|]. split; [|exact Hcalls].
  rewrite Hresp. reflexivity.
Defined.

Lemma search_routes_400_iff_field_missing_witness :
  search_documents Mem.perform Mem.cfg
    (Mem.json (PDict [("k", PInt 2)])) (Mem.world Mem.sample ∅)
  = (inr (error_response "Query is required" 400), Mem.world Mem.sample ∅) /\
  field_missing (Mem.json (PDict [("k", PInt 2)])) "query".
Proof.
  assert (Hrun :
            search_documents Mem.perform Mem.cfg
              (Mem.json (PDict [("k", PInt 2)])) (Mem.world Mem.sample ∅)
            = (inr (error_response "Query is required" 400),
               Mem.world Mem.sample ∅))
    by (vm_compute; reflexivity).
  split; [exact Hrun|].
  apply (proj1 (proj1 (search_routes_400_iff_field_missing Mem.perform
                         Mem.py_repr Mem.cfg _ _) _ _ Hrun)).
  reflexivity.
Defined.

Lemma upload_unloadable_file_witness :
  allowed_file Mem.lower Mem.with_markdown "notes.md" = true /\
  fst (upload_document Mem.perform Mem.with_markdown Mem.lower Mem.decode_utf8
         Mem.import_module Mem.pdf_reader_pages Mem.docx_paragraphs
         Mem.xlsx_sheets Mem.secure_filename Mem.split_documents
         (Mem.upload_of "notes.md" "# notes") (Mem.world Mem.sample ∅))
  = inr (error_response
           "Failed to process document: Error loading md file: Unsupported file type: md"
           500) /\
  trace (snd (upload_document Mem.perform Mem.with_markdown Mem.lower
    Mem.decode_utf8
                Mem.import_module Mem.pdf_reader_pages Mem.docx_paragraphs
                Mem.xlsx_sheets Mem.secure_filename Mem.split_documents
                (Mem.upload_of "notes.md" "# notes")
                (Mem.world Mem.sample ∅)))
  = [ECall Uuid4].
Proof.
  pose (w := Mem.world Mem.sample ∅).
  destruct (upload_unloadable_file_stops_before_store Mem.perform
              Mem.with_markdown Mem.lower Mem.decode_utf8 Mem.import_module
              Mem.pdf_reader_pages Mem.docx_paragraphs Mem.xlsx_sheets
              Mem.secure_filename Mem.split_documents
              (Mem.upload_of "notes.md" "# notes") w
              [("file", {| filename := "notes.md"; stream := "# notes" |})]
              {| filename := "notes.md"; stream := "# notes" |}
              "uuid-0"
              (Mem.mkState (Mem.index_names Mem.sample)
                 (Mem.vectors Mem.sample) 1)
              (load_error "md" (unsupported_file_type "md"))
              eq_refl eq_refl ltac:(discriminate)
              ltac:(vm_compute; reflexivity)
              ltac:(vm_compute; reflexivity) ltac:(vm_compute; reflexivity))
    as (Hresp & Htrace & _).
  split; [vm_compute; reflexivity|]. split; [exact Hresp | exact Htrace].
Defined.
